(** * Single-audit distiller and findings models: a shallow embedding

    The Python sources embedded here are
    - [single-audit/resolve_findings/models.py] (the CFDA validator of
      [Grant.cfda]), and
    - [single-audit/distiller/views.py] (date helpers, the Selenium-driven
      search-and-download workflow, and the agency highlights).

    Python values are modelled by the data they carry: [int] as [Z],
    [str] as [string], [date] as a record of year, month and day, an
    unbound local as [None], a raised exception as the [Raise] outcome of a
    small state-and-exception monad over the browser world. *)

From Stdlib Require Import ZArith List String Ascii Bool Lia.
Import ListNotations.
Local Open Scope string_scope.
Local Open Scope list_scope.
Local Open Scope Z_scope.

(** ** Python basics *)

Module Py.

(** The exception classes that occur in the embedded code and in the
    library calls it makes. *)
Inductive exn : Type :=
| NameError                (* also its subclass UnboundLocalError *)
| AttributeError
| KeyError
| OverflowError
| ValueError
| ValidationError
| NoSuchElementException
| WebDriverException
| TimeoutException.

(** Outcome of running a piece of Python: a value, a raised exception, or
    [Diverge] when a [while] loop has not finished within the fuel given. *)
Inductive res (A : Type) : Type :=
| Ok (a : A)
| Raise (e : exn)
| Diverge.
Arguments Ok {A} a.
Arguments Raise {A} e.
Arguments Diverge {A}.

(** Sequencing of computations that may raise. *)
Definition bindr {A B : Type} (r : res A) (k : A -> res B) : res B :=
  match r with
  | Ok a => k a
  | Raise e => Raise e
  | Diverge => Diverge
  end.

(** *** [str] of an [int] *)

Definition digit_char (d : Z) : ascii := ascii_of_nat (48 + Z.to_nat d).

(** Decimal digits of a non-negative integer, least significant first. *)
Fixpoint rev_digits (fuel : nat) (n : Z) : list ascii :=
  match fuel with
  | O => []
  | S fuel' =>
      digit_char (n mod 10) ::
      (if n <? 10 then [] else rev_digits fuel' (n / 10))
  end.

(** A number below [2^k] has at most [k] decimal digits, so the binary
    length is enough fuel. *)
Definition digits_fuel (n : Z) : nat := S (Z.to_nat (Z.log2 n)).

Definition str_nonneg (n : Z) : string :=
  string_of_list_ascii (rev (rev_digits (digits_fuel n) n)).

(** [str(n)] for a Python [int]. *)
Definition str (n : Z) : string :=
  if n <? 0 then String "-" (str_nonneg (- n)) else str_nonneg n.

(** [len(s)] for a Python [str]. *)
Definition len (s : string) : Z := Z.of_nat (String.length s).

(** [s.zfill(w)]-style left padding with zeros, as the C library pads
    numeric [strftime] fields. *)
Fixpoint zeros (k : nat) : string :=
  match k with O => "" | S k' => String "0" (zeros k') end.

Definition pad0 (w : nat) (s : string) : string :=
  (zeros (w - String.length s) ++ s)%string.

End Py.

(** ** resolve_findings/models.py *)

Module Models.
Import Py.

(** [validate_cfda_number(number)]: raises [ValidationError] when
    [len(str(number)) != 5], and otherwise falls off the end (returns
    [None], here [tt]). *)
Definition validate_cfda_number (number : Z) : res unit :=
  if negb (len (str number) =? 5) then Raise ValidationError else Ok tt.




End Models.

(** ** [datetime.date] and [datetime.timedelta]

    The part of the standard [datetime] module that [views.py] uses:
    proleptic Gregorian dates, their ordinals, subtraction of a
    [timedelta] and [strftime] with the directives [%m], [%d], [%Y].
    The arithmetic follows the module's Python implementation. *)

Module Datetime.
Import Py.

Record date : Type := mkdate { year : Z; month : Z; day : Z }.

Definition MINYEAR : Z := 1.
Definition MAXYEAR : Z := 9999.
Definition _MAXORDINAL : Z := 3652059.

Definition _DAYS_IN_MONTH : list Z :=
  [-1; 31; 28; 31; 30; 31; 30; 31; 31; 30; 31; 30; 31].
Definition _DAYS_BEFORE_MONTH : list Z :=
  [-1; 0; 31; 59; 90; 120; 151; 181; 212; 243; 273; 304; 334].

(** [table[i]] for the month tables, whose indices stay within 1..12. *)
Definition index (table : list Z) (i : Z) : Z := nth (Z.to_nat i) table (-1).

Definition _is_leap (y : Z) : bool :=
  (y mod 4 =? 0) && (negb (y mod 100 =? 0) || (y mod 400 =? 0)).

Definition _days_before_year (y : Z) : Z :=
  let y := y - 1 in
  y * 365 + y / 4 - y / 100 + y / 400.

Definition _days_in_month (y m : Z) : Z :=
  if (m =? 2) && _is_leap y then 29 else index _DAYS_IN_MONTH m.

Definition _days_before_month (y m : Z) : Z :=
  index _DAYS_BEFORE_MONTH m + Z.b2z ((2 <? m) && _is_leap y).

Definition _ymd2ord (y m d : Z) : Z :=
  _days_before_year y + _days_before_month y m + d.

Definition _DI400Y : Z := Eval cbv in _days_before_year 401.
Definition _DI100Y : Z := Eval cbv in _days_before_year 101.
Definition _DI4Y : Z := Eval cbv in _days_before_year 5.

Definition _ord2ymd (n : Z) : Z * Z * Z :=
  let n := n - 1 in
  let n400 := n / _DI400Y in
  let n := n mod _DI400Y in
  let year := n400 * 400 + 1 in
  let n100 := n / _DI100Y in
  let n := n mod _DI100Y in
  let n4 := n / _DI4Y in
  let n := n mod _DI4Y in
  let n1 := n / 365 in
  let n := n mod 365 in
  let year := year + n100 * 100 + n4 * 4 + n1 in
  if (n1 =? 4) || (n100 =? 4) then (year - 1, 12, 31)
  else
    let leapyear := (n1 =? 3) && (negb (n4 =? 24) || (n100 =? 3)) in
    let month := Z.shiftr (n + 50) 5 in
    let preceding :=
      index _DAYS_BEFORE_MONTH month + Z.b2z ((2 <? month) && leapyear) in
    if n <? preceding then
      let month := month - 1 in
      let preceding :=
        preceding
        - (index _DAYS_IN_MONTH month + Z.b2z ((month =? 2) && leapyear)) in
      (year, month, n - preceding + 1)
    else (year, month, n - preceding + 1).

(** [_check_date_fields]: the range test of the [date] constructor. *)
Definition valid_date (d : date) : bool :=
  (MINYEAR <=? year d) && (year d <=? MAXYEAR)
  && (1 <=? month d) && (month d <=? 12)
  && (1 <=? day d) && (day d <=? _days_in_month (year d) (month d)).

(** [date(year, month, day)]. *)
Definition date_new (y m d : Z) : res date :=
  let r := mkdate y m d in
  if valid_date r then Ok r else Raise ValueError.

Definition toordinal (d : date) : Z := _ymd2ord (year d) (month d) (day d).

Definition fromordinal (n : Z) : res date :=
  let '(y, m, d) := _ord2ymd n in date_new y m d.

(** [timedelta(days)], kept as its number of days. *)
Definition timedelta (days : Z) : res Z :=
  if Z.abs days <=? 999999999 then Ok days else Raise OverflowError.

(** [date.__add__(timedelta)]. *)
Definition date_add (d : date) (delta : Z) : res date :=
  let o := toordinal d + delta in
  if (0 <? o) && (o <=? _MAXORDINAL) then fromordinal o
  else Raise OverflowError.

(** [date.__sub__(timedelta)]: [self + timedelta(-other.days)]. *)
Definition date_sub (d : date) (delta : Z) : res date :=
  bindr (timedelta (- delta)) (date_add d).

(** [date.strftime(fmt)] for the directives [%m], [%d] and [%Y]; any
    other character is copied.  Month and day are zero-padded to two
    digits.  [%Y] is the year with century as the C library prints it:
    glibc does not pad it, so it has four digits from year 1000 on. *)
Fixpoint strftime (d : date) (fmt : string) : string :=
  match fmt with
  | EmptyString => EmptyString
  | String "%" (String "m" rest) => (pad0 2 (str (month d)) ++ strftime d rest)%string
  | String "%" (String "d" rest) => (pad0 2 (str (day d)) ++ strftime d rest)%string
  | String "%" (String "Y" rest) => (str (year d) ++ strftime d rest)%string
  | String c rest => String c (strftime d rest)
  end.

(** Proof-side names for pieces of the functions above: the month tables
    as functions of the leap flag, and the month-and-day tail of
    [_ord2ymd]. *)
Definition dim (leap : bool) (m : Z) : Z :=
  if (m =? 2) && leap then 29 else index _DAYS_IN_MONTH m.

Definition dbm (leap : bool) (m : Z) : Z :=
  index _DAYS_BEFORE_MONTH m + Z.b2z ((2 <? m) && leap).

Definition month_day (leapyear : bool) (n : Z) : Z * Z :=
  let month := Z.shiftr (n + 50) 5 in
  let preceding :=
    index _DAYS_BEFORE_MONTH month + Z.b2z ((2 <? month) && leapyear) in
  if n <? preceding then
    let month := month - 1 in
    let preceding :=
      preceding
      - (index _DAYS_IN_MONTH month + Z.b2z ((month =? 2) && leapyear)) in
    (month, n - preceding + 1)
  else (month, n - preceding + 1).

End Datetime.

(** ** The browser world

    Selenium's [webdriver] is an external collaborator.  What [views.py]
    asks of it is modelled as a browser of unknown state [B] that answers
    look-ups and reacts to actions; the Python side sees a [world]: the
    browser, a clock and the trace of actions it has attempted. *)

Module Selenium.
Import Py.

(** How an element is located; a [WebElement] handle is identified by the
    look-up that produced it. *)
Inductive locator : Type :=
| ById (id : string)                            (* find_element_by_id *)
| ByCssSelector (sel : string)                  (* find_element_by_css_selector *)
| ByLinkText (parent : locator) (text : string) (* parent.find_element_by_link_text *).

Definition element : Type := locator.

(** What the script does to the browser.  [Called] is not a browser
    action: it marks, in the trace, that a function of [views.py] was
    entered. *)
Inductive action : Type :=
| Start (driver_path : string)      (* webdriver.Chrome(path) *)
| Get (url : string)                (* driver.get(url) *)
| Click (e : element)               (* e.click() *)
| Clear (e : element)               (* e.clear() *)
| SendKeys (e : element) (keys : string)    (* e.send_keys(keys) *)
| SelectByValue (e : element) (value : string) (* Select(e).select_by_value(value) *)
| Sleep (seconds : Z)               (* time.sleep(seconds) *)
| Quit                              (* driver.quit() *)
| Called (function : string).

(** An entry of Chrome's download manager, as the script of
    [list_completed_chrome_downloads] reads it: a JavaScript object whose
    properties [fileUrl] and [file_url] may be undefined. *)
Record download_item : Type := mkitem {
  state : string;
  fileUrl : option string;
  file_url : option string
}.

(** The browser together with the remote site, as a transition system. *)
Record browser (B : Type) : Type := mkbrowser {
  (** whether a look-up resolves in the current document *)
  present : B -> locator -> bool;
  (** the effect of an action, and the exception it raises, if any *)
  react : action -> B -> option exn * B;
  (** [driver.current_url] *)
  current_url : B -> string;
  (** [downloads.Manager.get().items_] on the downloads page *)
  download_items : B -> list download_item;
  (** [date.today()] *)
  today : B -> Datetime.date
}.
Arguments present {B} _ _ _.
Arguments react {B} _ _ _.
Arguments current_url {B} _ _.
Arguments download_items {B} _ _.
Arguments today {B} _ _.

(** Time is counted in whole seconds and only [time.sleep] lets it pass. *)
Record world (B : Type) : Type := mkworld {
  bstate : B;
  clock : Z;
  trace : list action
}.
Arguments mkworld {B} _ _ _.
Arguments bstate {B} _.
Arguments clock {B} _.
Arguments trace {B} _.

Definition init {B : Type} (b : B) : world B := mkworld b 0 [].

(** *** The monad of Python code driving a browser *)

Definition M (B A : Type) : Type := world B -> res A * world B.

Definition ret {B A : Type} (a : A) : M B A := fun w => (Ok a, w).

Definition raise {B A : Type} (e : exn) : M B A := fun w => (Raise e, w).

Definition diverge {B A : Type} : M B A := fun w => (Diverge, w).

Definition bind {B A C : Type} (m : M B A) (k : A -> M B C) : M B C :=
  fun w =>
    match m w with
    | (Ok a, w') => k a w'
    | (Raise e, w') => (Raise e, w')
    | (Diverge, w') => (Diverge, w')
    end.

(** [try: m  except: handler] with a bare [except], which catches every
    exception. *)
Definition try_except {B A : Type} (m handler : M B A) : M B A :=
  fun w =>
    match m w with
    | (Raise _, w') => handler w'
    | r => r
    end.

Declare Scope py_scope.
Delimit Scope py_scope with py.
Notation "x <- m ;; k" := (bind m (fun x => k))
  (at level 61, m at next level, right associativity) : py_scope.
Notation "m ;; k" := (bind m (fun _ => k))
  (at level 61, right associativity) : py_scope.

Section Driver.
Context {B : Type} (br : browser B).
Local Open Scope py_scope.

(** An action (attempted, hence recorded) that may raise. *)
Definition perform (a : action) : M B unit :=
  fun w =>
    let '(r, b') := react br a (bstate w) in
    let w' := mkworld b' (clock w) (trace w ++ [a]) in
    match r with
    | None => (Ok tt, w')
    | Some e => (Raise e, w')
    end.

(** A mark in the trace. *)
Definition mark (f : string) : M B unit :=
  fun w => (Ok tt, mkworld (bstate w) (clock w) (trace w ++ [Called f])).

(** [time.sleep(seconds)]: the clock advances and the browser is told
    that time has passed; it cannot raise. *)
Definition sleep (seconds : Z) : M B unit :=
  fun w =>
    let b' := snd (react br (Sleep seconds) (bstate w)) in
    (Ok tt, mkworld b' (clock w + seconds) (trace w ++ [Sleep seconds])).

(** [driver.quit()], taken not to raise. *)
Definition quit : M B unit :=
  fun w =>
    let b' := snd (react br Quit (bstate w)) in
    (Ok tt, mkworld b' (clock w) (trace w ++ [Quit])).

(** A look-up: the handle, or [NoSuchElementException]. *)
Definition find (l : locator) : M B element :=
  fun w =>
    if present br (bstate w) l then (Ok l, w)
    else (Raise NoSuchElementException, w).

Definition find_element_by_id (id : string) : M B element :=
  find (ById id).

Definition find_element_by_css_selector (sel : string) : M B element :=
  find (ByCssSelector sel).

Definition find_element_by_link_text (parent : element) (text : string)
  : M B element :=
  find (ByLinkText parent text).

Definition click (e : element) : M B unit := perform (Click e).
Definition clear (e : element) : M B unit := perform (Clear e).
Definition send_keys (e : element) (keys : string) : M B unit :=
  perform (SendKeys e keys).
Definition select_by_value (e : element) (value : string) : M B unit :=
  perform (SelectByValue e value).

(** Python truthiness of what [execute_script] returns for the script of
    [list_completed_chrome_downloads]: [None] and the empty list are
    false. *)
Definition truthy {A : Type} (v : option (list A)) : bool :=
  match v with
  | Some (_ :: _) => true
  | _ => false
  end.

(** [WebDriverWait(driver, timeout, poll).until(method)], after
    [selenium/webdriver/support/wait.py]:
<<
    end_time = time.time() + self._timeout
    while True:
        try:
            value = method(self._driver)
            if value:
                return value
        except self._ignored_exceptions as exc: ...
        time.sleep(self._poll)
        if time.time() > end_time:
            break
    raise TimeoutException(message, screen, stacktrace)
>>
    The ignored exceptions are [NoSuchElementException] by default. *)
Fixpoint until_loop {A : Type} (fuel : nat) (end_time poll : Z)
    (method : M B (option (list A))) : M B (list A) :=
  match fuel with
  | O => diverge
  | S fuel' =>
      fun w =>
        let continue w1 :=
          match sleep poll w1 with
          | (_, w2) =>
              if end_time <? clock w2 then (Raise TimeoutException, w2)
              else until_loop fuel' end_time poll method w2
          end in
        match method w with
        | (Ok (Some (x :: xs)), w1) => (Ok (x :: xs), w1)
        | (Ok _, w1) => continue w1
        | (Raise NoSuchElementException, w1) => continue w1
        | (Raise e, w1) => (Raise e, w1)
        | (Diverge, w1) => (Diverge, w1)
        end
  end.

(** With [poll >= 1] the loop body runs at most [timeout + 1] times. *)
Definition until {A : Type} (timeout poll : Z)
    (method : M B (option (list A))) : M B (list A) :=
  fun w =>
    until_loop (S (S (Z.to_nat timeout))) (clock w + timeout) poll method w.

End Driver.

End Selenium.

(** ** distiller/views.py *)

Module Views.
Import Py Datetime Selenium.
Local Open Scope py_scope.

(** A Python argument as far as [download_files_from_fac] inspects it:
    [None], a [str], or an object of another type. *)
Inductive pyval : Type :=
| PyNone
| PyStr (s : string)
| PyObject.

(** [os.path.join(a, b)] on a POSIX system, after [posixpath.join]:
<<
    if b.startswith(sep):
        path = b
    elif not path or path.endswith(sep):
        path += b
    else:
        path += sep + b
>>
    A call with three components joins them from left to right. *)
Definition startswith_sep (s : string) : bool :=
  match s with
  | String c _ => Ascii.eqb c "/"
  | EmptyString => false
  end.

Fixpoint endswith_sep (s : string) : bool :=
  match s with
  | EmptyString => false
  | String c EmptyString => Ascii.eqb c "/"
  | String _ rest => endswith_sep rest
  end.

Definition path_join (a b : string) : string :=
  if startswith_sep b then b
  else if match a with EmptyString => true | _ => endswith_sep a end
       then (a ++ b)%string
       else (a ++ "/" ++ b)%string.

(** A table cell as pandas holds it. *)
Inductive cell : Type :=
| CStr (s : string)
| CInt (n : Z)
| CNaN.

(** A [DataFrame]: column labels and rows; [len(df.index)] is the number
    of rows. *)
Record DataFrame : Type := mkdf {
  columns : list string;
  rows : list (list cell)
}.

Record HttpResponse : Type := mkresponse {
  content : string;
  content_type : string
}.

(** The dictionary built by [derive_agency_highlights]; [findings] is
    [None] when [__get_number_of_findings] swallowed an exception. *)
Record highlights : Type := mkhighlights {
  h_agency_prefix : string;
  h_agency_name : string;
  h_filename : string;
  cognizant_sum : Z;
  findings : option Z
}.

Section ModuleLevel.

(** [settings.BASE_DIR]. *)
Variable BASE_DIR : string.

(** The value [date.today()] had when the [def] statement of
    [_calculate_start_date] was executed, that is, when the module was
    imported: Python evaluates a default argument once, at definition. *)
Variable import_today : date.

(** The two helpers imported from [.forms], which is not part of the
    sources at hand. *)
Variable __get_agency_name_from_prefix : string -> res string.
Variable __is_valid_agency_prefix : string -> res bool.

(** [pd.read_csv(path, ...)]: the table stored at [path], or the
    exception raised. *)
Variable read_csv : string -> res DataFrame.

Definition DIRECTORY_NAME : string := "single_audit_data_dump".
Definition FILES_DIRECTORY : string :=
  path_join (path_join BASE_DIR "distiller") DIRECTORY_NAME.
Definition CHROME_DRIVER_LOCATION : string :=
  path_join BASE_DIR "distiller/chromedriver".
Definition FAC_URL : string :=
  "https://harvester.census.gov/facdissem/SearchA133.aspx".
Definition DEPT_OF_TRANSPORTATION_PREFIX : string := "20".
Definition FTA_SUBAGENCY_CODE : string := "5".

(** The string constants bound at module level of [views.py]; its other
    global names are the imports and the functions defined below. *)
Definition module_globals : list (string * string) :=
  [ ("DIRECTORY_NAME", DIRECTORY_NAME);
    ("FILES_DIRECTORY", FILES_DIRECTORY);
    ("CHROME_DRIVER_LOCATION", CHROME_DRIVER_LOCATION);
    ("FAC_URL", FAC_URL);
    ("DEPT_OF_TRANSPORTATION_PREFIX", DEPT_OF_TRANSPORTATION_PREFIX);
    ("FTA_SUBAGENCY_CODE", FTA_SUBAGENCY_CODE) ].

(** Reading a global name; an unbound name raises [NameError]. *)
Fixpoint lookup_name (globals : list (string * string)) (name : string)
  : res string :=
  match globals with
  | [] => Raise NameError
  | (n, v) :: rest =>
      if String.eqb n name then Ok v else lookup_name rest name
  end.

(** *** Dates *)

(** [date.strftime("%m/%d/%Y")]. *)
Definition _format_date_for_fac_fields (d : date) : string :=
  strftime d "%m/%d/%Y".

(** [def _calculate_start_date(time_difference=90, end_date=date.today())];
    an omitted argument is [None] here. *)
Definition _calculate_start_date (time_difference : option Z)
    (end_date : option date) : res string :=
  let time_difference :=
    match time_difference with Some t => t | None => 90 end in
  let end_date :=
    match end_date with Some d => d | None => import_today end in
  bindr (timedelta time_difference) (fun delta =>
  bindr (date_sub end_date delta) (fun start_date =>
  Ok (_format_date_for_fac_fields start_date))).

(** *** The browser workflow *)

Section Workflow.
Context {B : Type} (br : browser B).

(** Lifting a pure computation that may raise. *)
Definition lift {A : Type} (r : res A) : M B A := fun w => (r, w).

(** Its only effect is a console message when the file cannot be opened;
    the [IOError] is caught. *)
Definition check_for_chromedriver : M B unit := ret tt.

(** JavaScript's [a || b] on properties that are strings or undefined. *)
Definition js_or (a b : option string) : option string :=
  match a with
  | Some EmptyString => b
  | Some s => Some s
  | None => b
  end.

(** The script run by [list_completed_chrome_downloads]:
<<
    var items = downloads.Manager.get().items_;
    if (items.every(e => e.state === "COMPLETE"))
        return items.map(e => e.fileUrl || e.file_url);
>>
    A script that does not return yields [None]. *)
Definition completed_script (items : list download_item)
  : option (list (option string)) :=
  if forallb (fun e => String.eqb (state e) "COMPLETE") items
  then Some (map (fun e => js_or (fileUrl e) (file_url e)) items)
  else None.

Definition list_completed_chrome_downloads
  : M B (option (list (option string))) :=
  (fun w =>
     if negb (String.prefix "chrome://downloads" (current_url br (bstate w)))
     then perform br (Get "chrome://downloads/") w
     else ret tt w) ;;
  fun w => (Ok (completed_script (download_items br (bstate w))), w).

(** [get_next_pager_link]: [None] stands for the [False] it returns when
    a look-up fails.  A failed look-up of the pager leaves the local
    [pager] unbound, and using it raises [NameError] inside the second
    [try]. *)
Definition get_next_pager_link (page_index : Z) : M B (option element) :=
  pager <- try_except
             (e <- find_element_by_css_selector br "tr.GridPager" ;;
              ret (Some e))
             (ret None) ;;
  try_except
    (match pager with
     | None => raise NameError
     | Some p =>
         e <- find_element_by_link_text br p (str (page_index + 1)) ;;
         ret (Some e)
     end)
    (ret None).

Definition link_name (name_suffix : string) (i : Z) : string :=
  ("MainContent_ucA133SearchResults_ResultsGrid_lnkbutton"
   ++ name_suffix ++ "_" ++ str i)%string.

(** The [for] loop of [download_one_set_of_result_files] over the
    remaining indices; [download_link] is the local variable of that
    name, [None] while it is unbound.  The look-up is inside the [try],
    the click is after it. *)
Fixpoint for_each_result (name_suffix : string) (indices : list Z)
    (download_link : option element) : M B unit :=
  match indices with
  | [] => ret tt
  | i :: rest =>
      download_link <-
        try_except
          (e <- find_element_by_id br (link_name name_suffix i) ;;
           ret (Some e))
          (ret download_link) ;;
      match download_link with
      | None => raise NameError
      | Some e => click br e
      end ;;
      for_each_result name_suffix rest download_link
  end.

Definition max_number_of_search_results : nat := 25.

(** [range(n)]. *)
Definition range (n : nat) : list Z := map Z.of_nat (seq 0 n).

Definition download_one_set_of_result_files (file_type : string)
  : M B bool :=
  if String.eqb file_type "SF-SAC" then
    for_each_result "Form" (range max_number_of_search_results) None ;;
    ret true
  else if String.eqb file_type "PDF" then
    for_each_result "Audit" (range max_number_of_search_results) None ;;
    ret true
  else ret false.

Definition download_all_linked_files : M B unit :=
  mark "download_all_linked_files" ;;
  try_except (download_one_set_of_result_files "SF-SAC" ;; ret tt) (ret tt) ;;
  try_except (download_one_set_of_result_files "PDF" ;; ret tt) (ret tt).

(** [Keys.RETURN], the code point U+E006 (here in UTF-8). *)
Definition Keys_RETURN : string :=
  String (ascii_of_nat 238) (String (ascii_of_nat 128)
    (String (ascii_of_nat 134) EmptyString)).

(** Steps 1 to 9 of [download_files_from_fac]: fill in and submit the
    search form, pass the acknowledgement page. *)
Definition fill_in_search_form (agency_prefix subagency_extension : string)
  : M B unit :=
  perform br (Get FAC_URL) ;;
  sleep br 2 ;;
  e <- find_element_by_id br "ui-id-1" ;; click br e ;;
  from_date_field <- find_element_by_id br
    "MainContent_UcSearchFilters_DateProcessedControl_FromDate" ;;
  from_date <- lift (_calculate_start_date (Some 90) None) ;;
  clear br from_date_field ;;
  send_keys br from_date_field from_date ;;
  send_keys br from_date_field Keys_RETURN ;;
  yesterday <- (fun w => lift (date_sub (today br (bstate w)) 1) w) ;;
  let to_date := _format_date_for_fac_fields yesterday in
  to_date_field <- find_element_by_id br
    "MainContent_UcSearchFilters_DateProcessedControl_ToDate" ;;
  clear br to_date_field ;;
  send_keys br to_date_field to_date ;;
  send_keys br to_date_field Keys_RETURN ;;
  e <- find_element_by_id br "ui-id-5" ;; click br e ;;
  find_element_by_id br
    "MainContent_UcSearchFilters_CDFASelectionControl_SelectionControlTable" ;;
  cfda_select <- find_element_by_id br "cfdaPrefix" ;;
  select_by_value br cfda_select agency_prefix ;;
  cfda_extension <- find_element_by_id br "cfdaExt" ;;
  clear br cfda_extension ;;
  send_keys br cfda_extension subagency_extension ;;
  sleep br 1 ;;
  e <- find_element_by_id br "cfdaContains" ;; click br e ;;
  e <- find_element_by_id br "btnAdd" ;; click br e ;;
  find_element_by_id br "MainContent_UcSearchFilters_Panel4" ;;
  e <- find_element_by_id br "MainContent_UcSearchFilters_btnSearch_bottom" ;;
  click br e ;;
  sleep br 1 ;;
  e <- find_element_by_id br "chkAgree" ;; click br e ;;
  sleep br 1 ;;
  e <- find_element_by_id br "btnIAgree" ;; click br e ;;
  sleep br 1.

(** The [while link_to_next_page:] loop. *)
Fixpoint pager_loop (fuel : nat) (link_to_next_page : option element)
    (current_page_index : Z) : M B Z :=
  match link_to_next_page with
  | None => ret current_page_index
  | Some link =>
      match fuel with
      | O => diverge
      | S fuel' =>
          click br link ;;
          let current_page_index := current_page_index + 1 in
          sleep br 1 ;;
          download_all_linked_files ;;
          link_to_next_page <- get_next_pager_link current_page_index ;;
          pager_loop fuel' link_to_next_page current_page_index
      end
  end.

(** Step 10 of [download_files_from_fac]: download what the first page
    links, then follow the pager; the value is the final
    [current_page_index]. *)
Definition download_all_pages (fuel : nat) : M B Z :=
  download_all_linked_files ;;
  let current_page_index := 1 in
  link_to_next_page <- get_next_pager_link current_page_index ;;
  pager_loop fuel link_to_next_page current_page_index.

(** The end of [download_files_from_fac]: wait for the downloads, quit
    the driver [if paths:], answer. *)
Definition wait_and_respond : M B HttpResponse :=
  paths <- until br 500 1 list_completed_chrome_downloads ;;
  match paths with
  | [] => ret tt
  | _ :: _ => quit br
  end ;;
  ret (mkresponse "Your download has completed." "text/plain").

(** [download_files_from_fac(agency_prefix=None, subagency_extension=None)].
    [agency_prefix] is replaced by the default when it is [None] or not a
    [str]; [subagency_extension], a string by its documentation, only when
    it is [None].  [fuel] bounds the iterations of the pager loop. *)
Definition download_files_from_fac (agency_prefix : pyval)
    (subagency_extension : option string) (fuel : nat) : M B HttpResponse :=
  let agency_prefix :=
    match agency_prefix with
    | PyStr s => s
    | _ => DEPT_OF_TRANSPORTATION_PREFIX
    end in
  let subagency_extension :=
    match subagency_extension with
    | None => FTA_SUBAGENCY_CODE
    | Some s => s
    end in
  (check_for_chromedriver ;;
   perform br (Start CHROME_DRIVER_LOCATION) ;;
   fill_in_search_form agency_prefix subagency_extension ;;
   download_all_pages fuel) ;;
  wait_and_respond.

(** The part of [download_files_from_fac] that precedes the wait. *)
Definition search_and_download (agency_prefix : pyval)
    (subagency_extension : option string) (fuel : nat) : M B Z :=
  let agency_prefix :=
    match agency_prefix with
    | PyStr s => s
    | _ => DEPT_OF_TRANSPORTATION_PREFIX
    end in
  let subagency_extension :=
    match subagency_extension with
    | None => FTA_SUBAGENCY_CODE
    | Some s => s
    end in
  check_for_chromedriver ;;
  perform br (Start CHROME_DRIVER_LOCATION) ;;
  fill_in_search_form agency_prefix subagency_extension ;;
  download_all_pages fuel.

End Workflow.

(** *** Agency highlights *)

(** [try: r  except: handler] for code that does not touch the browser. *)
Definition try_exceptr {A : Type} (r handler : res A) : res A :=
  match r with
  | Raise _ => handler
  | _ => r
  end.

Fixpoint column_index (cols : list string) (label : string) : option nat :=
  match cols with
  | [] => None
  | c :: cols' =>
      if String.eqb c label then Some O
      else option_map S (column_index cols' label)
  end.

(** [df[label]]: the column, or [KeyError]. *)
Definition getitem (df : DataFrame) (label : string) : res (list cell) :=
  match column_index (columns df) label with
  | None => Raise KeyError
  | Some k => Ok (map (fun row => nth k row CNaN) (rows df))
  end.

(** [series == s] for a [str] [s], cell by cell: only an equal string
    compares equal. *)
Definition eq_str (s : string) (c : cell) : bool :=
  match c with
  | CStr t => String.eqb t s
  | _ => false
  end.

Fixpoint select_rows (rs : list (list cell)) (mask : list bool)
  : list (list cell) :=
  match rs, mask with
  | r :: rs', b :: mask' =>
      if b then r :: select_rows rs' mask' else select_rows rs' mask'
  | _, _ => []
  end.

(** [df.loc[mask]]. *)
Definition loc (df : DataFrame) (mask : list bool) : DataFrame :=
  mkdf (columns df) (select_rows (rows df) mask).

(** [len(df.index)]. *)
Definition len_index (df : DataFrame) : Z := Z.of_nat (List.length (rows df)).

(** [__get_findings]: the exception is swallowed and [None] returned. *)
Definition __get_findings (agency_df : DataFrame) : res (option DataFrame) :=
  try_exceptr
    (bindr (getitem agency_df "CYFINDINGS") (fun flags =>
     Ok (Some (loc agency_df (map (eq_str "Y") flags)))))
    (Ok None).

(** [__get_number_of_findings]: [len(None.index)] raises
    [AttributeError], swallowed as well. *)
Definition __get_number_of_findings (agency_df : DataFrame)
  : res (option Z) :=
  try_exceptr
    (bindr (__get_findings agency_df) (fun findings_df =>
     match findings_df with
     | Some df => Ok (Some (len_index df))
     | None => Raise AttributeError
     end))
    (Ok None).

(** [filter_general_table_by_agency], over the global names in scope.
    Its first statement reads the global [files_directory]. *)
Definition filter_general_table_by_agency_in
    (globals : list (string * string)) (agency_prefix filename : string)
  : res DataFrame :=
  bindr (lookup_name globals "files_directory") (fun files_directory =>
  let actual_filename := (files_directory ++ "/" ++ filename)%string in
  bindr (read_csv actual_filename) (fun df =>
  bindr (getitem df "COGAGENCY") (fun codes =>
  Ok (loc df (map (eq_str agency_prefix) codes))))).

(** [derive_agency_highlights(agency_prefix, filename='gen18.txt')]; the
    call of [filter_general_table_by_agency] leaves [filename] to its own
    default. *)
Definition derive_agency_highlights_in (globals : list (string * string))
    (agency_prefix filename : string) : res highlights :=
  bindr (filter_general_table_by_agency_in globals agency_prefix "gen18.txt")
    (fun agency_df =>
  bindr (__get_agency_name_from_prefix agency_prefix) (fun agency_name =>
  let cognizant_sum := len_index agency_df in
  bindr (__get_number_of_findings agency_df) (fun findings =>
  Ok (mkhighlights agency_prefix agency_name filename
        cognizant_sum findings)))).

(** The functions as [views.py] runs them, in its own namespace. *)
Definition filter_general_table_by_agency : string -> string -> res DataFrame :=
  filter_general_table_by_agency_in module_globals.

Definition derive_agency_highlights : string -> string -> res highlights :=
  derive_agency_highlights_in module_globals.

(** [show_agency_level_summary(request)], with [request.POST['agency']]
    given: the highlights it renders, or [None] when the bare [except]
    swallowed an exception. *)
Definition show_agency_level_summary (agency_prefix : string)
  : res (option highlights) :=
  try_exceptr
    (bindr (__is_valid_agency_prefix agency_prefix) (fun _ =>
     bindr (derive_agency_highlights agency_prefix "gen18.txt")
       (fun highlights => Ok (Some highlights))))
    (Ok None).

(** *** The CSV download *)

(** [DataFrame.to_csv(buffer, encoding='utf-8', index=False)]: the text
    pandas writes. *)
Variable to_csv : DataFrame -> string.

(** An [HttpResponse] with the header set by [generate_csv_download]. *)
Record attachment : Type := mkattachment {
  a_content : string;
  a_content_type : string;
  a_content_disposition : string
}.

Definition double_quote : string := String (ascii_of_nat 34) EmptyString.

(** [generate_csv_download(dataframe, results_filename)]; the header is
    ['attachment; filename="%s"' % results_filename]. *)
Definition generate_csv_download (dataframe : DataFrame)
    (results_filename : string) : attachment :=
  mkattachment (to_csv dataframe) "text/csv"
    ("attachment; filename=" ++ double_quote ++ results_filename
     ++ double_quote)%string.

(** [offer_download_of_agency_specific_csv(request, agency_prefix)];
    both callees are left to their default file names. *)
Definition offer_download_of_agency_specific_csv (agency_prefix : string)
  : res attachment :=
  bindr (filter_general_table_by_agency agency_prefix "gen18.txt")
    (fun agency_df =>
  Ok (generate_csv_download agency_df "agency-specific-results.csv")).

End ModuleLevel.
End Views.

(** ** A simulated portal

    A browser in the sense of [Selenium.browser] that plays the remote
    search portal: a search form and acknowledgement page on which every
    control exists, then [K] result pages, each a set of element ids, with
    a pager row linking the other pages by number; and a download manager
    whose items are a function of the time elapsed. *)

Module Sim.
Import Py Datetime Selenium.
Local Open Scope list_scope.
Local Open Scope Z_scope.

Record t : Type := mksim {
  (** the ids of the elements on result pages 1, 2, ..., K *)
  pages : list (list string);
  (** 0 before the results are shown, then the number of the page shown *)
  page : Z;
  url : string;
  (** seconds elapsed *)
  time : Z;
  (** the download manager's items as time passes *)
  downloads : Z -> list download_item;
  (** the values offered by the [cfdaPrefix] selector *)
  options : list string;
  day_today : date
}.

Definition K (s : t) : Z := Z.of_nat (List.length (pages s)).

(** The [n] consecutive integers from [a] on. *)
Definition page_range (a : Z) (n : nat) : list Z :=
  map (fun i => a + Z.of_nat i) (seq 0 n).

(** Page numbers 1..K. *)
Definition page_numbers (s : t) : list Z :=
  page_range 1 (List.length (pages s)).

(** The pager row and its link to a page. *)
Definition pager : locator := ByCssSelector "tr.GridPager".
Definition pager_link (p : Z) : locator := ByLinkText pager (str p).

Definition ids_shown (s : t) : list string :=
  nth (Z.to_nat (page s - 1)) (pages s) [].

Definition mem (x : string) (l : list string) : bool :=
  existsb (String.eqb x) l.

Fixpoint present (s : t) (l : locator) : bool :=
  match l with
  | ById id => if page s =? 0 then true else mem id (ids_shown s)
  | ByCssSelector sel =>
      String.eqb sel "tr.GridPager" && (1 <=? page s) && (2 <=? K s)
  | ByLinkText parent text =>
      present s parent
      && existsb (fun q => negb (q =? page s) && String.eqb (str q) text)
           (page_numbers s)
  end.

Definition set_page (s : t) (p : Z) : t :=
  mksim (pages s) p (url s) (time s) (downloads s) (options s) (day_today s).

Definition set_url (s : t) (u : string) : t :=
  mksim (pages s) (page s) u (time s) (downloads s) (options s) (day_today s).

Definition set_time (s : t) (n : Z) : t :=
  mksim (pages s) (page s) (url s) n (downloads s) (options s) (day_today s).

Definition react (a : action) (s : t) : option exn * t :=
  match a with
  | Get u => (None, set_url s u)
  | Click (ById id) =>
      if (page s =? 0) && String.eqb id "btnIAgree"
      then (None, set_page s 1) else (None, s)
  | Click (ByLinkText _ text) =>
      match List.find (fun q => String.eqb (str q) text) (page_numbers s) with
      | Some q => (None, set_page s q)
      | None => (Some NoSuchElementException, s)
      end
  | SelectByValue _ v =>
      if mem v (options s) then (None, s)
      else (Some NoSuchElementException, s)
  | Sleep n => (None, set_time s (time s + n))
  | _ => (None, s)
  end.

Definition portal : browser t :=
  mkbrowser t present react url (fun s => downloads s (time s)) day_today.

(** The world once the script has made sure the downloads page is
    shown, which its first poll does. *)
Definition on_downloads_page (s : t) : bool :=
  String.prefix "chrome://downloads" (url s).

Definition opened (w : world t) : world t :=
  if on_downloads_page (bstate w) then w
  else mkworld (set_url (bstate w) "chrome://downloads/") (clock w)
         (trace w ++ [Get "chrome://downloads/"]).

(** The world after [k] further rounds of the waiter, each sleeping one
    second. *)
Definition after_polls (w : world t) (k : nat) : world t :=
  mkworld (set_time (bstate w) (time (bstate w) + Z.of_nat k))
          (clock w + Z.of_nat k) (trace w ++ repeat (Sleep 1) k).

(** What the download manager holds at the poll that follows [j] such
    rounds: poll number [j + 1]. *)
Definition items_at (w : world t) (j : nat) : list download_item :=
  downloads (bstate w) (time (bstate w) + Z.of_nat j).

(** Download items for the examples. *)
Definition finished (file : string) : download_item :=
  mkitem "COMPLETE" (Some file) None.

Definition in_progress : download_item :=
  mkitem "IN_PROGRESS" None None.

(** A page that fills the given slots of both categories. *)
Definition page_with_slots (slots : list Z) : list string :=
  map (Views.link_name "Form") slots ++ map (Views.link_name "Audit") slots.

(** A portal showing its first result page, with nothing downloading. *)
Definition showing (result_pages : list (list string)) : t :=
  mksim result_pages 1 "https://harvester.census.gov/facdissem/SearchResults.aspx"
        0 (fun _ => []) ["20"] (mkdate 2019 7 4).

(** A portal before the search, on 2019-07-04, offering the agencies 20
    and 93, whose download manager holds [downloads]. *)
Definition fresh (result_pages : list (list string))
    (downloads : Z -> list download_item) : t :=
  mksim result_pages 0 "about:blank" 0 downloads ["20"; "93"]
        (mkdate 2019 7 4).

(** One download that completes [seconds] after the start. *)
Definition completes_after (seconds : Z) (now : Z) : list download_item :=
  if seconds <=? now then [finished "file:///tmp/audit.pdf"]
  else [in_progress].

(** One download that never completes. *)
Definition never_completes (now : Z) : list download_item := [in_progress].

End Sim.

(** ** Vocabulary of the properties *)

Module Spec.
Import Py Datetime Selenium.

(** The elements clicked, in order. *)
Fixpoint clicks (tr : list action) : list element :=
  match tr with
  | [] => []
  | Click e :: tr' => e :: clicks tr'
  | _ :: tr' => clicks tr'
  end.

(** A run of clicks on elements found by id. *)
Definition id_clicks (ids : list string) : list action :=
  map (fun id => Click (ById id)) ids.

(** The texts of the pager links clicked, in order. *)
Fixpoint pager_clicks (tr : list action) : list string :=
  match tr with
  | [] => []
  | Click (ByLinkText _ text) :: tr' => text :: pager_clicks tr'
  | _ :: tr' => pager_clicks tr'
  end.

(** How many times a function of [views.py] was entered. *)
Fixpoint calls (f : string) (tr : list action) : nat :=
  match tr with
  | [] => O
  | Called g :: tr' => (if String.eqb g f then 1 else 0) + calls f tr'
  | _ :: tr' => calls f tr'
  end.

(** The keys sent to the element with a given id, in order. *)
Fixpoint keys_sent (id : string) (tr : list action) : list string :=
  match tr with
  | [] => []
  | SendKeys (ById i) keys :: tr' =>
      if String.eqb i id then keys :: keys_sent id tr' else keys_sent id tr'
  | _ :: tr' => keys_sent id tr'
  end.

Definition is_quit (a : action) : bool :=
  match a with Quit => true | _ => false end.

(** Whether the driver was quit. *)
Definition released (tr : list action) : bool := existsb is_quit tr.

(** A computation whose every run relates the trace it starts from to
    the trace it ends with. *)
Definition keeps {B A : Type} (R : list action -> list action -> Prop)
    (m : M B A) : Prop :=
  forall w, R (trace w) (trace (snd (m w))).

(** Two such relations: the driver is not quit unless it already was;
    the trace only grows. *)
Definition stays_open (t t' : list action) : Prop :=
  released t = false -> released t' = false.

Definition grows (t t' : list action) : Prop :=
  exists tr, t' = t ++ tr.

(** The candidate slots 0..24 of a category that a page fills. *)
Definition slots_present (ids : list string) (name_suffix : string) : list Z :=
  filter (fun i => Sim.mem (Views.link_name name_suffix i) ids)
         (Views.range Views.max_number_of_search_results).

(** The date format [MM/DD/YYYY], digit by digit. *)
Definition two_digits (n : Z) : string :=
  String (digit_char (n / 10)) (String (digit_char (n mod 10)) EmptyString).

Definition four_digits (n : Z) : string :=
  String (digit_char (n / 1000))
    (String (digit_char (n / 100 mod 10))
       (String (digit_char (n / 10 mod 10))
          (String (digit_char (n mod 10)) EmptyString))).

Definition MM_DD_YYYY (d : date) : string :=
  (two_digits (month d) ++ "/" ++ two_digits (day d) ++ "/"
   ++ four_digits (year d))%string.

Definition is_digit (c : ascii) : bool :=
  let n := nat_of_ascii c in (48 <=? n)%nat && (n <=? 57)%nat.

(** The pattern of an agency prefix: two characters, both digits. *)
Definition two_digit_numeric (s : string) : bool :=
  match s with
  | String a (String b EmptyString) => is_digit a && is_digit b
  | _ => false
  end.

(** The aggregation in words: the rows whose [COGAGENCY] cell is the
    prefix, and among them those whose [CYFINDINGS] cell is ['Y']. *)
Definition count_cognizant (cog : nat) (prefix : string)
    (rs : list (list Views.cell)) : Z :=
  Z.of_nat (List.length
    (filter (fun r => Views.eq_str prefix (nth cog r Views.CNaN)) rs)).

Definition count_findings (cog fnd : nat) (prefix : string)
    (rs : list (list Views.cell)) : Z :=
  Z.of_nat (List.length
    (filter (fun r => Views.eq_str prefix (nth cog r Views.CNaN)
                      && Views.eq_str "Y" (nth fnd r Views.CNaN)) rs)).

(** A table of ten rows: three of cognizant agency 20, two of them with
    findings. *)
Definition ten_rows : Views.DataFrame :=
  let row k cog fnd :=
    [Views.CInt k; Views.CStr cog; Views.CStr fnd] in
  Views.mkdf ["DBKEY"; "COGAGENCY"; "CYFINDINGS"]
    [ row 100 "20" "Y"; row 101 "93" "Y"; row 102 "84" "N";
      row 103 "20" "N"; row 104 "93" "N"; row 105 "10" "Y";
      row 106 "20" "Y"; row 107 "14" "N"; row 108 "66" "Y";
      row 109 "93" "N" ].

(** The namespace of [views.py] with the name [files_directory] bound as
    well, to the value of [FILES_DIRECTORY]. *)
Definition globals_with_files_directory (BASE_DIR : string)
  : list (string * string) :=
  ("files_directory", Views.FILES_DIRECTORY BASE_DIR)
  :: Views.module_globals BASE_DIR.

(** What steps 1 to 9 of [download_files_from_fac] do to the browser
    when nothing fails, given the two dates typed. *)
Definition search_form_actions
    (from_date to_date agency_prefix subagency_extension : string)
  : list action :=
  let from_field :=
    ById "MainContent_UcSearchFilters_DateProcessedControl_FromDate" in
  let to_field :=
    ById "MainContent_UcSearchFilters_DateProcessedControl_ToDate" in
  [ Get Views.FAC_URL; Sleep 2;
    Click (ById "ui-id-1");
    Clear from_field; SendKeys from_field from_date;
    SendKeys from_field Views.Keys_RETURN;
    Clear to_field; SendKeys to_field to_date;
    SendKeys to_field Views.Keys_RETURN;
    Click (ById "ui-id-5");
    SelectByValue (ById "cfdaPrefix") agency_prefix;
    Clear (ById "cfdaExt"); SendKeys (ById "cfdaExt") subagency_extension;
    Sleep 1; Click (ById "cfdaContains");
    Click (ById "btnAdd");
    Click (ById "MainContent_UcSearchFilters_btnSearch_bottom");
    Sleep 1; Click (ById "chkAgree");
    Sleep 1; Click (ById "btnIAgree");
    Sleep 1 ].

End Spec.

(** ** A portal without end

    A browser on which every look-up resolves and nothing raises: a
    result set whose pager always offers a next page. *)

Module Endless.
Import Py Datetime Selenium.

Definition portal : browser unit :=
  mkbrowser unit (fun _ _ => true) (fun _ _ => (None, tt))
    (fun _ => "chrome://downloads/") (fun _ => [])
    (fun _ => mkdate 2019 7 4).

End Endless.
(** * Properties *)

(** ** Decimal printing *)

Section StrFacts.
Import Py.

Lemma length_string_of_list_ascii (l : list ascii) :
  String.length (string_of_list_ascii l) = List.length l.
Proof. induction l as [|a l IH]; simpl; congruence. Qed.

Lemma string_of_list_ascii_inj (l1 l2 : list ascii) :
  string_of_list_ascii l1 = string_of_list_ascii l2 -> l1 = l2.
Proof.
  intros H.
  rewrite <- (list_ascii_of_string_of_list_ascii l1),
          <- (list_ascii_of_string_of_list_ascii l2).
  now rewrite H.
Qed.

Lemma digit_char_inj (a b : Z) :
  0 <= a < 10 -> 0 <= b < 10 -> digit_char a = digit_char b -> a = b.
Proof.
  intros Ha Hb H. unfold digit_char in H.
  apply (f_equal nat_of_ascii) in H.
  rewrite !nat_ascii_embedding in H by lia. lia.
Qed.

(** With enough fuel, the number of digits of [n] is [k] exactly when
    [10^(k-1) <= n < 10^k] (and one digit for [0]). *)
Lemma rev_digits_length (fuel : nat) :
  forall n k, (0 < fuel)%nat -> 0 <= n < 2 ^ Z.of_nat fuel -> (0 < k)%nat ->
    n < 10 ^ Z.of_nat k -> (k = 1%nat \/ 10 ^ (Z.of_nat k - 1) <= n) ->
    List.length (rev_digits fuel n) = k.
Proof.
  induction fuel as [|fuel IH]; intros n k Hf Hn Hk Hlt Hge.
  - lia.
  - simpl. destruct (Z.ltb_spec n 10) as [Hs|Hs].
    + simpl. destruct Hge as [->|Hge]; [reflexivity|].
      destruct k as [|[|k]]; try lia.
      exfalso.
      assert (10 ^ 1 <= 10 ^ (Z.of_nat (S (S k)) - 1))
        by (apply Z.pow_le_mono_r; lia).
      lia.
    + simpl. destruct k as [|k]; [lia|]. f_equal.
      assert (Hk1 : Z.of_nat (S k) = Z.of_nat k + 1) by lia.
      rewrite Hk1 in *. replace (Z.of_nat k + 1 - 1) with (Z.of_nat k) in * by lia.
      assert (H2 : 2 ^ Z.of_nat (S fuel) = 2 * 2 ^ Z.of_nat fuel).
      { rewrite Nat2Z.inj_succ, Z.pow_succ_r; lia. }
      rewrite Z.pow_add_r, Z.pow_1_r in Hlt by lia.
      destruct k as [|k].
      { simpl in Hlt. lia. }
      assert (Hq : 1 <= n / 10) by (apply Z.div_le_lower_bound; lia).
      assert (Hq2 : n / 10 < 2 ^ Z.of_nat fuel)
        by (apply Z.div_lt_upper_bound; lia).
      apply IH.
      * destruct fuel; [simpl in Hq2; lia | lia].
      * split; [apply Z.div_pos; lia|].
        apply Z.div_lt_upper_bound; lia.
      * lia.
      * apply Z.div_lt_upper_bound; lia.
      * destruct Hge as [Hge|Hge]; [lia|].
        destruct k as [|k]; [left; reflexivity|right].
        remember (Z.of_nat (S (S k)) - 1) as x eqn:Hx.
        replace (Z.of_nat (S (S k))) with (x + 1) in Hge by lia.
        rewrite Z.pow_add_r, Z.pow_1_r in Hge by lia.
        apply Z.div_le_lower_bound; lia.
Qed.

Lemma digits_fuel_enough (n : Z) : 0 <= n -> n < 2 ^ Z.of_nat (digits_fuel n).
Proof.
  intros Hn. unfold digits_fuel.
  destruct (Z.eq_dec n 0) as [->|Hz]; [reflexivity|].
  rewrite Nat2Z.inj_succ, Z2Nat.id by apply Z.log2_nonneg.
  apply Z.log2_spec. lia.
Qed.

Lemma len_str_nonneg (n : Z) (k : nat) :
  0 <= n -> (0 < k)%nat -> n < 10 ^ Z.of_nat k ->
  (k = 1%nat \/ 10 ^ (Z.of_nat k - 1) <= n) ->
  String.length (str_nonneg n) = k.
Proof.
  intros Hn Hk Hlt Hge. unfold str_nonneg.
  rewrite length_string_of_list_ascii, length_rev.
  apply rev_digits_length; auto.
  - unfold digits_fuel; lia.
  - split; [assumption|now apply digits_fuel_enough].
Qed.

End StrFacts.

Section StrLength.
Import Py.





End StrLength.

(** ** resolve_findings/models.py: the CFDA validator *)

Section CfdaValidator.
Import Py Models.

Example validate_cfda_20507 : validate_cfda_number 20507 = Ok tt.
Proof. reflexivity. Qed.

Example validate_cfda_minus1234 : validate_cfda_number (-1234) = Ok tt.
Proof. reflexivity. Qed.

Example validate_cfda_9999 : validate_cfda_number 9999 = Raise ValidationError.
Proof. reflexivity. Qed.


End CfdaValidator.

(** ** The recursion equations of [str] *)

Section StrEquations.
Import Py.

(** Any two sufficient amounts of fuel give the same digits. *)
Lemma rev_digits_fuel_irrel (f1 : nat) :
  forall f2 n, 0 <= n < 2 ^ Z.of_nat f1 -> n < 2 ^ Z.of_nat f2 ->
    (0 < f1)%nat -> (0 < f2)%nat ->
    rev_digits f1 n = rev_digits f2 n.
Proof.
  induction f1 as [|f1 IH]; intros f2 n H1 H2 P1 P2; [lia|].
  destruct f2 as [|f2]; [lia|]. simpl.
  destruct (Z.ltb_spec n 10) as [Hs|Hs]; [reflexivity|].
  f_equal.
  rewrite Nat2Z.inj_succ, Z.pow_succ_r in H1, H2 by lia.
  assert (Hq : 1 <= n / 10) by (apply Z.div_le_lower_bound; lia).
  assert (Ha : n / 10 < 2 ^ Z.of_nat f1) by (apply Z.div_lt_upper_bound; lia).
  assert (Hb : n / 10 < 2 ^ Z.of_nat f2) by (apply Z.div_lt_upper_bound; lia).
  apply IH; try lia.
  - destruct f1; [simpl in Ha; lia | lia].
  - destruct f2; [simpl in Hb; lia | lia].
Qed.

Lemma string_of_list_ascii_snoc (l : list ascii) (a : ascii) :
  string_of_list_ascii (l ++ [a])
  = (string_of_list_ascii l ++ String a "")%string.
Proof. induction l as [|b l IH]; simpl; [reflexivity | now rewrite IH]. Qed.

Lemma str_nonneg_small (n : Z) :
  0 <= n < 10 -> str_nonneg n = String (digit_char n) "".
Proof.
  intros Hn. unfold str_nonneg, digits_fuel. simpl.
  destruct (Z.ltb_spec n 10); [|lia].
  rewrite Z.mod_small by lia. reflexivity.
Qed.

Lemma str_nonneg_step (n : Z) :
  10 <= n ->
  str_nonneg n
  = (str_nonneg (n / 10) ++ String (digit_char (n mod 10)) "")%string.
Proof.
  intros Hn. unfold str_nonneg at 1. unfold digits_fuel at 1. simpl.
  destruct (Z.ltb_spec n 10); [lia|].
  rewrite string_of_list_ascii_snoc. f_equal. unfold str_nonneg. do 2 f_equal.
  assert (Hq : 1 <= n / 10) by (apply Z.div_le_lower_bound; lia).
  assert (Hlog : 3 <= Z.log2 n) by (apply Z.log2_le_pow2; simpl; lia).
  apply rev_digits_fuel_irrel.
  - split; [lia|]. apply Z.div_lt_upper_bound; [lia|].
    rewrite Z2Nat.id by lia.
    pose proof (Z.log2_spec n ltac:(lia)) as [_ Hu].
    rewrite Z.pow_succ_r in Hu by lia.
    assert (0 < 2 ^ Z.log2 n) by (apply Z.pow_pos_nonneg; lia). lia.
  - apply digits_fuel_enough; lia.
  - lia.
  - unfold digits_fuel; lia.
Qed.

(** [str] is injective on the non-negative integers. *)
Lemma rev_digits_inj (fuel : nat) :
  forall a b, 0 <= a < 2 ^ Z.of_nat fuel -> 0 <= b < 2 ^ Z.of_nat fuel ->
    rev_digits fuel a = rev_digits fuel b -> a = b.
Proof.
  induction fuel as [|fuel IH]; intros a b Ha Hb H.
  - simpl in Ha, Hb. lia.
  - simpl in H. injection H as Hd Hrest.
    apply digit_char_inj in Hd; try (apply Z.mod_pos_bound; lia).
    rewrite Nat2Z.inj_succ, Z.pow_succ_r in Ha, Hb by lia.
    destruct (Z.ltb_spec a 10) as [Hsa|Hsa], (Z.ltb_spec b 10) as [Hsb|Hsb].
    + rewrite !Z.mod_small in Hd by lia. exact Hd.
    + destruct fuel; [simpl in Hb; lia | discriminate Hrest].
    + destruct fuel; [simpl in Ha; lia | discriminate Hrest].
    + assert (a / 10 = b / 10).
      { apply IH; [| | exact Hrest].
        - split; [apply Z.div_pos; lia | apply Z.div_lt_upper_bound; lia].
        - split; [apply Z.div_pos; lia | apply Z.div_lt_upper_bound; lia]. }
      rewrite (Z.div_mod a 10), (Z.div_mod b 10) by lia. congruence.
Qed.

Lemma rev_inj {A : Type} (l1 l2 : list A) : rev l1 = rev l2 -> l1 = l2.
Proof.
  intros H. rewrite <- (rev_involutive l1), <- (rev_involutive l2).
  now rewrite H.
Qed.

Lemma str_nonneg_inj (a b : Z) :
  0 <= a -> 0 <= b -> str_nonneg a = str_nonneg b -> a = b.
Proof.
  intros Ha Hb H. unfold str_nonneg in H.
  apply string_of_list_ascii_inj, rev_inj in H.
  set (f := Nat.max (digits_fuel a) (digits_fuel b)).
  assert (Pa : a < 2 ^ Z.of_nat (digits_fuel a)) by now apply digits_fuel_enough.
  assert (Pb : b < 2 ^ Z.of_nat (digits_fuel b)) by now apply digits_fuel_enough.
  assert (Fa : a < 2 ^ Z.of_nat f).
  { eapply Z.lt_le_trans; [exact Pa|]. apply Z.pow_le_mono_r; lia. }
  assert (Fb : b < 2 ^ Z.of_nat f).
  { eapply Z.lt_le_trans; [exact Pb|]. apply Z.pow_le_mono_r; lia. }
  assert (Pf : (0 < f)%nat) by (unfold f, digits_fuel; lia).
  assert (Ea : rev_digits (digits_fuel a) a = rev_digits f a).
  { apply rev_digits_fuel_irrel; try lia. unfold digits_fuel; lia. }
  assert (Eb : rev_digits (digits_fuel b) b = rev_digits f b).
  { apply rev_digits_fuel_irrel; try lia. unfold digits_fuel; lia. }
  apply (rev_digits_inj f); try lia. congruence.
Qed.

Lemma str_of_nonneg (n : Z) : 0 <= n -> str n = str_nonneg n.
Proof. intros Hn. unfold str. destruct (Z.ltb_spec n 0); [lia | reflexivity]. Qed.

Lemma str_inj (a b : Z) : 0 <= a -> 0 <= b -> str a = str b -> a = b.
Proof.
  intros Ha Hb. rewrite !str_of_nonneg by assumption. now apply str_nonneg_inj.
Qed.

End StrEquations.

(** ** Dates and ordinals *)

Module DateFacts.
Import Py Datetime.

Lemma year_decomposition (y : Z) :
  1 <= y ->
  exists a b c e,
    y - 1 = 400 * a + 100 * b + 4 * c + e
    /\ 0 <= a /\ 0 <= b < 4 /\ 0 <= c < 25 /\ 0 <= e < 4
    /\ _days_before_year y = 146097 * a + 36524 * b + 1461 * c + 365 * e
    /\ _is_leap y = (e =? 3) && (negb (c =? 24) || (b =? 3)).
Proof.
  intros Hy.
  exists ((y - 1) / 400), ((y - 1) mod 400 / 100),
         ((y - 1) mod 400 mod 100 / 4), ((y - 1) mod 400 mod 100 mod 4).
  repeat split; try (Z.to_euclidean_division_equations; lia).
  - unfold _days_before_year. Z.to_euclidean_division_equations; lia.
  - unfold _is_leap.
    destruct (Z.eqb_spec (y mod 4) 0), (Z.eqb_spec (y mod 100) 0),
      (Z.eqb_spec (y mod 400) 0),
      (Z.eqb_spec ((y - 1) mod 400 mod 100 mod 4) 3),
      (Z.eqb_spec ((y - 1) mod 400 mod 100 / 4) 24),
      (Z.eqb_spec ((y - 1) mod 400 / 100) 3); simpl; try reflexivity;
      exfalso; Z.to_euclidean_division_equations; lia.
Qed.

Ltac month_cases m :=
  assert (m = 1 \/ m = 2 \/ m = 3 \/ m = 4 \/ m = 5 \/ m = 6 \/ m = 7
          \/ m = 8 \/ m = 9 \/ m = 10 \/ m = 11 \/ m = 12) as Hcases by lia;
  repeat (destruct Hcases as [Hcases|Hcases]); subst m.

(** Evaluate table look-ups and comparisons whose arguments are numerals. *)
Ltac reduce_closed :=
  repeat match goal with
  | |- context [Zpos ?p - Zpos ?q] =>
      let v := eval cbv in (Zpos p - Zpos q) in
      change (Zpos p - Zpos q) with v
  | |- context [index ?t (Zpos ?p)] =>
      let v := eval cbv in (index t (Zpos p)) in
      change (index t (Zpos p)) with v
  | |- context [Zpos ?p <? Zpos ?q] =>
      let v := eval cbv in (Zpos p <? Zpos q) in
      change (Zpos p <? Zpos q) with v
  | |- context [Zpos ?p =? Zpos ?q] =>
      let v := eval cbv in (Zpos p =? Zpos q) in
      change (Zpos p =? Zpos q) with v
  end;
  cbn [andb orb negb Z.b2z].

Lemma month_day_of_dbm (leap : bool) (m d : Z) :
  1 <= m <= 12 -> 1 <= d <= dim leap m ->
  month_day leap (dbm leap m + d - 1) = (m, d).
Proof.
  intros Hm Hd. revert Hd. unfold month_day, dim, dbm.
  rewrite Z.shiftr_div_pow2 by lia. change (2 ^ 5) with 32.
  month_cases m; destruct leap; reduce_closed; intros Hd;
    match goal with
    | |- context [(?K + d - 1 + 50) / 32] =>
        let q := fresh "q" in
        let q0 := eval cbv in ((K + 50) / 32) in
        let q1 := eval cbv in ((K + 50) / 32 + 1) in
        remember ((K + d - 1 + 50) / 32) as q eqn:Hq;
        assert (Hq' : 32 * q <= K + d - 1 + 50 < 32 * q + 32)
          by (subst q; Z.to_euclidean_division_equations; lia);
        clear Hq;
        assert (Hq2 : q = q0 \/ q = q1) by lia;
        destruct Hq2 as [Hq2 | Hq2]; subst q
    end;
    reduce_closed;
    repeat match goal with
    | |- context [?a <? ?b] => destruct (Z.ltb_spec a b); try lia
    end; reduce_closed; f_equal; lia.
Qed.

Lemma month_day_spec (leap : bool) (n : Z) :
  0 <= n < 365 + Z.b2z leap ->
  let '(m, d) := month_day leap n in
  1 <= m <= 12 /\ 1 <= d <= dim leap m /\ dbm leap m + d - 1 = n.
Proof.
  intros Hn. unfold month_day, dim, dbm.
  rewrite Z.shiftr_div_pow2 by lia. change (2 ^ 5) with 32.
  remember ((n + 50) / 32) as q eqn:Hq.
  assert (Hq' : 32 * q <= n + 50 < 32 * q + 32)
    by (subst q; Z.to_euclidean_division_equations; lia).
  clear Hq.
  assert (Hb : Z.b2z leap <= 1) by (destruct leap; simpl; lia).
  month_cases q; destruct leap; revert Hn; reduce_closed; intros Hn;
    repeat match goal with
    | |- context [?a <? ?b] => destruct (Z.ltb_spec a b); try lia
    end; reduce_closed; lia.
Qed.

Lemma year_digits (a b c e : Z) :
  0 <= a -> 0 <= b < 4 -> 0 <= c < 25 -> 0 <= e < 4 ->
  _days_before_year (400 * a + 100 * b + 4 * c + e + 1)
  = 146097 * a + 36524 * b + 1461 * c + 365 * e
  /\ _is_leap (400 * a + 100 * b + 4 * c + e + 1)
     = (e =? 3) && (negb (c =? 24) || (b =? 3)).
Proof.
  intros Ha Hb Hc He. split.
  - unfold _days_before_year. Z.to_euclidean_division_equations; lia.
  - unfold _is_leap.
    set (y := 400 * a + 100 * b + 4 * c + e + 1).
    destruct (Z.eqb_spec (y mod 4) 0), (Z.eqb_spec (y mod 100) 0),
      (Z.eqb_spec (y mod 400) 0), (Z.eqb_spec e 3), (Z.eqb_spec c 24),
      (Z.eqb_spec b 3); simpl; try reflexivity;
      exfalso; subst y; Z.to_euclidean_division_equations; lia.
Qed.

Lemma _ord2ymd_unfold (n : Z) :
  _ord2ymd n =
  let N := n - 1 in
  let n400 := N / 146097 in
  let r1 := N mod 146097 in
  let n100 := r1 / 36524 in
  let r2 := r1 mod 36524 in
  let n4 := r2 / 1461 in
  let r3 := r2 mod 1461 in
  let n1 := r3 / 365 in
  let r4 := r3 mod 365 in
  let year := n400 * 400 + 1 + n100 * 100 + n4 * 4 + n1 in
  if (n1 =? 4) || (n100 =? 4) then (year - 1, 12, 31)
  else
    let '(m, d) :=
      month_day ((n1 =? 3) && (negb (n4 =? 24) || (n100 =? 3))) r4 in
    (year, m, d).
Proof.
  unfold _ord2ymd, month_day. cbv zeta.
  change _DI400Y with 146097. change _DI100Y with 36524.
  change _DI4Y with 1461.
  destruct (_ || _); [reflexivity|].
  destruct (_ <? _); reflexivity.
Qed.

Lemma dbm_day_bounds (leap : bool) (m d : Z) :
  1 <= m <= 12 -> 1 <= d <= dim leap m ->
  0 <= dbm leap m + d - 1 < 365 + Z.b2z leap
  /\ (dbm leap m + d - 1 = 365 -> m = 12 /\ d = 31).
Proof.
  intros Hm Hd. revert Hd. unfold dim, dbm.
  month_cases m; destruct leap; reduce_closed; intros Hd; lia.
Qed.

Ltac name_chain N :=
  let step x k q r :=
    (pose proof (Z.div_mod x k ltac:(lia));
     pose proof (Z.mod_pos_bound x k ltac:(lia));
     set (q := x / k) in *; set (r := x mod k) in *) in
  let n400 := fresh "n400" in let r1 := fresh "r1" in
  let n100 := fresh "n100" in let r2 := fresh "r2" in
  let n4 := fresh "n4" in let r3 := fresh "r3" in
  let n1 := fresh "n1" in let r4 := fresh "r4" in
  step N 146097 n400 r1; step r1 36524 n100 r2;
  step r2 1461 n4 r3; step r3 365 n1 r4.

Lemma div_mod_unique (k q r x : Z) :
  0 <= r < k -> x = k * q + r -> x / k = q /\ x mod k = r.
Proof.
  intros Hr Hx. split.
  - symmetry. apply (Z.div_unique_pos x k q r); assumption.
  - symmetry. apply (Z.mod_unique_pos x k q r); assumption.
Qed.

(** Rewrite [x / k] and [x mod k] to a quotient and remainder that are
    justified by linear arithmetic. *)
Ltac divmod x k q r :=
  let H := fresh "Hdm" in
  assert (H : x / k = q /\ x mod k = r)
    by (apply div_mod_unique; lia);
  destruct H as [-> ->].

Lemma _ord2ymd_ymd2ord (y m d : Z) :
  valid_date (mkdate y m d) = true -> _ord2ymd (_ymd2ord y m d) = (y, m, d).
Proof.
  unfold valid_date, MINYEAR, MAXYEAR. cbn [year month day].
  rewrite !andb_true_iff, !Z.leb_le. intros [[[[[Hy1 Hy2] Hm1] Hm2] Hd1] Hd2].
  change (_days_in_month y m) with (dim (_is_leap y) m) in Hd2.
  destruct (year_decomposition y Hy1)
    as (a & b & c & e & Hy & Ha & Hb & Hc & He & Hdby & Hleap).
  destruct (dbm_day_bounds (_is_leap y) m d ltac:(lia) ltac:(lia)) as [Hr Hlast].
  pose proof (month_day_of_dbm (_is_leap y) m d ltac:(lia) ltac:(lia)) as Hmd.
  rewrite _ord2ymd_unfold. cbv zeta.
  unfold _ymd2ord. change (_days_before_month y m) with (dbm (_is_leap y) m).
  set (r := dbm (_is_leap y) m + d - 1) in *.
  replace (_days_before_year y + dbm (_is_leap y) m + d - 1)
    with (146097 * a + 36524 * b + 1461 * c + 365 * e + r) by (subst r; lia).
  clearbody r.
  assert (Hl : Z.b2z (_is_leap y) <= 1) by (destruct (_is_leap y); simpl; lia).
  assert (Hll : r = 365 -> e = 3 /\ (c <> 24 \/ b = 3)).
  { intros Hr365. rewrite Hleap in Hr.
    destruct (Z.eqb_spec e 3), (Z.eqb_spec c 24), (Z.eqb_spec b 3);
      simpl in Hr; lia. }
  set (N := 146097 * a + 36524 * b + 1461 * c + 365 * e + r).
  destruct (Z.eq_dec r 365) as [R|R].
  - destruct (Hll R) as [-> Hcb]. destruct (Hlast R) as [-> ->].
    divmod N 146097 a (36524 * b + 1461 * c + 365 * 3 + r).
    destruct (Z.eq_dec c 24) as [C|C].
    + assert (b = 3) by lia. subst b c r.
      change (36524 * 3 + 1461 * 24 + 365 * 3 + 365) with 146096.
      cbn. repeat f_equal. lia.
    + divmod (36524 * b + 1461 * c + 365 * 3 + r) 36524 b
             (1461 * c + 365 * 3 + r).
      divmod (1461 * c + 365 * 3 + r) 1461 c 1460.
      change (1460 / 365) with 4. cbn. repeat f_equal. lia.
  - divmod N 146097 a (36524 * b + 1461 * c + 365 * e + r).
    divmod (36524 * b + 1461 * c + 365 * e + r) 36524 b
           (1461 * c + 365 * e + r).
    divmod (1461 * c + 365 * e + r) 1461 c (365 * e + r).
    divmod (365 * e + r) 365 e r.
    destruct (Z.eqb_spec e 4); [lia|]. destruct (Z.eqb_spec b 4); [lia|].
    cbn [orb]. rewrite <- Hleap, Hmd. repeat f_equal. lia.
Qed.

Lemma valid_date_intro (y m d : Z) :
  1 <= y <= 9999 -> 1 <= m <= 12 -> 1 <= d <= dim (_is_leap y) m ->
  valid_date (mkdate y m d) = true.
Proof.
  intros Hy Hm Hd. unfold valid_date, MINYEAR, MAXYEAR. cbn [year month day].
  change (_days_in_month y m) with (dim (_is_leap y) m).
  rewrite !andb_true_iff, !Z.leb_le. lia.
Qed.

Lemma _ymd2ord_ord2ymd (n : Z) :
  1 <= n <= _MAXORDINAL ->
  let '(y, m, d) := _ord2ymd n in
  valid_date (mkdate y m d) = true /\ _ymd2ord y m d = n.
Proof.
  unfold _MAXORDINAL. intros Hn. rewrite _ord2ymd_unfold. cbv zeta.
  set (N := n - 1). assert (HN : 0 <= N <= 3652058) by (subst N; lia).
  assert (Hn' : n = N + 1) by (subst N; lia). clearbody N. subst n.
  name_chain N.
  assert (Ha : 0 <= n400 <= 24) by lia.
  assert (Hb : 0 <= n100 <= 4) by lia.
  assert (Hc : 0 <= n4 <= 24) by lia.
  assert (He : 0 <= n1 <= 4) by lia.
  destruct (Z.eqb_spec n100 4) as [B4|B4].
  - rewrite orb_true_r.
    assert (r2 = 0) by lia. assert (n4 = 0 /\ r3 = 0) as [-> ->] by lia.
    assert (n1 = 0 /\ r4 = 0) as [-> ->] by lia.
    assert (n400 <= 23) by lia.
    destruct (year_digits n400 3 24 3) as [Hd Hl]; try lia.
    replace (n400 * 400 + 1 + n100 * 100 + 0 * 4 + 0 - 1)
      with (400 * n400 + 100 * 3 + 4 * 24 + 3 + 1) by lia.
    split.
    + apply valid_date_intro; try lia. rewrite Hl. unfold dim.
      reduce_closed. lia.
    + unfold _ymd2ord, _days_before_month. rewrite Hd, Hl.
      reduce_closed. lia.
  - rewrite orb_false_r. destruct (Z.eqb_spec n1 4) as [E4|E4].
    + assert (r4 = 0) by lia. assert (n4 <= 23) by lia.
      destruct (year_digits n400 n100 n4 3) as [Hd Hl]; try lia.
      replace (n400 * 400 + 1 + n100 * 100 + n4 * 4 + n1 - 1)
        with (400 * n400 + 100 * n100 + 4 * n4 + 3 + 1) by lia.
      assert (Hleap : (3 =? 3) && (negb (n4 =? 24) || (n100 =? 3)) = true).
      { destruct (Z.eqb_spec n4 24); [lia | reflexivity]. }
      rewrite Hleap in Hl.
      assert (Hy : 400 * n400 + 100 * n100 + 4 * n4 + 3 + 1 <= 9999).
      { destruct (Z.eq_dec n400 24); [|lia].
        destruct (Z.eq_dec n100 3); lia. }
      split.
      * apply valid_date_intro; try lia. rewrite Hl. unfold dim.
        reduce_closed. lia.
      * unfold _ymd2ord, _days_before_month. rewrite Hd, Hl.
        reduce_closed. lia.
    + destruct (year_digits n400 n100 n4 n1) as [Hd Hl]; try lia.
      set (leap := (n1 =? 3) && (negb (n4 =? 24) || (n100 =? 3))) in *.
      assert (Hlb : 0 <= Z.b2z leap) by (destruct leap; simpl; lia).
      pose proof (month_day_spec leap r4 ltac:(lia)) as Hmd.
      destruct (month_day leap r4) as [m d]. destruct Hmd as (Hm & Hdd & Hr).
      replace (n400 * 400 + 1 + n100 * 100 + n4 * 4 + n1)
        with (400 * n400 + 100 * n100 + 4 * n4 + n1 + 1) by lia.
      assert (Hy : 400 * n400 + 100 * n100 + 4 * n4 + n1 + 1 <= 9999).
      { destruct (Z.eq_dec n400 24); [|lia].
        destruct (Z.eq_dec n100 3); [|lia].
        destruct (Z.eq_dec n4 24); [|lia]. lia. }
      split.
      * apply valid_date_intro; try lia. rewrite Hl. exact Hdd.
      * unfold _ymd2ord. rewrite Hd.
        change (_days_before_month ?y m) with (dbm (_is_leap y) m).
        rewrite Hl. lia.
Qed.

Lemma toordinal_bounds (D : date) :
  valid_date D = true -> 1 <= toordinal D <= _MAXORDINAL.
Proof.
  destruct D as [y m d]. unfold valid_date, MINYEAR, MAXYEAR, toordinal.
  cbn [year month day].
  rewrite !andb_true_iff, !Z.leb_le. intros [[[[[Hy1 Hy2] Hm1] Hm2] Hd1] Hd2].
  change (_days_in_month y m) with (dim (_is_leap y) m) in Hd2.
  destruct (year_decomposition y Hy1)
    as (a & b & c & e & Hy & Ha & Hb & Hc & He & Hdby & Hleap).
  destruct (dbm_day_bounds (_is_leap y) m d ltac:(lia) ltac:(lia)) as [Hr _].
  unfold _ymd2ord, _MAXORDINAL.
  change (_days_before_month y m) with (dbm (_is_leap y) m).
  rewrite Hdby. rewrite Hleap in Hr |- *.
  assert (Hlb : 0 <= Z.b2z ((e =? 3) && (negb (c =? 24) || (b =? 3))) <= 1)
    by (destruct (_ && _); simpl; lia).
  split; [lia|].
  assert (a <= 24) by lia.
  destruct (Z.eq_dec a 24); [|lia]. destruct (Z.eq_dec b 3); [|lia].
  destruct (Z.eq_dec c 24); [|lia].
  destruct (Z.eqb_spec e 3); [lia|]. cbn [andb Z.b2z] in Hr |- *. lia.
Qed.

End DateFacts.
Import DateFacts.

(** ** distiller/views.py: the date helpers *)

Section ViewDates.
Import Py Datetime Views Spec.

Lemma append_nil_r (s : string) : (s ++ "")%string = s.
Proof. induction s as [|c s IH]; simpl; congruence. Qed.

Lemma pad0_two_digits (n : Z) :
  0 <= n < 100 -> pad0 2 (str n) = two_digits n.
Proof.
  intros Hn. rewrite str_of_nonneg by lia. unfold two_digits.
  destruct (Z_lt_le_dec n 10) as [Hs|Hs].
  - rewrite str_nonneg_small by lia.
    rewrite Z.div_small, Z.mod_small by lia. reflexivity.
  - rewrite str_nonneg_step by lia.
    rewrite str_nonneg_small
      by (split; [apply Z.div_pos; lia | apply Z.div_lt_upper_bound; lia]).
    reflexivity.
Qed.

Lemma str_four_digits (n : Z) :
  1000 <= n <= 9999 -> str n = four_digits n.
Proof.
  intros Hn. rewrite str_of_nonneg by lia. unfold four_digits.
  assert (H1 : 100 <= n / 10 <= 999)
    by (split; [apply Z.div_le_lower_bound | apply Z.lt_succ_r,
        Z.div_lt_upper_bound]; lia).
  assert (H2 : 10 <= n / 10 / 10 <= 99)
    by (split; [apply Z.div_le_lower_bound | apply Z.lt_succ_r,
        Z.div_lt_upper_bound]; lia).
  assert (H3 : 1 <= n / 10 / 10 / 10 <= 9)
    by (split; [apply Z.div_le_lower_bound | apply Z.lt_succ_r,
        Z.div_lt_upper_bound]; lia).
  rewrite (str_nonneg_step n) by lia.
  rewrite (str_nonneg_step (n / 10)) by lia.
  rewrite (str_nonneg_step (n / 10 / 10)) by lia.
  rewrite (str_nonneg_small (n / 10 / 10 / 10)) by lia.
  rewrite !Z.div_div by lia. reflexivity.
Qed.

(** On a valid date from year 1000 on, [strftime("%m/%d/%Y")] writes
    [MM/DD/YYYY]. *)
Lemma _format_date_for_fac_fields_shape (d : date) :
  valid_date d = true -> 1000 <= year d ->
  _format_date_for_fac_fields d = MM_DD_YYYY d.
Proof.
  unfold valid_date, MINYEAR, MAXYEAR.
  rewrite !andb_true_iff, !Z.leb_le. intros [[[[[Hy1 Hy2] Hm1] Hm2] Hd1] Hd2] Hy.
  assert (Hdim : _days_in_month (year d) (month d) <= 31).
  { change (_days_in_month (year d) (month d))
      with (dim (_is_leap (year d)) (month d)).
    generalize (_is_leap (year d)). intros leap. unfold dim.
    remember (month d) as m eqn:Em. clear Em Hd2.
    month_cases m; destruct leap; reduce_closed; lia. }
  unfold _format_date_for_fac_fields, MM_DD_YYYY. cbn [strftime].
  rewrite !pad0_two_digits, str_four_digits, append_nil_r by lia.
  reflexivity.
Qed.

Lemma date_sub_zero (D : date) :
  valid_date D = true -> date_sub D 0 = Ok D.
Proof.
  intros Hv. unfold date_sub, timedelta. cbn [Z.opp Z.abs Z.leb Z.compare bindr].
  unfold date_add. rewrite Z.add_0_r.
  pose proof (toordinal_bounds D Hv) as [Hlo Hhi].
  destruct (Z.ltb_spec 0 (toordinal D)); [|lia].
  destruct (Z.leb_spec (toordinal D) _MAXORDINAL); [|lia]. cbn [andb].
  unfold fromordinal, toordinal. destruct D as [y m d]. cbn [year month day].
  rewrite _ord2ymd_ymd2ord by exact Hv.
  unfold date_new. now rewrite Hv.
Qed.

Lemma date_sub_days (D : date) (n : Z) :
  valid_date D = true -> 0 <= n <= 999999999 -> n < toordinal D ->
  exists S, date_sub D n = Ok S /\ valid_date S = true
            /\ toordinal S = toordinal D - n.
Proof.
  intros Hv Hn Hlt. unfold date_sub, timedelta.
  destruct (Z.leb_spec (Z.abs (- n)) 999999999); [|lia]. cbn [bindr].
  unfold date_add.
  pose proof (toordinal_bounds D Hv) as [Hlo Hhi].
  replace (toordinal D + - n) with (toordinal D - n) by lia.
  destruct (Z.ltb_spec 0 (toordinal D - n)); [|lia].
  destruct (Z.leb_spec (toordinal D - n) _MAXORDINAL); [|lia]. cbn [andb].
  unfold fromordinal.
  pose proof (_ymd2ord_ord2ymd (toordinal D - n) ltac:(lia)) as Hrt.
  destruct (_ord2ymd (toordinal D - n)) as [[y m] d]. destruct Hrt as [Hv' Ho].
  exists (mkdate y m d). unfold date_new. rewrite Hv'. auto.
Qed.

Example start_date_2019_07_04 (import_today : date) :
  _calculate_start_date import_today (Some 90) (Some (mkdate 2019 7 4))
  = Ok "04/05/2019"%string.
Proof. reflexivity. Qed.

Lemma valid_date_fields (d : date) :
  valid_date d = true ->
  1 <= year d <= 9999 /\ 1 <= month d <= 12 /\ 1 <= day d <= 31.
Proof.
  unfold valid_date, MINYEAR, MAXYEAR.
  rewrite !andb_true_iff, !Z.leb_le. intros [[[[[Hy1 Hy2] Hm1] Hm2] Hd1] Hd2].
  assert (Hdim : _days_in_month (year d) (month d) <= 31).
  { change (_days_in_month (year d) (month d))
      with (dim (_is_leap (year d)) (month d)).
    generalize (_is_leap (year d)). intros leap. unfold dim.
    remember (month d) as m eqn:Em. clear Em Hd2.
    month_cases m; destruct leap; reduce_closed; lia. }
  lia.
Qed.

(** What [strftime("%m/%d/%Y")] writes for any valid date: month and
    day with two digits, the year as [str] prints it. *)
Lemma _format_date_for_fac_fields_parts (d : date) :
  valid_date d = true ->
  _format_date_for_fac_fields d
  = (two_digits (month d) ++ "/" ++ two_digits (day d) ++ "/"
     ++ str (year d))%string.
Proof.
  intros Hv. destruct (valid_date_fields d Hv) as (Hy & Hm & Hd).
  unfold _format_date_for_fac_fields. cbn [strftime].
  rewrite !pad0_two_digits, append_nil_r by lia. reflexivity.
Qed.

Lemma len_str_below_1000 (y : Z) :
  0 <= y < 1000 -> (String.length (str y) < 4)%nat.
Proof.
  intros Hy. rewrite str_of_nonneg by lia.
  destruct (Z_lt_le_dec y 10) as [H1|H1].
  - rewrite (len_str_nonneg y 1); [lia | lia | lia | | now left].
    change (10 ^ Z.of_nat 1) with 10. lia.
  - destruct (Z_lt_le_dec y 100) as [H2|H2].
    + rewrite (len_str_nonneg y 2); [lia | lia | lia | | right].
      * change (10 ^ Z.of_nat 2) with 100. lia.
      * change (10 ^ (Z.of_nat 2 - 1)) with 10. lia.
    + rewrite (len_str_nonneg y 3); [lia | lia | lia | | right].
      * change (10 ^ Z.of_nat 3) with 1000. lia.
      * change (10 ^ (Z.of_nat 3 - 1)) with 100. lia.
Qed.

(** The claim C6 as stated fails for early reference dates.  From
    0001-03-31, whose ordinal is 90, 90 days cannot be subtracted:
    [_calculate_start_date(90, D)] raises [OverflowError] and returns no
    string.  And for 0999-12-31 [_calculate_start_date(0, D)] returns
    [12/31/999], which is not of the form [MM/DD/YYYY]: [%Y] does not pad
    the year. *)
Lemma calculate_start_date_early_reference_dates :
  valid_date (mkdate 1 3 31) = true
  /\ toordinal (mkdate 1 3 31) = 90
  /\ _calculate_start_date (mkdate 2019 7 1) (Some 90) (Some (mkdate 1 3 31))
     = Raise OverflowError
  /\ valid_date (mkdate 999 12 31) = true
  /\ _calculate_start_date (mkdate 2019 7 1) (Some 0)
       (Some (mkdate 999 12 31))
     = Ok "12/31/999"%string
  /\ MM_DD_YYYY (mkdate 999 12 31) = "12/31/0999"%string.
Proof. vm_compute. repeat split; reflexivity. Qed.

(** C6, amended.  For every valid reference date [D]:
    [_calculate_start_date(90, D)] returns the string of the date [S]
    that lies 90 days before [D] when there is such a date, that is when
    [D] is 0001-04-01 or later (ordinal above 90), and raises
    [OverflowError] otherwise; [_calculate_start_date(0, D)] returns the
    string of [D] itself.  The string [_format_date_for_fac_fields]
    writes for a valid date is two-digit month, two-digit day and the
    year as [str] prints it, separated by slashes: [MM/DD/YYYY] when the
    year is 1000 or later, and a year of fewer than four digits
    before. *)
Theorem calculate_start_date_reference_date (import_today D : date) :
  valid_date D = true ->
  (90 < toordinal D ->
   exists S,
     valid_date S = true /\ toordinal S = toordinal D - 90
     /\ _calculate_start_date import_today (Some 90) (Some D)
        = Ok (_format_date_for_fac_fields S))
  /\ (toordinal D <= 90 ->
      _calculate_start_date import_today (Some 90) (Some D)
      = Raise OverflowError)
  /\ _calculate_start_date import_today (Some 0) (Some D)
     = Ok (_format_date_for_fac_fields D)
  /\ (forall d, valid_date d = true ->
        _format_date_for_fac_fields d
        = (two_digits (month d) ++ "/" ++ two_digits (day d) ++ "/"
           ++ str (year d))%string
        /\ (1000 <= year d -> _format_date_for_fac_fields d = MM_DD_YYYY d)
        /\ (year d < 1000 -> (String.length (str (year d)) < 4)%nat)).
Proof.
  intros Hv. split; [|split; [|split]].
  - intros H90.
    destruct (date_sub_days D 90 Hv ltac:(lia) H90) as (S & Hs & HvS & Ho).
    exists S. repeat split; try assumption.
    unfold _calculate_start_date. cbn [timedelta Z.abs Z.leb Z.compare
      Pos.compare Pos.compare_cont bindr].
    rewrite Hs. reflexivity.
  - intros H90. unfold _calculate_start_date.
    cbn [timedelta Z.abs Z.leb Z.compare Pos.compare Pos.compare_cont bindr].
    unfold date_sub.
    cbn [timedelta Z.opp Z.abs Z.leb Z.compare Pos.compare Pos.compare_cont
         bindr].
    unfold date_add.
    destruct (Z.ltb_spec 0 (toordinal D + -90)); [lia | reflexivity].
  - unfold _calculate_start_date. cbn [timedelta Z.abs Z.leb Z.compare bindr].
    rewrite date_sub_zero by exact Hv. reflexivity.
  - intros d Hd. split; [now apply _format_date_for_fac_fields_parts|].
    split.
    + intros Hy. now apply _format_date_for_fac_fields_shape.
    + intros Hy. apply len_str_below_1000.
      destruct (valid_date_fields d Hd) as (Hy' & _). lia.
Qed.

Lemma calculate_start_date_reference_date_witness :
  (90 < toordinal (mkdate 2019 7 4) ->
   exists S,
     valid_date S = true
     /\ toordinal S = toordinal (mkdate 2019 7 4) - 90
     /\ _calculate_start_date (mkdate 2019 7 1) (Some 90)
          (Some (mkdate 2019 7 4))
        = Ok (_format_date_for_fac_fields S))
  /\ (toordinal (mkdate 2019 7 4) <= 90 ->
      _calculate_start_date (mkdate 2019 7 1) (Some 90)
        (Some (mkdate 2019 7 4))
      = Raise OverflowError)
  /\ _calculate_start_date (mkdate 2019 7 1) (Some 0) (Some (mkdate 2019 7 4))
     = Ok (_format_date_for_fac_fields (mkdate 2019 7 4))
  /\ (forall d, valid_date d = true ->
        _format_date_for_fac_fields d
        = (two_digits (month d) ++ "/" ++ two_digits (day d) ++ "/"
           ++ str (year d))%string
        /\ (1000 <= year d -> _format_date_for_fac_fields d = MM_DD_YYYY d)
        /\ (year d < 1000 -> (String.length (str (year d)) < 4)%nat)).
Proof.
  apply (calculate_start_date_reference_date (mkdate 2019 7 1)
           (mkdate 2019 7 4)); reflexivity.
Defined.

End ViewDates.

(** ** Traces *)

Section TraceFacts.
Import Py Selenium Spec.

Lemma clicks_app (t1 t2 : list action) :
  clicks (t1 ++ t2) = clicks t1 ++ clicks t2.
Proof.
  induction t1 as [|a t1 IH]; [reflexivity|].
  destruct a; simpl; rewrite ?IH; reflexivity.
Qed.

Lemma pager_clicks_app (t1 t2 : list action) :
  pager_clicks (t1 ++ t2) = pager_clicks t1 ++ pager_clicks t2.
Proof.
  induction t1 as [|a t1 IH]; [reflexivity|].
  destruct a as [| |[]| | | | | |]; simpl; rewrite ?IH; reflexivity.
Qed.

Lemma calls_app (f : string) (t1 t2 : list action) :
  calls f (t1 ++ t2) = (calls f t1 + calls f t2)%nat.
Proof.
  induction t1 as [|a t1 IH]; [reflexivity|].
  destruct a; simpl; rewrite ?IH; try reflexivity. lia.
Qed.

Lemma released_app (t1 t2 : list action) :
  released (t1 ++ t2) = released t1 || released t2.
Proof. apply existsb_app. Qed.

Lemma clicks_id_clicks (ids : list string) :
  clicks (id_clicks ids) = map ById ids.
Proof.
  unfold id_clicks. induction ids as [|i ids IH]; simpl;
    [reflexivity | try f_equal; exact IH].
Qed.

Lemma pager_clicks_id_clicks (ids : list string) :
  pager_clicks (id_clicks ids) = [].
Proof.
  unfold id_clicks. induction ids as [|i ids IH]; simpl;
    [reflexivity | try f_equal; exact IH].
Qed.

Lemma calls_id_clicks (f : string) (ids : list string) :
  calls f (id_clicks ids) = O.
Proof.
  unfold id_clicks. induction ids as [|i ids IH]; simpl;
    [reflexivity | try f_equal; exact IH].
Qed.

Lemma id_clicks_app (l1 l2 : list string) :
  id_clicks (l1 ++ l2) = id_clicks l1 ++ id_clicks l2.
Proof. apply map_app. Qed.

End TraceFacts.

(** ** LinkedFileDownloader: [download_one_set_of_result_files] *)

Section LinkedFiles.
Import Py Datetime Selenium Views Spec.

Lemma bind_Ok {B A C : Type} (m : M B A) (k : A -> M B C)
    (w w' : world B) (a : A) :
  m w = (Ok a, w') -> bind m k w = k a w'.
Proof. intros H. unfold bind. now rewrite H. Qed.

Lemma bind_Raise {B A C : Type} (m : M B A) (k : A -> M B C)
    (w w' : world B) (e : exn) :
  m w = (Raise e, w') -> bind m k w = (Raise e, w').
Proof. intros H. unfold bind. now rewrite H. Qed.

Lemma sim_click_by_id (s : Sim.t) (id : string) :
  1 <= Sim.page s -> Sim.react (Click (ById id)) s = (None, s).
Proof.
  intros Hp. unfold Sim.react.
  destruct (Z.eqb_spec (Sim.page s) 0); [lia | reflexivity].
Qed.

(** One iteration of the loop, for any browser: the look-up rebinds
    [download_link] when it succeeds and leaves it as it was when it
    fails; then the click is attempted on whatever it holds. *)
Lemma for_each_result_cons {B : Type} (br : browser B) (name_suffix : string)
    (i : Z) (rest : list Z) (download_link : option element) (w : world B) :
  for_each_result br name_suffix (i :: rest) download_link w
  = let download_link' :=
      if present br (bstate w) (ById (link_name name_suffix i))
      then Some (ById (link_name name_suffix i)) else download_link in
    match download_link' with
    | None => (Raise NameError, w)
    | Some e =>
        bind (click br e)
          (fun _ => for_each_result br name_suffix rest download_link') w
    end.
Proof.
  cbn [for_each_result]. unfold bind, try_except, find_element_by_id, find, ret.
  destruct (present br (bstate w) (ById (link_name name_suffix i)));
    [reflexivity|].
  destruct download_link; reflexivity.
Qed.

(** Once [download_link] is bound, every iteration clicks: the link just
    found, or else the link left over from an earlier iteration. *)
Lemma for_each_result_bound (name_suffix : string) (indices : list Z) :
  forall (id0 : string) (w : world Sim.t),
    1 <= Sim.page (bstate w) ->
    exists ids,
      for_each_result Sim.portal name_suffix indices (Some (ById id0)) w
      = (Ok tt, mkworld (bstate w) (clock w) (trace w ++ id_clicks ids))
      /\ List.length ids = List.length indices.
Proof.
  induction indices as [|i indices IH]; intros id0 w Hp.
  - exists []. simpl. unfold ret. rewrite app_nil_r. destruct w; auto.
  - rewrite for_each_result_cons. cbv zeta.
    assert (Hstep : forall id1,
      exists ids,
        bind (click Sim.portal (ById id1))
             (fun _ => for_each_result Sim.portal name_suffix indices
                         (Some (ById id1))) w
        = (Ok tt, mkworld (bstate w) (clock w) (trace w ++ id_clicks ids))
        /\ List.length ids = S (List.length indices)).
    { intros id1. unfold bind, click, perform. cbn [react Sim.portal].
      rewrite sim_click_by_id by exact Hp.
      destruct (IH id1 (mkworld (bstate w) (clock w)
                          (trace w ++ [Click (ById id1)])) Hp)
        as (ids & Hrun & Hlen).
      exists (id1 :: ids). rewrite Hrun. cbn [bstate clock trace].
      rewrite <- app_assoc. split; [reflexivity | simpl; lia]. }
    destruct (present Sim.portal (bstate w) (ById (link_name name_suffix i))).
    + exact (Hstep _).
    + exact (Hstep id0).
Qed.

(** The whole loop, entered with [download_link] unbound: when slot 0 is
    missing the first click raises [NameError] (an [UnboundLocalError])
    before anything is clicked; when slot 0 is there, all 25 iterations
    click, however many slots the page fills. *)
Lemma for_each_result_unbound (name_suffix : string) (w : world Sim.t) :
  1 <= Sim.page (bstate w) ->
  let r := for_each_result Sim.portal name_suffix
             (range max_number_of_search_results) None w in
  if Sim.mem (link_name name_suffix 0) (Sim.ids_shown (bstate w))
  then exists ids,
         r = (Ok tt, mkworld (bstate w) (clock w) (trace w ++ id_clicks ids))
         /\ List.length ids = 25%nat
  else r = (Raise NameError, w).
Proof.
  intros Hp r. subst r.
  change (range max_number_of_search_results)
    with (0 :: map Z.of_nat (seq 1 24)).
  rewrite for_each_result_cons. cbv zeta.
  cbn [present Sim.portal Sim.present].
  destruct (Z.eqb_spec (Sim.page (bstate w)) 0); [lia|].
  destruct (Sim.mem (link_name name_suffix 0) (Sim.ids_shown (bstate w)));
    [|reflexivity].
  unfold bind, click, perform. cbn [react Sim.portal].
  rewrite sim_click_by_id by exact Hp.
  destruct (for_each_result_bound name_suffix (map Z.of_nat (seq 1 24))
              (link_name name_suffix 0)
              (mkworld (bstate w) (clock w)
                 (trace w ++ [Click (ById (link_name name_suffix 0))])) Hp)
    as (ids & Hrun & Hlen).
  exists (link_name name_suffix 0 :: ids). rewrite Hrun.
  cbn [bstate clock trace]. rewrite <- app_assoc.
  split; [reflexivity | simpl; rewrite Hlen; reflexivity].
Qed.

End LinkedFiles.

Section LinkedFilesOnAPage.
Import Py Datetime Selenium Views Spec.

(** [download_one_set_of_result_files] on a result page: 25 click
    attempts when slot 0 is filled, none and a [NameError] when it is
    not. *)
Lemma download_one_set_of_result_files_attempts
    (file_type name_suffix : string) (w : world Sim.t) :
  (file_type, name_suffix) = ("SF-SAC", "Form")%string
  \/ (file_type, name_suffix) = ("PDF", "Audit")%string ->
  1 <= Sim.page (bstate w) ->
  let r := download_one_set_of_result_files Sim.portal file_type w in
  if Sim.mem (link_name name_suffix 0) (Sim.ids_shown (bstate w))
  then exists ids,
         r = (Ok true,
              mkworld (bstate w) (clock w) (trace w ++ id_clicks ids))
         /\ List.length ids = 25%nat
  else r = (Raise NameError, w).
Proof.
  intros Hty Hp r. subst r.
  pose proof (for_each_result_unbound name_suffix w Hp) as Hloop.
  cbv zeta in Hloop.
  destruct Hty as [E|E]; injection E as -> ->;
    unfold download_one_set_of_result_files; cbn [String.eqb Ascii.eqb Bool.eqb];
    unfold bind;
    destruct (Sim.mem _ (Sim.ids_shown (bstate w)));
    try (destruct Hloop as (ids & -> & Hlen); exists ids; auto);
    try (rewrite Hloop; reflexivity).
Qed.

(** [download_all_linked_files] on a result page never raises and leaves
    the browser where it was: the failure of one category is swallowed
    and the other is processed all the same. *)
Lemma download_all_linked_files_on_page (w : world Sim.t) :
  1 <= Sim.page (bstate w) ->
  exists ids,
    download_all_linked_files Sim.portal w
    = (Ok tt,
       mkworld (bstate w) (clock w)
         (trace w ++ Called "download_all_linked_files" :: id_clicks ids)).
Proof.
  intros Hp. unfold download_all_linked_files.
  set (w0 := mkworld (bstate w) (clock w)
               (trace w ++ [Called "download_all_linked_files"])).
  assert (Hstep : forall file_type name_suffix (w1 : world Sim.t),
    (file_type, name_suffix) = ("SF-SAC", "Form")%string
    \/ (file_type, name_suffix) = ("PDF", "Audit")%string ->
    1 <= Sim.page (bstate w1) ->
    exists ids,
      try_except
        (bind (download_one_set_of_result_files Sim.portal file_type)
              (fun _ => ret tt))
        (ret tt) w1
      = (Ok tt, mkworld (bstate w1) (clock w1) (trace w1 ++ id_clicks ids))).
  { intros file_type name_suffix w1 Hty Hp1.
    pose proof (download_one_set_of_result_files_attempts
                  file_type name_suffix w1 Hty Hp1) as H.
    cbv zeta in H. unfold try_except, bind.
    destruct (Sim.mem _ _).
    - destruct H as (ids & -> & _). exists ids. reflexivity.
    - rewrite H. exists []. unfold ret. simpl. rewrite app_nil_r.
      destruct w1; reflexivity. }
  destruct (Hstep "SF-SAC"%string "Form"%string w0 (or_introl eq_refl) Hp)
    as (ids1 & H1).
  destruct (Hstep "PDF"%string "Audit"%string
              (mkworld (bstate w0) (clock w0) (trace w0 ++ id_clicks ids1))
              (or_intror eq_refl) Hp) as (ids2 & H2).
  exists (ids1 ++ ids2).
  rewrite (bind_Ok _ _ w w0 tt) by reflexivity.
  rewrite (bind_Ok _ _ _ _ tt H1), H2.
  subst w0. cbn [bstate clock trace].
  rewrite id_clicks_app, <- !app_assoc. reflexivity.
Qed.

(** C1, on the code as it is.  A result page that fills exactly the slots
    0..4 (5 of 25) of both categories: [download_one_set_of_result_files]
    returns [True] after 25 click attempts for each category, the 20
    missing slots being answered by clicking the link of slot 4 again
    rather than skipped.  On a page that fills the slots 1..5 (again 5 of
    25) it raises [NameError] before any click; [download_all_linked_files]
    swallows that for each category in turn, and nothing is downloaded. *)
Theorem download_one_set_of_result_files_five_of_25 :
  let s := Sim.showing [Sim.page_with_slots [0; 1; 2; 3; 4]] in
  let s' := Sim.showing [Sim.page_with_slots [1; 2; 3; 4; 5]] in
  let forms := download_one_set_of_result_files Sim.portal "SF-SAC" (init s) in
  let audits := download_one_set_of_result_files Sim.portal "PDF" (init s) in
  let forms' := download_one_set_of_result_files Sim.portal "SF-SAC" (init s') in
  let both' := download_all_linked_files Sim.portal (init s') in
  slots_present (Sim.ids_shown s) "Form" = [0; 1; 2; 3; 4]
  /\ slots_present (Sim.ids_shown s) "Audit" = [0; 1; 2; 3; 4]
  /\ fst forms = Ok true
  /\ clicks (trace (snd forms))
     = map (fun i => ById (link_name "Form" i))
           ([0; 1; 2; 3; 4] ++ repeat 4 20)
  /\ List.length (clicks (trace (snd forms))) = 25%nat
  /\ fst audits = Ok true
  /\ clicks (trace (snd audits))
     = map (fun i => ById (link_name "Audit" i))
           ([0; 1; 2; 3; 4] ++ repeat 4 20)
  /\ slots_present (Sim.ids_shown s') "Form" = [1; 2; 3; 4; 5]
  /\ forms' = (Raise NameError, init s')
  /\ fst both' = Ok tt
  /\ clicks (trace (snd both')) = [].
Proof. vm_compute. repeat split; reflexivity. Qed.

End LinkedFilesOnAPage.

(** ** ResultPager: the pager loop of [download_files_from_fac] *)

Section ResultPager.
Import Py Datetime Selenium Views Spec.

Lemma In_page_range (a : Z) (n : nat) (q : Z) :
  In q (Sim.page_range a n) <-> a <= q < a + Z.of_nat n.
Proof.
  unfold Sim.page_range. rewrite in_map_iff. split.
  - intros (i & <- & Hi). apply in_seq in Hi. lia.
  - intros Hq. exists (Z.to_nat (q - a)). split; [lia|].
    apply in_seq. lia.
Qed.

Lemma page_range_succ (a : Z) (n : nat) :
  Sim.page_range a (S n) = a :: Sim.page_range (a + 1) n.
Proof.
  unfold Sim.page_range. cbn [seq map]. f_equal; [lia|].
  rewrite <- seq_shift, map_map. apply map_ext. intros i. lia.
Qed.

(** Looking a page number up among the pager's links. *)
Lemma find_page_link (l : list Z) (x : Z) :
  (forall q, In q l -> 0 <= q) -> 0 <= x -> In x l ->
  List.find (fun q => String.eqb (str q) (str x)) l = Some x.
Proof.
  induction l as [|q l IH]; intros Hnn Hx Hin; [contradiction|].
  cbn [List.find]. destruct (String.eqb_spec (str q) (str x)) as [E|E].
  - f_equal. apply str_inj; auto. apply Hnn. now left.
  - destruct Hin as [->|Hin]; [contradiction|].
    apply IH; auto. intros q' Hq'. apply Hnn. now right.
Qed.

Lemma pager_offers (l : list Z) (p x : Z) :
  (forall q, In q l -> 0 <= q) -> 0 <= x ->
  existsb (fun q => negb (q =? p) && String.eqb (str q) (str x)) l = true
  <-> In x l /\ x <> p.
Proof.
  intros Hnn Hx. rewrite existsb_exists. split.
  - intros (q & Hq & Hc). apply andb_true_iff in Hc as [Hne He].
    apply String.eqb_eq in He. apply str_inj in He; auto. subst q.
    split; [assumption|]. apply negb_true_iff, Z.eqb_neq in Hne. exact Hne.
  - intros [Hin Hne]. exists x. split; [assumption|].
    apply andb_true_iff. split.
    + apply negb_true_iff, Z.eqb_neq. exact Hne.
    + apply String.eqb_refl.
Qed.

Lemma page_numbers_nonneg (s : Sim.t) (q : Z) :
  In q (Sim.page_numbers s) -> 0 <= q.
Proof. unfold Sim.page_numbers. rewrite In_page_range. lia. Qed.

(** On page [p] of [K], the pager links page [p + 1] exactly when
    [p < K]. *)
Lemma sim_next_link_present (s : Sim.t) :
  1 <= Sim.page s <= Sim.K s ->
  Sim.present s (Sim.pager_link (Sim.page s + 1)) = (Sim.page s <? Sim.K s).
Proof.
  intros Hp. unfold Sim.pager_link, Sim.pager. cbn [Sim.present].
  cbn [String.eqb Ascii.eqb Bool.eqb andb].
  destruct (Z.leb_spec 1 (Sim.page s)); [|lia]. cbn [andb].
  destruct (Z.ltb_spec (Sim.page s) (Sim.K s)) as [Hlt|Hge].
  - destruct (Z.leb_spec 2 (Sim.K s)); [|lia]. cbn [andb].
    apply pager_offers; [apply page_numbers_nonneg | lia |].
    split; [|lia]. unfold Sim.page_numbers. apply In_page_range.
    unfold Sim.K in *. lia.
  - destruct (2 <=? Sim.K s); [|reflexivity]. cbn [andb].
    apply not_true_is_false. intros Hex.
    apply pager_offers in Hex; [|apply page_numbers_nonneg | lia].
    destruct Hex as [Hin _]. unfold Sim.page_numbers in Hin.
    apply In_page_range in Hin. unfold Sim.K in *. lia.
Qed.

(** [get_next_pager_link] returns [False] exactly when the look-up of the
    pager row or of the link labelled with the next page number fails. *)
Lemma get_next_pager_link_value {B : Type} (br : browser B)
    (page_index : Z) (w : world B) :
  get_next_pager_link br page_index w
  = (Ok (if present br (bstate w) (ByCssSelector "tr.GridPager")
            && present br (bstate w)
                 (ByLinkText (ByCssSelector "tr.GridPager")
                    (str (page_index + 1)))
         then Some (ByLinkText (ByCssSelector "tr.GridPager")
                      (str (page_index + 1)))
         else None), w).
Proof.
  unfold get_next_pager_link, bind, try_except,
    find_element_by_css_selector, find_element_by_link_text, find, ret, raise.
  destruct (present br (bstate w) (ByCssSelector "tr.GridPager"));
    [|reflexivity].
  destruct (present br (bstate w) _); reflexivity.
Qed.

Lemma sim_get_next_pager_link (w : world Sim.t) :
  1 <= Sim.page (bstate w) <= Sim.K (bstate w) ->
  get_next_pager_link Sim.portal (Sim.page (bstate w)) w
  = (Ok (if Sim.page (bstate w) <? Sim.K (bstate w)
         then Some (Sim.pager_link (Sim.page (bstate w) + 1)) else None), w).
Proof.
  intros Hp. rewrite get_next_pager_link_value.
  cbn [present Sim.portal].
  pose proof (sim_next_link_present (bstate w) Hp) as Hl.
  unfold Sim.pager_link, Sim.pager in Hl |- *.
  destruct (Z.ltb_spec (Sim.page (bstate w)) (Sim.K (bstate w))) as [Hlt|Hge].
  - rewrite Hl.
    cbn [Sim.present] in Hl |- *. apply andb_true_iff in Hl as [-> _].
    reflexivity.
  - rewrite Hl, andb_false_r. reflexivity.
Qed.

Lemma sim_click_pager_link (s : Sim.t) (q : Z) :
  1 <= q <= Sim.K s ->
  Sim.react (Click (Sim.pager_link q)) s = (None, Sim.set_page s q).
Proof.
  intros Hq. unfold Sim.pager_link. cbn [Sim.react].
  rewrite find_page_link; [reflexivity | apply page_numbers_nonneg | lia |].
  unfold Sim.page_numbers. apply In_page_range. unfold Sim.K in Hq. lia.
Qed.

(** The loop from page [p] with [n] pages still ahead. *)
Lemma pager_loop_on_portal (n : nat) :
  forall (fuel : nat) (w : world Sim.t),
    1 <= Sim.page (bstate w) ->
    Sim.page (bstate w) + Z.of_nat n = Sim.K (bstate w) ->
    (n <= fuel)%nat ->
    exists w' tr,
      pager_loop Sim.portal fuel
        (if Sim.page (bstate w) <? Sim.K (bstate w)
         then Some (Sim.pager_link (Sim.page (bstate w) + 1)) else None)
        (Sim.page (bstate w)) w
      = (Ok (Sim.K (bstate w)), w')
      /\ Sim.page (bstate w') = Sim.K (bstate w)
      /\ Sim.pages (bstate w') = Sim.pages (bstate w)
      /\ trace w' = trace w ++ tr
      /\ pager_clicks tr
         = map str (Sim.page_range (Sim.page (bstate w) + 1) n)
      /\ calls "download_all_linked_files" tr = n.
Proof.
  induction n as [|n IH]; intros fuel w Hp HK Hfuel.
  - destruct (Z.ltb_spec (Sim.page (bstate w)) (Sim.K (bstate w))); [lia|].
    assert (E : Sim.page (bstate w) = Sim.K (bstate w)) by lia.
    exists w, []. rewrite app_nil_r.
    destruct fuel; cbn [pager_loop]; unfold ret; rewrite E;
      repeat split; reflexivity.
  - destruct (Z.ltb_spec (Sim.page (bstate w)) (Sim.K (bstate w))); [|lia].
    destruct fuel as [|fuel]; [lia|]. cbn [pager_loop].
    set (p := Sim.page (bstate w)) in *.
    set (w1 := mkworld (Sim.set_page (bstate w) (p + 1)) (clock w)
                 (trace w ++ [Click (Sim.pager_link (p + 1))])).
    assert (H1 : click Sim.portal (Sim.pager_link (p + 1)) w = (Ok tt, w1)).
    { unfold click, perform. cbn [react Sim.portal].
      rewrite sim_click_pager_link by lia. reflexivity. }
    rewrite (bind_Ok _ _ _ _ _ H1).
    set (w2 := mkworld (Sim.set_time (bstate w1) (Sim.time (bstate w1) + 1))
                 (clock w1 + 1) (trace w1 ++ [Sleep 1])).
    rewrite (bind_Ok _ _ w1 w2 tt) by reflexivity.
    destruct (download_all_linked_files_on_page w2) as (ids & H3).
    { subst w2 w1. cbn. lia. }
    rewrite (bind_Ok _ _ _ _ _ H3).
    set (w3 := mkworld (bstate w2) (clock w2)
                 (trace w2 ++ Called "download_all_linked_files"
                    :: id_clicks ids)) in *.
    assert (Hp3 : Sim.page (bstate w3) = p + 1) by reflexivity.
    assert (HK3 : Sim.K (bstate w3) = Sim.K (bstate w)) by reflexivity.
    pose proof (sim_get_next_pager_link w3) as H4.
    rewrite Hp3, HK3 in H4. specialize (H4 ltac:(lia)).
    rewrite (bind_Ok _ _ _ _ _ H4).
    destruct (IH fuel w3) as (w' & tr & Hrun & Hpage & Hpages & Htr & Hpc & Hc).
    { rewrite Hp3. lia. }
    { rewrite Hp3, HK3. lia. }
    { lia. }
    exists w',
      (Click (Sim.pager_link (p + 1)) :: Sleep 1
       :: Called "download_all_linked_files" :: id_clicks ids ++ tr).
    split; [exact Hrun|]. repeat split.
    + rewrite Hpage. exact HK3.
    + rewrite Hpages. reflexivity.
    + rewrite Htr. subst w3 w2 w1. cbn [trace].
      rewrite <- !app_assoc. reflexivity.
    + rewrite page_range_succ. cbn [map].
      unfold Sim.pager_link at 1. cbn [pager_clicks]. f_equal.
      rewrite pager_clicks_app, pager_clicks_id_clicks, Hpc, Hp3.
      reflexivity.
    + cbn [calls String.eqb Ascii.eqb Bool.eqb].
      rewrite calls_app, calls_id_clicks, Hc. reflexivity.
Qed.

End ResultPager.

Section ResultPagerClaim.
Import Py Datetime Selenium Views Spec.

(** C2. On a simulated result set of pages 1..K, entered on page 1,
    step 10 of [download_files_from_fac] terminates with
    [current_page_index = K] and the browser on page K; it has entered
    [download_all_linked_files] exactly K times; the pager links it has
    clicked are those labelled 2, ..., K in this order, so the link
    labelled K+1 is never clicked; and the loop ends because the look-up
    of the link labelled K+1 does not resolve: on any page,
    [get_next_pager_link] returns [False] exactly when the look-up of the
    link labelled with the next page number fails. *)
Theorem pager_traversal_ends_after_page_K (s : Sim.t) (fuel : nat) :
  Sim.page s = 1 -> 1 <= Sim.K s -> (Z.to_nat (Sim.K s) - 1 <= fuel)%nat ->
  let r := download_all_pages Sim.portal fuel (init s) in
  fst r = Ok (Sim.K s)
  /\ Sim.page (bstate (snd r)) = Sim.K s
  /\ calls "download_all_linked_files" (trace (snd r)) = Z.to_nat (Sim.K s)
  /\ pager_clicks (trace (snd r))
     = map str (Sim.page_range 2 (Z.to_nat (Sim.K s) - 1))
  /\ ~ In (str (Sim.K s + 1)) (pager_clicks (trace (snd r)))
  /\ present Sim.portal (bstate (snd r)) (Sim.pager_link (Sim.K s + 1))
     = false
  /\ (forall w : world Sim.t,
        1 <= Sim.page (bstate w) <= Sim.K (bstate w) ->
        fst (get_next_pager_link Sim.portal (Sim.page (bstate w)) w) = Ok None
        <-> present Sim.portal (bstate w)
              (Sim.pager_link (Sim.page (bstate w) + 1)) = false).
Proof.
  intros Hp HK Hfuel r. subst r.
  destruct (download_all_linked_files_on_page (init s)) as (ids & H1).
  { cbn. lia. }
  set (w1 := mkworld (bstate (init s)) (clock (init s))
               (trace (init s) ++ Called "download_all_linked_files"
                  :: id_clicks ids)) in *.
  assert (Hp1 : Sim.page (bstate w1) = 1) by exact Hp.
  pose proof (sim_get_next_pager_link w1) as H2.
  rewrite Hp1 in H2. specialize (H2 ltac:(change (Sim.K (bstate w1))
                                           with (Sim.K s); lia)).
  destruct (pager_loop_on_portal (Z.to_nat (Sim.K s) - 1) fuel w1)
    as (w' & tr & Hrun & Hpage & Hpages & Htr & Hpc & Hc).
  { rewrite Hp1. lia. }
  { rewrite Hp1. change (Sim.K (bstate w1)) with (Sim.K s). lia. }
  { exact Hfuel. }
  assert (Hall : download_all_pages Sim.portal fuel (init s)
                 = (Ok (Sim.K s), w')).
  { unfold download_all_pages.
    rewrite (bind_Ok _ _ _ _ _ H1), (bind_Ok _ _ _ _ _ H2).
    revert Hrun. rewrite Hp1. intros Hrun. exact Hrun. }
  rewrite Hp1 in Hpc.
  change (Sim.K (bstate w1)) with (Sim.K s) in *.
  rewrite Hall. cbn [fst snd].
  assert (Htrace : pager_clicks (trace w')
                   = map str (Sim.page_range 2 (Z.to_nat (Sim.K s) - 1))).
  { rewrite Htr. subst w1. cbn [trace init app pager_clicks].
    rewrite pager_clicks_app, pager_clicks_id_clicks. exact Hpc. }
  assert (HK' : Sim.K (bstate w') = Sim.K s).
  { unfold Sim.K. now rewrite Hpages. }
  repeat split.
  - exact Hpage.
  - rewrite Htr. subst w1.
    cbn [trace init app calls String.eqb Ascii.eqb Bool.eqb].
    rewrite calls_app, calls_id_clicks, Hc. lia.
  - exact Htrace.
  - rewrite Htrace, in_map_iff. intros (q & Hq & Hin).
    apply In_page_range in Hin. apply str_inj in Hq; lia.
  - cbn [present Sim.portal]. rewrite <- Hpage at 1.
    rewrite sim_next_link_present by lia.
    apply Z.ltb_ge. lia.
  - rewrite sim_get_next_pager_link by assumption. cbn [fst].
    cbn [present Sim.portal]. rewrite sim_next_link_present by assumption.
    destruct (Sim.page (bstate w) <? Sim.K (bstate w));
      [intros E; discriminate E | reflexivity].
  - rewrite sim_get_next_pager_link by assumption. cbn [fst].
    cbn [present Sim.portal]. rewrite sim_next_link_present by assumption.
    intros ->. reflexivity.
Qed.

Lemma pager_traversal_ends_after_page_K_witness :
  let s := Sim.showing [Sim.page_with_slots [0; 1]; []; Sim.page_with_slots [0]] in
  let r := download_all_pages Sim.portal 2 (init s) in
  fst r = Ok 3
  /\ Sim.page (bstate (snd r)) = 3
  /\ calls "download_all_linked_files" (trace (snd r)) = 3%nat
  /\ pager_clicks (trace (snd r)) = ["2"; "3"]%string.
Proof.
  pose proof (pager_traversal_ends_after_page_K
                (Sim.showing [Sim.page_with_slots [0; 1]; [];
                              Sim.page_with_slots [0]]) 2
                eq_refl ltac:(vm_compute; discriminate)
                ltac:(vm_compute; lia)) as H.
  cbv zeta in H. destruct H as (H1 & H2 & H3 & H4 & _).
  repeat split; assumption.
Defined.

End ResultPagerClaim.

(** ** DownloadCompletionWaiter *)

Section Waiter.
Import Py Datetime Selenium Views Spec.

Local Abbreviation poll := (list_completed_chrome_downloads Sim.portal).

Lemma opened_on_downloads_page (w : world Sim.t) :
  Sim.on_downloads_page (bstate (Sim.opened w)) = true.
Proof.
  unfold Sim.opened.
  destruct (Sim.on_downloads_page (bstate w)) eqn:E; [exact E | reflexivity].
Qed.

Lemma opened_idem (w : world Sim.t) :
  Sim.on_downloads_page (bstate w) = true -> Sim.opened w = w.
Proof. intros E. unfold Sim.opened. now rewrite E. Qed.

(** A poll: the script's value for the items of the moment; the first
    one navigates to the downloads page. *)
Lemma sim_poll (w : world Sim.t) :
  list_completed_chrome_downloads Sim.portal w
  = (Ok (completed_script (Sim.items_at w 0)), Sim.opened w).
Proof.
  unfold list_completed_chrome_downloads, bind, Sim.opened,
    Sim.on_downloads_page, Sim.items_at.
  cbn [current_url Sim.portal]. rewrite Z.add_0_r.
  destruct (String.prefix "chrome://downloads" (Sim.url (bstate w)));
    cbn [negb]; [destruct w|]; reflexivity.
Qed.

Lemma after_polls_add (w : world Sim.t) (a b : nat) :
  Sim.after_polls (Sim.after_polls w a) b = Sim.after_polls w (a + b).
Proof.
  unfold Sim.after_polls. cbn [bstate clock trace Sim.set_time Sim.time
    Sim.pages Sim.page Sim.url Sim.downloads Sim.options Sim.day_today].
  rewrite <- app_assoc, <- repeat_app.
  replace (Sim.time (bstate w) + Z.of_nat a + Z.of_nat b)
    with (Sim.time (bstate w) + Z.of_nat (a + b)) by lia.
  replace (clock w + Z.of_nat a + Z.of_nat b)
    with (clock w + Z.of_nat (a + b)) by lia.
  reflexivity.
Qed.

Lemma after_polls_succ (w : world Sim.t) (k : nat) :
  Sim.after_polls (Sim.after_polls w 1) k = Sim.after_polls w (S k).
Proof. apply after_polls_add. Qed.

Lemma after_polls_zero (w : world Sim.t) : Sim.after_polls w 0 = w.
Proof.
  unfold Sim.after_polls. cbn [Z.of_nat repeat]. rewrite !Z.add_0_r, app_nil_r.
  destruct w as [[] c tr]. reflexivity.
Qed.

Lemma after_polls_on_downloads_page (w : world Sim.t) (k : nat) :
  Sim.on_downloads_page (bstate (Sim.after_polls w k))
  = Sim.on_downloads_page (bstate w).
Proof. reflexivity. Qed.

Lemma items_at_after_polls (w : world Sim.t) (k j : nat) :
  Sim.items_at (Sim.after_polls w k) j = Sim.items_at w (k + j).
Proof.
  unfold Sim.items_at, Sim.after_polls. cbn. f_equal. lia.
Qed.

Lemma items_at_opened (w : world Sim.t) (j : nat) :
  Sim.items_at (Sim.opened w) j = Sim.items_at w j.
Proof.
  unfold Sim.opened. destruct (Sim.on_downloads_page (bstate w)); reflexivity.
Qed.

Lemma clock_opened (w : world Sim.t) : clock (Sim.opened w) = clock w.
Proof.
  unfold Sim.opened. destruct (Sim.on_downloads_page (bstate w)); reflexivity.
Qed.

(** One round of [until] whose poll yields nothing truthy. *)
Lemma until_loop_round (fuel : nat) (end_time : Z) (w : world Sim.t) :
  Sim.on_downloads_page (bstate w) = true ->
  truthy (completed_script (Sim.items_at w 0)) = false ->
  until_loop Sim.portal (S fuel) end_time 1
    poll w
  = if end_time <? clock w + 1
    then (Raise TimeoutException, Sim.after_polls w 1)
    else until_loop Sim.portal fuel end_time 1
           poll (Sim.after_polls w 1).
Proof.
  intros Hon Hv. cbn [until_loop]. rewrite sim_poll, opened_idem by exact Hon.
  destruct (completed_script (Sim.items_at w 0)) as [[|x xs]|];
    try discriminate Hv; reflexivity.
Qed.

(** [k] rounds without a truthy value, none of them the last. *)
Lemma until_loop_rounds (k : nat) :
  forall (fuel : nat) (end_time : Z) (w : world Sim.t),
    Sim.on_downloads_page (bstate w) = true ->
    (forall j, (j < k)%nat ->
       truthy (completed_script (Sim.items_at w j)) = false) ->
    clock w + Z.of_nat k <= end_time ->
    until_loop Sim.portal (k + fuel) end_time 1
      poll w
    = until_loop Sim.portal fuel end_time 1
        poll (Sim.after_polls w k).
Proof.
  induction k as [|k IH]; intros fuel end_time w Hon Hv Hc.
  - now rewrite after_polls_zero.
  - cbn [Nat.add]. rewrite until_loop_round; [|exact Hon|apply Hv; lia].
    destruct (Z.ltb_spec end_time (clock w + 1)); [lia|].
    rewrite IH, after_polls_succ; [reflexivity | exact Hon | |].
    + intros j Hj. rewrite items_at_after_polls. apply Hv. lia.
    + cbn [clock Sim.after_polls]. lia.
Qed.

(** The waiter returns at the first poll whose value is a non-empty
    list. *)
Lemma until_returns_at_poll (w : world Sim.t) (n : nat)
    (x : option string) (xs : list (option string)) :
  (1 <= n <= 501)%nat ->
  (forall j, (j < n - 1)%nat ->
     truthy (completed_script (Sim.items_at w j)) = false) ->
  completed_script (Sim.items_at w (n - 1)) = Some (x :: xs) ->
  until Sim.portal 500 1 poll w
  = (Ok (x :: xs), Sim.after_polls (Sim.opened w) (n - 1)).
Proof.
  intros Hn Hbefore Hat. unfold until.
  change (S (S (Z.to_nat 500))) with 502%nat.
  assert (Hstart : forall fuel e,
    until_loop Sim.portal (S fuel) e 1 poll w
    = until_loop Sim.portal (S fuel) e 1 poll
        (Sim.opened w)).
  { intros fuel e. cbn [until_loop].
    rewrite !sim_poll, items_at_opened.
    rewrite (opened_idem (Sim.opened w)) by apply opened_on_downloads_page.
    reflexivity. }
  destruct n as [|n]; [lia|].
  replace (S n - 1)%nat with n in * by lia.
  rewrite Hstart.
  replace 502%nat with (n + S (501 - n))%nat by lia.
  rewrite until_loop_rounds.
  - cbn [until_loop]. rewrite sim_poll.
    rewrite (opened_idem (Sim.after_polls (Sim.opened w) n))
      by exact (opened_on_downloads_page w).
    rewrite items_at_after_polls, items_at_opened, Nat.add_0_r, Hat.
    reflexivity.
  - apply opened_on_downloads_page.
  - intros j Hj. rewrite items_at_opened. now apply Hbefore.
  - rewrite clock_opened. lia.
Qed.

(** When no poll of the budget yields a non-empty list, the waiter
    raises [TimeoutException], after 501 polls. *)
Lemma until_times_out (w : world Sim.t) :
  (forall j, (j <= 500)%nat ->
     truthy (completed_script (Sim.items_at w j)) = false) ->
  until Sim.portal 500 1 poll w
  = (Raise TimeoutException, Sim.after_polls (Sim.opened w) 501).
Proof.
  intros Hnever. unfold until.
  change (S (S (Z.to_nat 500))) with (S (500 + 1))%nat.
  assert (Hstart : forall fuel e,
    until_loop Sim.portal (S fuel) e 1 poll w
    = until_loop Sim.portal (S fuel) e 1 poll
        (Sim.opened w)).
  { intros fuel e. cbn [until_loop].
    rewrite !sim_poll, items_at_opened.
    rewrite (opened_idem (Sim.opened w)) by apply opened_on_downloads_page.
    reflexivity. }
  rewrite Hstart.
  change (S (500 + 1))%nat with (500 + 2)%nat.
  rewrite until_loop_rounds.
  - rewrite until_loop_round.
    + cbn [clock Sim.after_polls]. rewrite clock_opened.
      destruct (Z.ltb_spec (clock w + 500) (clock w + Z.of_nat 500 + 1));
        [|lia].
      now rewrite after_polls_add.
    + exact (opened_on_downloads_page w).
    + rewrite items_at_after_polls, items_at_opened. apply Hnever. lia.
  - apply opened_on_downloads_page.
  - intros j Hj. rewrite items_at_opened. apply Hnever. lia.
  - rewrite clock_opened. lia.
Qed.

End Waiter.

Section WaiterClaims.
Import Py Datetime Selenium Views Spec.

Local Abbreviation poll := (list_completed_chrome_downloads Sim.portal).

(** The claim C8 as stated fails when the download manager is empty:
    every item (there is none) is COMPLETE at poll 1 and the script
    returns the empty list of paths, which [until] takes for false; the
    waiter polls on and raises [TimeoutException]. *)
Lemma waiter_empty_download_list_times_out :
  let w := init (Sim.showing [[]]) in
  forallb (fun e => String.eqb (state e) "COMPLETE") (Sim.items_at w 0) = true
  /\ completed_script (Sim.items_at w 0) = Some []
  /\ fst (until Sim.portal 500 1 poll w) = Raise TimeoutException
  /\ clock (snd (until Sim.portal 500 1 poll w)) = 501.
Proof.
  cbv zeta.
  rewrite until_times_out by (intros j _; reflexivity).
  repeat split.
Qed.

(** C8, amended.  When the download manager holds at least one item and
    all its items are COMPLETE at poll [n] of the budget, and no earlier
    poll yielded a non-empty list of paths, the waiter returns at poll
    [n], after [n - 1] sleeps of one second and without a further poll,
    the list that gives for every item its [fileUrl], or else its
    [file_url]. *)
Theorem waiter_returns_at_first_complete_poll (w : world Sim.t) (n : nat) :
  (1 <= n <= 500)%nat ->
  Sim.items_at w (n - 1) <> [] ->
  forallb (fun e => String.eqb (state e) "COMPLETE") (Sim.items_at w (n - 1))
  = true ->
  (forall j, (j < n - 1)%nat ->
     truthy (completed_script (Sim.items_at w j)) = false) ->
  until Sim.portal 500 1 poll w
  = (Ok (map (fun e => js_or (fileUrl e) (file_url e))
           (Sim.items_at w (n - 1))),
     Sim.after_polls (Sim.opened w) (n - 1))
  /\ clock (snd (until Sim.portal 500 1 poll w)) = clock w + Z.of_nat (n - 1).
Proof.
  intros Hn Hne Hall Hbefore.
  assert (Hat : completed_script (Sim.items_at w (n - 1))
                = Some (map (fun e => js_or (fileUrl e) (file_url e))
                          (Sim.items_at w (n - 1)))).
  { unfold completed_script. now rewrite Hall. }
  destruct (Sim.items_at w (n - 1)) as [|e es] eqn:Ei; [contradiction|].
  cbn [map] in Hat |- *.
  rewrite (until_returns_at_poll w n (js_or (fileUrl e) (file_url e))
             (map (fun e => js_or (fileUrl e) (file_url e)) es)
             ltac:(lia) Hbefore).
  - split; [reflexivity|]. cbn [snd clock Sim.after_polls].
    now rewrite clock_opened.
  - rewrite Ei. exact Hat.
Qed.

Lemma waiter_returns_at_first_complete_poll_witness :
  let w := init (Sim.fresh [[]] (Sim.completes_after 2)) in
  until Sim.portal 500 1 poll w
  = (Ok [Some "file:///tmp/audit.pdf"%string],
     Sim.after_polls (Sim.opened w) 2)
  /\ clock (snd (until Sim.portal 500 1 poll w)) = 2.
Proof.
  apply (waiter_returns_at_first_complete_poll
           (init (Sim.fresh [[]] (Sim.completes_after 2))) 3).
  - lia.
  - vm_compute. discriminate.
  - vm_compute. reflexivity.
  - intros j Hj.
    assert (E : j = 0%nat \/ j = 1%nat) by lia.
    destruct E as [-> | ->]; vm_compute; reflexivity.
Defined.

(** C3. When the search and the paging have gone through and the
    download manager never reports all items COMPLETE at a poll of the
    budget, [download_files_from_fac] does not return a response: the
    [TimeoutException] of the waiter, raised after the 501 polls that fit
    into 500 seconds, reaches the caller. *)
Theorem download_timeout_reaches_caller (BASE_DIR : string)
    (import_today : date) (agency_prefix : pyval)
    (subagency_extension : option string) (fuel : nat)
    (s : Sim.t) (last_page : Z) (w1 : world Sim.t) :
  search_and_download BASE_DIR import_today Sim.portal agency_prefix
    subagency_extension fuel (init s) = (Ok last_page, w1) ->
  (forall j, (j <= 500)%nat ->
     completed_script (Sim.items_at w1 j) = None) ->
  download_files_from_fac BASE_DIR import_today Sim.portal agency_prefix
    subagency_extension fuel (init s)
  = (Raise TimeoutException, Sim.after_polls (Sim.opened w1) 501).
Proof.
  intros Hreach Hnever.
  change (download_files_from_fac BASE_DIR import_today Sim.portal
            agency_prefix subagency_extension fuel)
    with (bind (search_and_download BASE_DIR import_today Sim.portal
                  agency_prefix subagency_extension fuel)
               (fun _ => wait_and_respond Sim.portal)).
  rewrite (bind_Ok _ _ _ _ _ Hreach). unfold wait_and_respond.
  apply bind_Raise, until_times_out.
  intros j Hj. now rewrite Hnever.
Qed.

Lemma download_timeout_reaches_caller_witness :
  fst (download_files_from_fac "/srv" (mkdate 2019 7 4) Sim.portal
         (PyStr "20") None 0
         (init (Sim.fresh [Sim.page_with_slots [0]] Sim.never_completes)))
  = Raise TimeoutException.
Proof.
  set (s := Sim.fresh [Sim.page_with_slots [0]] Sim.never_completes).
  rewrite (download_timeout_reaches_caller "/srv" (mkdate 2019 7 4)
             (PyStr "20") None 0 s 1
             (snd (search_and_download "/srv" (mkdate 2019 7 4) Sim.portal
                     (PyStr "20") None 0 (init s)))).
  - reflexivity.
  - vm_compute. reflexivity.
  - intros j _. reflexivity.
Defined.

End WaiterClaims.

(** ** Invariants of the trace

    The functions of [views.py] only append to the trace, and none of
    them but the end of [download_files_from_fac] quits the driver.  Both
    facts are instances of one argument, made once for a relation [R]
    between the trace before and after that is reflexive, transitive and
    holds across each allowed action. *)

Section TraceInvariant.
Import Py Datetime Selenium Views Spec.
Context {B : Type} (br : browser B).
Variable R : list action -> list action -> Prop.
Variable allowed : action -> bool.
Hypothesis R_refl : forall t, R t t.
Hypothesis R_trans : forall t1 t2 t3, R t1 t2 -> R t2 t3 -> R t1 t3.
Hypothesis R_step : forall t a, allowed a = true -> R t (t ++ [a]).
Hypothesis allowed_but_quit : forall a, is_quit a = false -> allowed a = true.

Create HintDb keeps discriminated.

Lemma keeps_ret {A : Type} (a : A) : keeps R (@ret B A a).
Proof. intros w. apply R_refl. Qed.

Lemma keeps_raise {A : Type} (e : exn) : keeps R (@raise B A e).
Proof. intros w. apply R_refl. Qed.

Lemma keeps_diverge {A : Type} : keeps R (@diverge B A).
Proof. intros w. apply R_refl. Qed.

Lemma keeps_lift {A : Type} (r : res A) : keeps R (@lift B A r).
Proof. intros w. apply R_refl. Qed.

Lemma keeps_bind {A C : Type} (m : M B A) (k : A -> M B C) :
  keeps R m -> (forall a, keeps R (k a)) -> keeps R (bind m k).
Proof.
  intros Hm Hk w. unfold bind. specialize (Hm w).
  destruct (m w) as [[a|e|] w']; cbn [snd] in *; try exact Hm.
  eapply R_trans; [exact Hm | apply Hk].
Qed.

Lemma keeps_try_except {A : Type} (m handler : M B A) :
  keeps R m -> keeps R handler -> keeps R (try_except m handler).
Proof.
  intros Hm Hh w. unfold try_except. specialize (Hm w).
  destruct (m w) as [[a|e|] w']; cbn [snd] in *; try exact Hm.
  eapply R_trans; [exact Hm | apply Hh].
Qed.

Lemma keeps_perform (a : action) : allowed a = true -> keeps R (perform br a).
Proof.
  intros Ha w. unfold perform.
  destruct (react br a (bstate w)) as [[e|] b']; cbn [snd trace];
    now apply R_step.
Qed.

Lemma keeps_mark (f : string) : keeps R (@mark B f).
Proof. intros w. unfold mark. cbn. now apply R_step, allowed_but_quit. Qed.

Lemma keeps_sleep (n : Z) : keeps R (sleep br n).
Proof. intros w. unfold sleep. cbn. now apply R_step, allowed_but_quit. Qed.

Lemma keeps_quit : allowed Quit = true -> keeps R (quit br).
Proof. intros Ha w. unfold quit. cbn. now apply R_step. Qed.

Lemma keeps_find (l : locator) : keeps R (find br l).
Proof.
  intros w. unfold find. destruct (present br (bstate w) l); apply R_refl.
Qed.

Hint Resolve keeps_ret keeps_raise keeps_diverge keeps_lift keeps_mark
  keeps_sleep keeps_find : keeps.
Hint Extern 1 (keeps _ (bind _ _)) => apply keeps_bind; [|intros] : keeps.
Hint Extern 1 (keeps _ (try_except _ _)) => apply keeps_try_except : keeps.
Hint Extern 1 (keeps _ (perform _ _)) =>
  apply keeps_perform, allowed_but_quit; reflexivity : keeps.
Hint Extern 1 (keeps _ (click _ _)) =>
  apply keeps_perform, allowed_but_quit; reflexivity : keeps.
Hint Extern 1 (keeps _ (clear _ _)) =>
  apply keeps_perform, allowed_but_quit; reflexivity : keeps.
Hint Extern 1 (keeps _ (send_keys _ _ _)) =>
  apply keeps_perform, allowed_but_quit; reflexivity : keeps.
Hint Extern 1 (keeps _ (select_by_value _ _ _)) =>
  apply keeps_perform, allowed_but_quit; reflexivity : keeps.
Hint Extern 1 (keeps _ (find_element_by_id _ _)) => apply keeps_find : keeps.
Hint Extern 1 (keeps _ (find_element_by_css_selector _ _)) =>
  apply keeps_find : keeps.
Hint Extern 1 (keeps _ (find_element_by_link_text _ _ _)) =>
  apply keeps_find : keeps.

Lemma keeps_for_each_result (name_suffix : string) (indices : list Z) :
  forall download_link,
    keeps R (for_each_result br name_suffix indices download_link).
Proof.
  induction indices as [|i indices IH]; intros download_link;
    cbn [for_each_result]; auto with keeps.
  apply keeps_bind; [auto 10 with keeps|]. intros dl.
  apply keeps_bind; [destruct dl; auto with keeps|]. intros _. apply IH.
Qed.

Lemma keeps_download_one_set_of_result_files (file_type : string) :
  keeps R (download_one_set_of_result_files br file_type).
Proof.
  unfold download_one_set_of_result_files.
  pose proof keeps_for_each_result.
  destruct (String.eqb file_type "SF-SAC"); [auto with keeps|].
  destruct (String.eqb file_type "PDF"); auto with keeps.
Qed.

Lemma keeps_download_all_linked_files :
  keeps R (download_all_linked_files br).
Proof.
  unfold download_all_linked_files.
  pose proof keeps_download_one_set_of_result_files.
  auto 10 with keeps.
Qed.

Lemma keeps_get_next_pager_link (page_index : Z) :
  keeps R (get_next_pager_link br page_index).
Proof.
  unfold get_next_pager_link.
  apply keeps_bind; [auto 10 with keeps|]. intros [p|]; auto 10 with keeps.
Qed.

Lemma keeps_pager_loop (fuel : nat) :
  forall link page_index, keeps R (pager_loop br fuel link page_index).
Proof.
  pose proof keeps_download_all_linked_files.
  pose proof keeps_get_next_pager_link.
  induction fuel as [|fuel IH]; intros [link|] page_index;
    cbn [pager_loop]; auto 10 with keeps.
Qed.

Lemma keeps_download_all_pages (fuel : nat) :
  keeps R (download_all_pages br fuel).
Proof.
  unfold download_all_pages.
  pose proof keeps_download_all_linked_files.
  pose proof keeps_get_next_pager_link.
  pose proof keeps_pager_loop.
  auto 10 with keeps.
Qed.

Lemma keeps_yesterday :
  keeps R (fun w : world B => lift (date_sub (today br (bstate w)) 1) w).
Proof. intros w. apply R_refl. Qed.

(** Steps 1 to 9 begin with the request of the search page; what follows
    is one more computation that keeps [R]. *)
Lemma fill_in_search_form_begins (import_today : date)
    (agency_prefix subagency_extension : string) :
  exists rest : M B unit,
    keeps R rest
    /\ fill_in_search_form import_today br agency_prefix subagency_extension
       = bind (perform br (Get FAC_URL)) (fun _ => rest).
Proof.
  eexists. split; [|unfold fill_in_search_form; reflexivity].
  pose proof keeps_yesterday.
  repeat (apply keeps_bind; [solve [auto with keeps]|intros]).
  auto with keeps.
Qed.

Lemma keeps_fill_in_search_form (import_today : date)
    (agency_prefix subagency_extension : string) :
  keeps R (fill_in_search_form import_today br agency_prefix
             subagency_extension).
Proof.
  destruct (fill_in_search_form_begins import_today agency_prefix
              subagency_extension) as (rest & Hrest & ->).
  auto with keeps.
Qed.

Lemma keeps_search_and_download (BASE_DIR : string) (import_today : date)
    (agency_prefix : pyval) (subagency_extension : option string)
    (fuel : nat) :
  keeps R (search_and_download BASE_DIR import_today br agency_prefix
             subagency_extension fuel).
Proof.
  unfold search_and_download, check_for_chromedriver.
  pose proof (keeps_fill_in_search_form import_today).
  pose proof keeps_download_all_pages.
  auto 10 with keeps.
Qed.

Lemma keeps_list_completed_chrome_downloads :
  keeps R (list_completed_chrome_downloads br).
Proof.
  unfold list_completed_chrome_downloads.
  apply keeps_bind.
  - intros w. destruct (negb _); [|apply R_refl].
    now apply keeps_perform, allowed_but_quit.
  - intros _ w. apply R_refl.
Qed.

Lemma keeps_until_loop {A : Type} (method : M B (option (list A)))
    (end_time poll : Z) (fuel : nat) :
  keeps R method -> keeps R (until_loop br fuel end_time poll method).
Proof.
  intros Hm. induction fuel as [|fuel IH]; intros w; [apply R_refl|].
  cbn [until_loop]. specialize (Hm w).
  assert (Hcont : forall w1,
    R (trace w1) (trace (snd
      (let (_, w2) := sleep br poll w1 in
       if end_time <? clock w2 then (Raise TimeoutException, w2)
       else until_loop br fuel end_time poll method w2)))).
  { intros w1. pose proof (keeps_sleep poll w1) as Hs.
    destruct (sleep br poll w1) as [r w2]. cbn [snd] in Hs.
    destruct (end_time <? clock w2); [exact Hs|].
    eapply R_trans; [exact Hs | apply IH]. }
  destruct (method w) as [[[[|x xs]|]|e|] w1]; cbn [snd] in Hm;
    try exact Hm; try (eapply R_trans; [exact Hm | apply Hcont]).
  destruct e; try exact Hm; eapply R_trans; try exact Hm; apply Hcont.
Qed.

Lemma keeps_until {A : Type} (method : M B (option (list A)))
    (timeout poll : Z) :
  keeps R method -> keeps R (until br timeout poll method).
Proof. intros Hm w. unfold until. now apply keeps_until_loop. Qed.

Lemma keeps_wait_and_respond :
  allowed Quit = true -> keeps R (wait_and_respond br).
Proof.
  intros Hq. unfold wait_and_respond.
  pose proof (keeps_until (list_completed_chrome_downloads br) 500 1
                keeps_list_completed_chrome_downloads).
  pose proof (keeps_quit Hq).
  apply keeps_bind; [assumption|]. intros [|x xs]; auto with keeps.
Qed.

End TraceInvariant.

Section TraceRelations.
Import Selenium Spec.

Lemma stays_open_refl (t : list action) : stays_open t t.
Proof. intros H. exact H. Qed.

Lemma stays_open_trans (t1 t2 t3 : list action) :
  stays_open t1 t2 -> stays_open t2 t3 -> stays_open t1 t3.
Proof. unfold stays_open. auto. Qed.

Lemma stays_open_step (t : list action) (a : action) :
  negb (is_quit a) = true -> stays_open t (t ++ [a]).
Proof.
  intros Ha H. rewrite released_app, H. cbn.
  apply negb_true_iff in Ha. now rewrite Ha.
Qed.

Lemma grows_refl (t : list action) : grows t t.
Proof. exists []. now rewrite app_nil_r. Qed.

Lemma grows_trans (t1 t2 t3 : list action) :
  grows t1 t2 -> grows t2 t3 -> grows t1 t3.
Proof.
  intros [a ->] [b ->]. exists (a ++ b). now rewrite app_assoc.
Qed.

Lemma grows_step (t : list action) (a : action) :
  true = true -> grows t (t ++ [a]).
Proof. intros _. now exists [a]. Qed.

End TraceRelations.

Ltac instance_stays_open :=
  first [ exact stays_open_refl | exact stays_open_trans
        | exact stays_open_step
        | let a := fresh "a" in let Ha := fresh "Ha" in
          intros a Ha; cbn; rewrite Ha; reflexivity ].

Ltac instance_grows :=
  first [ exact grows_refl | exact grows_trans | exact grows_step
        | reflexivity | intros; reflexivity ].

Section Session.
Import Py Datetime Selenium Views Spec.
Context {B : Type} (br : browser B).

(** Nothing before the wait quits the driver. *)
Lemma search_and_download_stays_open (BASE_DIR : string)
    (import_today : date) (agency_prefix : pyval)
    (subagency_extension : option string) (fuel : nat) :
  keeps stays_open
    (search_and_download BASE_DIR import_today br agency_prefix
       subagency_extension fuel).
Proof.
  apply keeps_search_and_download with (allowed := fun a => negb (is_quit a));
    instance_stays_open.
Qed.

(** [until] only ever returns a non-empty list. *)
Lemma until_loop_returns_nonempty {A : Type}
    (method : M B (option (list A))) (end_time poll : Z) (fuel : nat) :
  forall w l w',
    until_loop br fuel end_time poll method w = (Ok l, w') -> l <> [].
Proof.
  induction fuel as [|fuel IH]; intros w l w' Hrun; [discriminate Hrun|].
  cbn [until_loop] in Hrun.
  assert (Hcont : forall w1,
    (let (_, w2) := sleep br poll w1 in
     if end_time <? clock w2 then (Raise TimeoutException, w2)
     else until_loop br fuel end_time poll method w2) = (Ok l, w') ->
    l <> []).
  { intros w1 H1. destruct (sleep br poll w1) as [r w2].
    destruct (end_time <? clock w2); [discriminate H1 | now apply IH in H1]. }
  destruct (method w) as [[[[|x xs]|]|e|] w1];
    try (now apply Hcont in Hrun); try discriminate Hrun.
  - injection Hrun as <- _. discriminate.
  - destruct e; try discriminate Hrun; now apply Hcont in Hrun.
Qed.

(** The end of the workflow quits the driver exactly when it returns. *)
Lemma wait_and_respond_releases (w : world B) :
  released (trace w) = false ->
  released (trace (snd (wait_and_respond br w)))
  = match fst (wait_and_respond br w) with Ok _ => true | _ => false end.
Proof.
  intros H. unfold wait_and_respond, until, bind.
  assert (Hq : keeps stays_open
                 (until_loop br (S (S (Z.to_nat 500))) (clock w + 500) 1
                    (list_completed_chrome_downloads br))).
  { apply keeps_until_loop with (allowed := fun a => negb (is_quit a));
      try instance_stays_open.
    apply keeps_list_completed_chrome_downloads
      with (allowed := fun a => negb (is_quit a)); instance_stays_open. }
  specialize (Hq w H).
  destruct (until_loop br _ _ _ _ w) as [[l|e|] w1] eqn:E;
    cbn [snd fst] in *; try exact Hq.
  apply until_loop_returns_nonempty in E.
  destruct l as [|x xs]; [contradiction|].
  unfold quit, ret. cbn [fst snd trace].
  rewrite released_app. cbn. apply orb_true_r.
Qed.

End Session.

Section SessionClaims.
Import Py Datetime Selenium Views Spec.

(** The claim C4 as stated fails on a failure path: when the downloads
    never complete the function exits with [TimeoutException] and the
    driver has not been quit; likewise when the agency selector has no
    option of the given value. *)
Lemma driver_not_quit_on_failure :
  let run prefix s :=
    download_files_from_fac "/srv" (mkdate 2019 7 4) Sim.portal prefix None 0
      (init s) in
  let timed_out :=
    run (PyStr "20") (Sim.fresh [Sim.page_with_slots [0]] Sim.never_completes) in
  let no_option :=
    run (PyStr "abc") (Sim.fresh [Sim.page_with_slots [0]] (Sim.completes_after 0)) in
  fst timed_out = Raise TimeoutException
  /\ released (trace (snd timed_out)) = false
  /\ fst no_option = Raise NoSuchElementException
  /\ released (trace (snd no_option)) = false.
Proof. vm_compute. repeat split. Qed.

(** C4, amended.  Whatever the browser does, [download_files_from_fac]
    quits the driver on the exit path on which it returns its response,
    and on no other: when it exits with an exception (a failed look-up or
    action, the waiter's timeout) the driver has not been quit. *)
Theorem driver_quit_exactly_on_return {B : Type} (br : browser B)
    (BASE_DIR : string) (import_today : date) (agency_prefix : pyval)
    (subagency_extension : option string) (fuel : nat) (b : B) :
  let r := download_files_from_fac BASE_DIR import_today br agency_prefix
             subagency_extension fuel (init b) in
  released (trace (snd r))
  = match fst r with Ok _ => true | _ => false end.
Proof.
  cbv zeta.
  change (download_files_from_fac BASE_DIR import_today br agency_prefix
            subagency_extension fuel)
    with (bind (search_and_download BASE_DIR import_today br agency_prefix
                  subagency_extension fuel)
               (fun _ => wait_and_respond br)).
  pose proof (search_and_download_stays_open br BASE_DIR import_today
                agency_prefix subagency_extension fuel (init b) eq_refl) as Hq.
  unfold bind.
  destruct (search_and_download BASE_DIR import_today br agency_prefix
              subagency_extension fuel (init b)) as [[k|e|] w1];
    cbn [fst snd] in *; try exact Hq.
  now apply wait_and_respond_releases.
Qed.

Example driver_quit_on_success :
  let r := download_files_from_fac "/srv" (mkdate 2019 7 4) Sim.portal
             PyNone None 1
             (init (Sim.fresh [Sim.page_with_slots [0]; []]
                      (Sim.completes_after 9))) in
  fst r = Ok (mkresponse "Your download has completed." "text/plain")
  /\ released (trace (snd r)) = true.
Proof. vm_compute. split; reflexivity. Qed.

End SessionClaims.

(** ** Agency codes *)

Section AgencyCodes.
Import Py Datetime Selenium Views Spec.

(** The claim C5 as stated fails in [download_files_from_fac]: the
    prefix ["abc"] does not match the pattern, yet the browser is started
    and the search page of the clearinghouse is requested; the run fails
    only at [select_by_value], with Selenium's [NoSuchElementException]. *)
Lemma prefix_not_validated_before_network :
  let r := download_files_from_fac "/srv" (mkdate 2019 7 4) Sim.portal
             (PyStr "abc") None 0
             (init (Sim.fresh [Sim.page_with_slots [0]]
                      (Sim.completes_after 0))) in
  two_digit_numeric "abc" = false
  /\ firstn 2 (trace (snd r))
     = [Start "/srv/distiller/chromedriver";
        Get "https://harvester.census.gov/facdissem/SearchA133.aspx"]
  /\ last (trace (snd r)) Quit = SelectByValue (ById "cfdaPrefix") "abc"
  /\ fst r = Raise NoSuchElementException.
Proof. vm_compute. repeat split. Qed.

Lemma bind_assoc {B A C D : Type} (m : M B A) (f : A -> M B C)
    (g : C -> M B D) (w : world B) :
  bind (bind m f) g w = bind m (fun a => bind (f a) g) w.
Proof. unfold bind. destruct (m w) as [[a|e|] w']; reflexivity. Qed.

Lemma trace_begins_with_action {B A : Type} (br : browser B) (a : action)
    (k : M B A) (w : world B) :
  keeps grows k ->
  exists tr,
    trace (snd (bind (perform br a) (fun _ => k) w)) = trace w ++ a :: tr.
Proof.
  intros Hk. unfold bind, perform.
  destruct (react br a (bstate w)) as [[e|] b'].
  - exists []. reflexivity.
  - destruct (Hk (mkworld b' (clock w) (trace w ++ [a]))) as [tr Htr].
    exists tr. rewrite Htr. cbn [trace]. now rewrite <- app_assoc.
Qed.

(** C5, amended.  [download_files_from_fac] does not validate the agency
    prefix: for every prefix string, matching the two-digit pattern or
    not, the first thing it does is start the browser, and unless that
    fails the next is the request of the clearinghouse's search page.
    In [show_agency_level_summary] the call of
    [__is_valid_agency_prefix] is the first statement of the [try] and
    its outcome is awaited before the highlights are derived: when it
    raises, the view returns [None]; when it does not return, the view
    does not return either, although the derivation of the highlights
    would raise at once; when it returns, the highlights are derived,
    and their [NameError] makes the view return [None]. *)
Theorem prefix_reaches_browser_unvalidated {B : Type} (br : browser B)
    (BASE_DIR : string) (import_today : date)
    (name_of : string -> res string) (is_valid : string -> res bool)
    (read_csv : string -> res DataFrame)
    (agency_prefix : string) (subagency_extension : option string)
    (fuel : nat) (b : B) :
  let r := download_files_from_fac BASE_DIR import_today br
             (PyStr agency_prefix) subagency_extension fuel (init b) in
  firstn 1 (trace (snd r)) = [Start (CHROME_DRIVER_LOCATION BASE_DIR)]
  /\ match fst (react br (Start (CHROME_DRIVER_LOCATION BASE_DIR)) b) with
     | None =>
         firstn 2 (trace (snd r))
         = [Start (CHROME_DRIVER_LOCATION BASE_DIR); Get FAC_URL]
     | Some e => fst r = Raise e
     end
  /\ show_agency_level_summary BASE_DIR name_of is_valid read_csv
       agency_prefix
     = match is_valid agency_prefix with
       | Raise _ => Ok None
       | Diverge => Diverge
       | Ok _ => Ok None
       end.
Proof.
  cbv zeta.
  set (ext := match subagency_extension with
              | Some s => s | None => FTA_SUBAGENCY_CODE end).
  destruct (fill_in_search_form_begins br grows (fun _ => true)
              grows_refl grows_trans grows_step (fun _ _ => eq_refl)
              import_today agency_prefix ext)
    as (rest & Hrest & Hfill).
  assert (Hpages : keeps grows (download_all_pages br fuel)).
  { apply keeps_download_all_pages with (allowed := fun _ => true);
      instance_grows. }
  assert (Hwait : keeps grows (wait_and_respond br)).
  { apply keeps_wait_and_respond with (allowed := fun _ => true);
      instance_grows. }
  assert (Hrun :
    download_files_from_fac BASE_DIR import_today br (PyStr agency_prefix)
      subagency_extension fuel (init b)
    = match react br (Start (CHROME_DRIVER_LOCATION BASE_DIR)) b with
      | (Some e, b1) =>
          (Raise e, mkworld b1 0 [Start (CHROME_DRIVER_LOCATION BASE_DIR)])
      | (None, b1) =>
          bind (bind (bind (perform br (Get FAC_URL)) (fun _ => rest))
                  (fun _ => download_all_pages br fuel))
               (fun _ => wait_and_respond br)
               (mkworld b1 0 [Start (CHROME_DRIVER_LOCATION BASE_DIR)])
      end).
  { unfold download_files_from_fac, check_for_chromedriver.
    fold ext. rewrite Hfill. unfold bind at 1 2 3, ret, perform at 1.
    cbn [bstate init trace clock app].
    destruct (react br (Start (CHROME_DRIVER_LOCATION BASE_DIR)) b)
      as [[e|] b1]; reflexivity. }
  rewrite Hrun. clear Hrun.
  assert (Htail : forall w,
    exists tr,
      trace (snd (bind (bind (bind (perform br (Get FAC_URL)) (fun _ => rest))
                         (fun _ => download_all_pages br fuel))
                    (fun _ => wait_and_respond br) w))
      = trace w ++ Get FAC_URL :: tr).
  { intros w. rewrite !bind_assoc.
    apply trace_begins_with_action.
    apply keeps_bind; [instance_grows | exact Hrest | intros].
    apply keeps_bind; [instance_grows | exact Hpages | intros; exact Hwait]. }
  split; [|split].
  - destruct (react br (Start (CHROME_DRIVER_LOCATION BASE_DIR)) b)
      as [[e|] b1]; [reflexivity|].
    destruct (Htail (mkworld b1 0 [Start (CHROME_DRIVER_LOCATION BASE_DIR)]))
      as [tr ->]. reflexivity.
  - destruct (react br (Start (CHROME_DRIVER_LOCATION BASE_DIR)) b)
      as [[e|] b1]; [reflexivity|]. cbn [fst].
    destruct (Htail (mkworld b1 0 [Start (CHROME_DRIVER_LOCATION BASE_DIR)]))
      as [tr ->]. reflexivity.
  - unfold show_agency_level_summary.
    destruct (is_valid agency_prefix); reflexivity.
Qed.

End AgencyCodes.

(** ** The dates of the search form *)

Section SearchDates.
Import Py Datetime Selenium Views Spec.

(** C9, on the code as it is.  The module is imported on 2019-07-01 and
    the view is called on 2019-07-04.  The "from" field receives
    04/02/2019, which is 90 days before the day of the import, and not
    04/05/2019, which is 90 days before today: the default [end_date] of
    [_calculate_start_date] was evaluated when the function was defined.
    The "to" field receives yesterday, 07/03/2019.  Whatever the day of
    the import, [_calculate_start_date(90)] is
    [_calculate_start_date(90, end_date)] for that day. *)
Theorem from_date_counts_from_import_day :
  let imported := mkdate 2019 7 1 in
  let s := Sim.fresh [Sim.page_with_slots [0]] (Sim.completes_after 0) in
  let r := download_files_from_fac "/srv" imported Sim.portal PyNone None 0
             (init s) in
  today Sim.portal s = mkdate 2019 7 4
  /\ fst r = Ok (mkresponse "Your download has completed." "text/plain")
  /\ keys_sent "MainContent_UcSearchFilters_DateProcessedControl_FromDate"
       (trace (snd r)) = ["04/02/2019"%string; Keys_RETURN]
  /\ _calculate_start_date imported (Some 90) (Some (today Sim.portal s))
     = Ok "04/05/2019"%string
  /\ keys_sent "MainContent_UcSearchFilters_DateProcessedControl_ToDate"
       (trace (snd r)) = ["07/03/2019"%string; Keys_RETURN]
  /\ (forall import_today,
        _calculate_start_date import_today (Some 90) None
        = _calculate_start_date import_today (Some 90) (Some import_today)).
Proof.
  cbv zeta. repeat split; try (vm_compute; reflexivity).
Qed.

(** When the module was imported on the day of the call, the "from"
    field does receive today minus 90 days. *)
Example from_date_on_import_day :
  let s := Sim.fresh [Sim.page_with_slots [0]] (Sim.completes_after 0) in
  let r := download_files_from_fac "/srv" (today Sim.portal s) Sim.portal
             PyNone None 0 (init s) in
  keys_sent "MainContent_UcSearchFilters_DateProcessedControl_FromDate"
    (trace (snd r)) = ["04/05/2019"%string; Keys_RETURN].
Proof. vm_compute. reflexivity. Qed.

End SearchDates.

(** ** Agency highlights *)

Section AgencyHighlights.
Import Py Datetime Views Spec.

Lemma select_rows_filter (p : list cell -> bool) (rs : list (list cell)) :
  select_rows rs (map p rs) = filter p rs.
Proof.
  induction rs as [|r rs IH]; [reflexivity|].
  cbn [map select_rows filter]. rewrite IH. reflexivity.
Qed.

Lemma filter_filter {A : Type} (p q : A -> bool) (l : list A) :
  filter q (filter p l) = filter (fun x => p x && q x) l.
Proof.
  induction l as [|x l IH]; [reflexivity|].
  cbn [filter]. destruct (p x); cbn [filter andb]; rewrite IH; reflexivity.
Qed.

(** The rows [df.loc[df[label] == s]] keeps. *)
Lemma loc_eq_str (df : DataFrame) (label s : string) (k : nat) :
  column_index (columns df) label = Some k ->
  bindr (getitem df label) (fun col => Ok (loc df (map (eq_str s) col)))
  = Ok (mkdf (columns df)
          (filter (fun r => eq_str s (nth k r CNaN)) (rows df))).
Proof.
  intros Hk. unfold getitem. rewrite Hk. cbn [bindr]. unfold loc.
  rewrite map_map.
  rewrite (select_rows_filter (fun r => eq_str s (nth k r CNaN))).
  reflexivity.
Qed.

Lemma number_of_findings (df : DataFrame) (fnd : nat) :
  column_index (columns df) "CYFINDINGS" = Some fnd ->
  __get_number_of_findings df
  = Ok (Some (Z.of_nat (List.length
          (filter (fun r => eq_str "Y" (nth fnd r CNaN)) (rows df))))).
Proof.
  intros Hfnd. unfold __get_number_of_findings, __get_findings, getitem.
  rewrite Hfnd. cbn [bindr try_exceptr]. unfold len_index, loc. cbn [rows].
  rewrite map_map.
  rewrite (select_rows_filter (fun r => eq_str "Y" (nth fnd r CNaN))).
  reflexivity.
Qed.

(** With [files_directory] bound and the table read, the aggregation
    counts as described: the rows of the agency, and among them those
    flagged ['Y']. *)
Lemma derive_agency_highlights_counts (globals : list (string * string))
    (name_of : string -> res string) (read_csv : string -> res DataFrame)
    (agency_prefix filename dir name : string) (df : DataFrame)
    (cog fnd : nat) :
  lookup_name globals "files_directory" = Ok dir ->
  read_csv (dir ++ "/" ++ "gen18.txt")%string = Ok df ->
  column_index (columns df) "COGAGENCY" = Some cog ->
  column_index (columns df) "CYFINDINGS" = Some fnd ->
  name_of agency_prefix = Ok name ->
  derive_agency_highlights_in name_of read_csv globals agency_prefix filename
  = Ok (mkhighlights agency_prefix name filename
          (count_cognizant cog agency_prefix (rows df))
          (Some (count_findings cog fnd agency_prefix (rows df)))).
Proof.
  intros Hdir Hread Hcog Hfnd Hname.
  unfold derive_agency_highlights_in, filter_general_table_by_agency_in.
  rewrite Hdir. cbn [bindr]. rewrite Hread. cbn [bindr].
  rewrite (loc_eq_str df "COGAGENCY" agency_prefix cog Hcog). cbn [bindr].
  rewrite Hname. cbn [bindr].
  rewrite (number_of_findings _ fnd) by exact Hfnd. cbn [bindr rows].
  rewrite filter_filter. reflexivity.
Qed.

(** C7, on the code as it is.  [filter_general_table_by_agency] reads the
    global [files_directory], which [views.py] never binds (its constant
    is [FILES_DIRECTORY]); so for every agency prefix and every table on
    disk it raises [NameError] before the table is read, and so does
    [derive_agency_highlights]; [show_agency_level_summary] swallows the
    exception and returns [None].  For the table of ten rows with three
    rows of agency 20, two of them flagged: the call raises [NameError];
    were [files_directory] bound, the same code would return
    [cognizant_sum = 3] and [findings = 2]. *)
Theorem derive_agency_highlights_raises_NameError (BASE_DIR : string)
    (name_of : string -> res string) (is_valid : string -> res bool)
    (read_csv : string -> res DataFrame) (agency_prefix filename : string) :
  filter_general_table_by_agency BASE_DIR read_csv agency_prefix filename
  = Raise NameError
  /\ derive_agency_highlights BASE_DIR name_of read_csv agency_prefix filename
     = Raise NameError
  /\ match is_valid agency_prefix with
     | Diverge => True
     | _ =>
         show_agency_level_summary BASE_DIR name_of is_valid read_csv
           agency_prefix = Ok None
     end
  /\ derive_agency_highlights BASE_DIR (fun _ => Ok "Transportation"%string)
       (fun _ => Ok ten_rows) "20" "gen18.txt" = Raise NameError
  /\ count_cognizant 1 "20" (rows ten_rows) = 3
  /\ count_findings 1 2 "20" (rows ten_rows) = 2
  /\ derive_agency_highlights_in (fun _ => Ok "Transportation"%string)
       (fun _ => Ok ten_rows) (globals_with_files_directory BASE_DIR)
       "20" "gen18.txt"
     = Ok (mkhighlights "20" "Transportation" "gen18.txt" 3 (Some 2)).
Proof.
  assert (Hf : forall rc p f,
            filter_general_table_by_agency BASE_DIR rc p f = Raise NameError)
    by reflexivity.
  assert (Hd : forall nm rc p f,
            derive_agency_highlights BASE_DIR nm rc p f = Raise NameError)
    by reflexivity.
  repeat split; try reflexivity.
  unfold show_agency_level_summary.
  destruct (is_valid agency_prefix) as [v|e|]; reflexivity || exact I.
Qed.

End AgencyHighlights.

(** * Further properties *)

(** ** The date helpers over the whole calendar *)

Section DateRange.
Import Py Datetime Views Spec.

(** Subtracting any number of days, negative ones included, as long as
    the result is a day of the calendar. *)
Lemma date_sub_in_range (D : date) (t : Z) :
  valid_date D = true -> 1 <= toordinal D - t <= _MAXORDINAL ->
  exists S, date_sub D t = Ok S /\ valid_date S = true
            /\ toordinal S = toordinal D - t.
Proof.
  intros Hv Hr. pose proof (toordinal_bounds D Hv) as Hb.
  unfold date_sub, timedelta. unfold _MAXORDINAL in Hr, Hb.
  destruct (Z.leb_spec (Z.abs (- t)) 999999999); [|lia]. cbn [bindr].
  unfold date_add.
  replace (toordinal D + - t) with (toordinal D - t) by lia.
  destruct (Z.ltb_spec 0 (toordinal D - t)); [|lia].
  destruct (Z.leb_spec (toordinal D - t) _MAXORDINAL);
    [|unfold _MAXORDINAL in *; lia]. cbn [andb].
  unfold fromordinal.
  pose proof (_ymd2ord_ord2ymd (toordinal D - t)
                ltac:(unfold _MAXORDINAL; lia)) as Hrt.
  destruct (_ord2ymd (toordinal D - t)) as [[y m] d]. destruct Hrt as [Hv' Ho].
  exists (mkdate y m d). unfold date_new. rewrite Hv'. auto.
Qed.

Lemma date_sub_out_of_range (D : date) (t : Z) :
  ~ 1 <= toordinal D - t <= _MAXORDINAL ->
  date_sub D t = Raise OverflowError.
Proof.
  intros Hr. unfold date_sub, timedelta.
  destruct (Z.leb_spec (Z.abs (- t)) 999999999); [|reflexivity]. cbn [bindr].
  unfold date_add.
  replace (toordinal D + - t) with (toordinal D - t) by lia.
  destruct (Z.ltb_spec 0 (toordinal D - t));
    destruct (Z.leb_spec (toordinal D - t) _MAXORDINAL);
    try reflexivity. lia.
Qed.

(** X1. [_calculate_start_date] over the whole calendar.  For a reference
    date [D] and any [time_difference], negative ones included: when the
    day [time_difference] days before [D] lies between 0001-01-01 and
    9999-12-31 the function returns that day's string; in every other
    case it raises [OverflowError], be it from the [timedelta]
    constructor or from the subtraction. *)
Theorem calculate_start_date_within_calendar (import_today D : date)
    (time_difference : Z) :
  valid_date D = true ->
  (1 <= toordinal D - time_difference <= _MAXORDINAL ->
   exists S,
     valid_date S = true /\ toordinal S = toordinal D - time_difference
     /\ _calculate_start_date import_today (Some time_difference) (Some D)
        = Ok (_format_date_for_fac_fields S))
  /\ (~ 1 <= toordinal D - time_difference <= _MAXORDINAL ->
      _calculate_start_date import_today (Some time_difference) (Some D)
      = Raise OverflowError).
Proof.
  intros Hv. pose proof (toordinal_bounds D Hv) as Hb. split; intros Hr.
  - destruct (date_sub_in_range D time_difference Hv Hr) as (S & Hs & HvS & Ho).
    exists S. repeat split; try assumption.
    unfold _calculate_start_date, timedelta. unfold _MAXORDINAL in Hr, Hb.
    destruct (Z.leb_spec (Z.abs time_difference) 999999999); [|lia].
    cbn [bindr]. rewrite Hs. reflexivity.
  - unfold _calculate_start_date, timedelta.
    destruct (Z.leb_spec (Z.abs time_difference) 999999999); [|reflexivity].
    cbn [bindr]. rewrite date_sub_out_of_range by exact Hr. reflexivity.
Qed.

Lemma calculate_start_date_within_calendar_witness :
  (1 <= toordinal (mkdate 2019 7 4) - (-30) <= _MAXORDINAL ->
   exists S,
     valid_date S = true /\ toordinal S = toordinal (mkdate 2019 7 4) - (-30)
     /\ _calculate_start_date (mkdate 2019 7 1) (Some (-30))
          (Some (mkdate 2019 7 4))
        = Ok (_format_date_for_fac_fields S))
  /\ (~ 1 <= toordinal (mkdate 2019 7 4) - (-30) <= _MAXORDINAL ->
      _calculate_start_date (mkdate 2019 7 1) (Some (-30))
        (Some (mkdate 2019 7 4))
      = Raise OverflowError).
Proof.
  apply (calculate_start_date_within_calendar (mkdate 2019 7 1)
           (mkdate 2019 7 4) (-30)); reflexivity.
Defined.

Lemma two_digits_inj (a b : Z) :
  0 <= a < 100 -> 0 <= b < 100 -> two_digits a = two_digits b -> a = b.
Proof.
  intros Ha Hb H. unfold two_digits in H. injection H as H1 H0.
  assert (Ha1 : 0 <= a / 10 < 10)
    by (split; [apply Z.div_pos | apply Z.div_lt_upper_bound]; lia).
  assert (Hb1 : 0 <= b / 10 < 10)
    by (split; [apply Z.div_pos | apply Z.div_lt_upper_bound]; lia).
  apply digit_char_inj in H1; [|assumption|assumption].
  apply digit_char_inj in H0;
    [|apply Z.mod_pos_bound; lia|apply Z.mod_pos_bound; lia].
  rewrite (Z.div_mod a 10), (Z.div_mod b 10) by lia. lia.
Qed.

(** X2. [_format_date_for_fac_fields] loses nothing: two different dates are
    never written as the same string, also in the years below 1000,
    which [%Y] prints with fewer than four digits. *)
Theorem format_date_for_fac_fields_distinct (d1 d2 : date) :
  valid_date d1 = true -> valid_date d2 = true -> d1 <> d2 ->
  _format_date_for_fac_fields d1 <> _format_date_for_fac_fields d2.
Proof.
  intros H1 H2 Hne Heq. apply Hne.
  destruct (valid_date_fields d1 H1) as (Hy1 & Hm1 & Hd1).
  destruct (valid_date_fields d2 H2) as (Hy2 & Hm2 & Hd2).
  unfold _format_date_for_fac_fields in Heq. cbn [strftime] in Heq.
  rewrite !pad0_two_digits, !append_nil_r in Heq by lia.
  unfold two_digits in Heq. cbn [append] in Heq.
  injection Heq as Ea Eb Ec Ed Ee.
  assert (Hm : month d1 = month d2).
  { apply two_digits_inj; [lia | lia |]. unfold two_digits. congruence. }
  assert (Hd : day d1 = day d2).
  { apply two_digits_inj; [lia | lia |]. unfold two_digits. congruence. }
  assert (Hy : year d1 = year d2) by (apply str_inj; [lia | lia | exact Ee]).
  destruct d1, d2. cbn [year month day] in *. congruence.
Qed.

Lemma format_date_for_fac_fields_distinct_witness :
  _format_date_for_fac_fields (mkdate 2019 7 4)
  <> _format_date_for_fac_fields (mkdate 2019 4 7).
Proof.
  apply (format_date_for_fac_fields_distinct (mkdate 2019 7 4)
           (mkdate 2019 4 7)); [reflexivity | reflexivity | discriminate].
Defined.

End DateRange.

(** ** The downloader, the pager and the waiter on any site

    Nothing is assumed of the browser in this section: every look-up may
    fail and every action may raise. *)

Section AnySite.
Import Py Datetime Selenium Views Spec.
Context {B : Type} (br : browser B).

Ltac no_click :=
  exists []; rewrite app_nil_r;
  split; [reflexivity | split; [simpl; lia | intros ? []]].

Lemma bind_Ok_inv {A C : Type} (m : M B A) (k : A -> M B C)
    (w w' : world B) (c : C) :
  bind m k w = (Ok c, w') ->
  exists a w1, m w = (Ok a, w1) /\ k a w1 = (Ok c, w').
Proof.
  unfold bind. destruct (m w) as [[a|e|] w1]; intros H; try discriminate H.
  exists a, w1. auto.
Qed.

(** The loop over the candidate slots: it ends, it does nothing but
    click, at most once per index, and only links of its own category
    whose slot is among the candidates. *)
Lemma for_each_result_any (name_suffix : string) (all indices : list Z) :
  forall (download_link : option element) (w : world B),
    incl indices all ->
    (download_link = None
     \/ exists j, In j all
                  /\ download_link = Some (ById (link_name name_suffix j))) ->
    let r := for_each_result br name_suffix indices download_link w in
    fst r <> Diverge
    /\ clock (snd r) = clock w
    /\ exists ids,
         trace (snd r) = trace w ++ id_clicks ids
         /\ (List.length ids <= List.length indices)%nat
         /\ incl ids (map (link_name name_suffix) all).
Proof.
  induction indices as [|i indices IH]; intros download_link w Hincl Hdl r;
    subst r.
  - cbn [for_each_result]. unfold ret. cbn [fst snd].
    split; [discriminate|]. split; [reflexivity|].
    no_click.
  - rewrite for_each_result_cons. cbv zeta.
    assert (Hrest : incl indices all)
      by (intros x Hx; apply Hincl; now right).
    assert (Hstep : forall j, In j all ->
      let r := bind (click br (ById (link_name name_suffix j)))
                 (fun _ => for_each_result br name_suffix indices
                             (Some (ById (link_name name_suffix j)))) w in
      fst r <> Diverge
      /\ clock (snd r) = clock w
      /\ exists ids,
           trace (snd r) = trace w ++ id_clicks ids
           /\ (List.length ids <= S (List.length indices))%nat
           /\ incl ids (map (link_name name_suffix) all)).
    { intros j Hj. cbv zeta. unfold bind, click, perform.
      destruct (react br (Click (ById (link_name name_suffix j))) (bstate w))
        as [[e|] b'].
      - cbn [fst snd clock trace]. split; [discriminate|].
        split; [reflexivity|].
        exists [link_name name_suffix j].
        split; [reflexivity | split; [simpl; lia|]].
        intros x [<-|[]]. now apply in_map.
      - destruct (IH (Some (ById (link_name name_suffix j)))
                    (mkworld b' (clock w)
                       (trace w ++ [Click (ById (link_name name_suffix j))]))
                    Hrest (or_intror (ex_intro _ j (conj Hj eq_refl))))
          as (Hd & Hc & ids & Htr & Hlen & Hin).
        split; [exact Hd|]. split; [exact Hc|].
        exists (link_name name_suffix j :: ids). rewrite Htr.
        cbn [trace]. rewrite <- app_assoc.
        split; [reflexivity | split; [simpl; lia|]].
        intros x [<-|Hx]; [now apply in_map | now apply Hin]. }
    destruct (present br (bstate w) (ById (link_name name_suffix i))).
    + apply (Hstep i). apply Hincl. now left.
    + destruct Hdl as [->|(j & Hj & ->)].
      * cbn [fst snd]. split; [discriminate|]. split; [reflexivity|].
        no_click.
      * apply (Hstep j Hj).
Qed.

Lemma download_one_set_of_result_files_any (file_type : string)
    (w : world B) :
  let r := download_one_set_of_result_files br file_type w in
  let name_suffix := if String.eqb file_type "SF-SAC" then "Form"%string
                     else "Audit"%string in
  fst r <> Diverge
  /\ clock (snd r) = clock w
  /\ exists ids,
       trace (snd r) = trace w ++ id_clicks ids
       /\ (List.length ids <= max_number_of_search_results)%nat
       /\ incl ids (map (link_name name_suffix)
                      (range max_number_of_search_results)).
Proof.
  cbv zeta. unfold download_one_set_of_result_files.
  assert (Hloop : forall name_suffix,
    let r := bind (for_each_result br name_suffix
                     (range max_number_of_search_results) None)
               (fun _ => ret true) w in
    fst r <> Diverge
    /\ clock (snd r) = clock w
    /\ exists ids,
         trace (snd r) = trace w ++ id_clicks ids
         /\ (List.length ids <= max_number_of_search_results)%nat
         /\ incl ids (map (link_name name_suffix)
                        (range max_number_of_search_results))).
  { intros name_suffix. cbv zeta.
    destruct (for_each_result_any name_suffix
                (range max_number_of_search_results)
                (range max_number_of_search_results) None w
                (incl_refl _) (or_introl eq_refl))
      as (Hd & Hc & ids & Htr & Hlen & Hin).
    unfold bind, ret.
    destruct (for_each_result br name_suffix _ None w) as [[[]|e|] w'];
      cbn [fst snd] in *; (split; [congruence|]); (split; [exact Hc|]);
      exists ids; repeat split; try assumption;
      unfold range in Hlen; rewrite length_map, length_seq in Hlen;
      exact Hlen. }
  destruct (String.eqb file_type "SF-SAC").
  - apply Hloop.
  - destruct (String.eqb file_type "PDF").
    + apply Hloop.
    + unfold ret. cbn [fst snd]. split; [discriminate|].
      split; [reflexivity|].
      no_click.
Qed.

(** One category of [download_all_linked_files], inside its [try]. *)
Lemma one_category_swallowed (file_type : string) (w : world B) :
  exists w' ids,
    try_except
      (bind (download_one_set_of_result_files br file_type) (fun _ => ret tt))
      (ret tt) w = (Ok tt, w')
    /\ clock w' = clock w
    /\ trace w' = trace w ++ id_clicks ids
    /\ (List.length ids <= max_number_of_search_results)%nat
    /\ incl ids (map (link_name (if String.eqb file_type "SF-SAC"
                                 then "Form"%string else "Audit"%string))
                   (range max_number_of_search_results)).
Proof.
  destruct (download_one_set_of_result_files_any file_type w)
    as (Hd & Hc & ids & Htr & Hlen & Hin).
  unfold try_except, bind, ret.
  destruct (download_one_set_of_result_files br file_type w)
    as [[v|e|] w'] eqn:E; cbn [fst snd] in *; [ | |congruence];
    exists w', ids; auto.
Qed.

Lemma download_all_linked_files_any (w : world B) :
  exists w' forms audits,
    download_all_linked_files br w = (Ok tt, w')
    /\ clock w' = clock w
    /\ trace w'
       = trace w ++ Called "download_all_linked_files"
                    :: id_clicks forms ++ id_clicks audits
    /\ (List.length forms <= max_number_of_search_results)%nat
    /\ (List.length audits <= max_number_of_search_results)%nat
    /\ incl forms (map (link_name "Form")
                     (range max_number_of_search_results))
    /\ incl audits (map (link_name "Audit")
                      (range max_number_of_search_results)).
Proof.
  unfold download_all_linked_files.
  set (w0 := mkworld (bstate w) (clock w)
               (trace w ++ [Called "download_all_linked_files"])).
  destruct (one_category_swallowed "SF-SAC" w0)
    as (w1 & forms & H1 & Hc1 & Ht1 & Hl1 & Hi1).
  destruct (one_category_swallowed "PDF" w1)
    as (w2 & audits & H2 & Hc2 & Ht2 & Hl2 & Hi2).
  exists w2, forms, audits.
  rewrite (bind_Ok _ _ w w0 tt) by reflexivity.
  rewrite (bind_Ok _ _ _ _ tt H1), H2.
  split; [reflexivity|]. split; [rewrite Hc2, Hc1; reflexivity|].
  split; [|auto].
  rewrite Ht2, Ht1. subst w0. cbn [trace]. rewrite <- !app_assoc.
  reflexivity.
Qed.

(** X3. [download_one_set_of_result_files] on any site.  It acts on the
    browser by clicks only: at most 25 of them, each on a download link of
    the category asked for whose slot is one of 0..24, never on a link of
    the other category; time does not pass.  For a file type other than
    ['SF-SAC'] and ['PDF'] it returns [False] and has done nothing. *)
Theorem download_one_set_of_result_files_clicks_own_links
    (file_type : string) (w : world B) :
  let r := download_one_set_of_result_files br file_type w in
  (exists ids,
     trace (snd r) = trace w ++ id_clicks ids
     /\ (List.length ids <= 25)%nat
     /\ (forall id, In id ids ->
           exists i, 0 <= i < 25
             /\ id = link_name (if String.eqb file_type "SF-SAC"
                                then "Form"%string else "Audit"%string) i))
  /\ clock (snd r) = clock w
  /\ (String.eqb file_type "SF-SAC" = false ->
      String.eqb file_type "PDF" = false -> r = (Ok false, w)).
Proof.
  cbv zeta.
  destruct (download_one_set_of_result_files_any file_type w)
    as (_ & Hc & ids & Htr & Hlen & Hin).
  split; [|split; [exact Hc|]].
  - exists ids. split; [exact Htr|]. split; [exact Hlen|].
    intros id Hid. apply Hin in Hid. apply in_map_iff in Hid.
    destruct Hid as (i & <- & Hi). exists i. split; [|reflexivity].
    unfold range in Hi. apply in_map_iff in Hi. destruct Hi as (k & <- & Hk).
    apply in_seq in Hk. unfold max_number_of_search_results in Hk. lia.
  - intros E1 E2. unfold download_one_set_of_result_files.
    rewrite E1, E2. reflexivity.
Qed.

(** X4. [download_all_linked_files] on any site never raises: a look-up that
    fails, a click that raises, the unbound [download_link], all end the
    category they occur in and no more.  What it has done is at most 25
    clicks on form links followed by at most 25 clicks on audit links. *)
Theorem download_all_linked_files_never_raises (w : world B) :
  let r := download_all_linked_files br w in
  fst r = Ok tt
  /\ exists forms audits,
       trace (snd r)
       = trace w ++ Called "download_all_linked_files"
                    :: id_clicks forms ++ id_clicks audits
       /\ (List.length forms <= 25)%nat /\ (List.length audits <= 25)%nat
       /\ incl forms (map (link_name "Form") (range 25))
       /\ incl audits (map (link_name "Audit") (range 25)).
Proof.
  cbv zeta.
  destruct (download_all_linked_files_any w)
    as (w' & forms & audits & -> & _ & Htr & H).
  split; [reflexivity|]. exists forms, audits. split; [exact Htr | exact H].
Qed.

(** X5. [get_next_pager_link] on any site never raises and never acts on the
    browser.  It returns [False] exactly when the pager row is missing
    (the [NameError] on the unbound [pager] is swallowed) or the row has
    no link labelled with the next page number; otherwise it returns the
    link with that label. *)
Theorem get_next_pager_link_never_raises (page_index : Z) (w : world B) :
  let r := get_next_pager_link br page_index w in
  let row := ByCssSelector "tr.GridPager" in
  let link := ByLinkText row (str (page_index + 1)) in
  snd r = w
  /\ (fst r = Ok None \/ fst r = Ok (Some link))
  /\ (fst r = Ok None
      <-> present br (bstate w) row = false
          \/ present br (bstate w) link = false).
Proof.
  cbv zeta. rewrite get_next_pager_link_value. cbn [fst snd].
  destruct (present br (bstate w) (ByCssSelector "tr.GridPager"));
    destruct (present br (bstate w) _); cbn [andb];
    (split; [reflexivity|]); (split; [auto|]);
    split; auto; intros H; try discriminate H;
    destruct H as [H|H]; discriminate H.
Qed.

(** The pager loop counts what it clicks. *)
Lemma pager_loop_any (fuel : nat) :
  forall (link : option element) (idx : Z) (w w' : world B) (k : Z),
    pager_loop br fuel link idx w = (Ok k, w') ->
    (link = None \/ link = Some (Sim.pager_link (idx + 1))) ->
    exists n tr,
      k = idx + Z.of_nat n
      /\ trace w' = trace w ++ tr
      /\ pager_clicks tr = map str (Sim.page_range (idx + 1) n)
      /\ calls "download_all_linked_files" tr = n
      /\ clock w' = clock w + Z.of_nat n.
Proof.
  induction fuel as [|fuel IH]; intros link idx w w' k Hrun Hlink.
  - destruct Hlink as [->| ->]; cbn [pager_loop] in Hrun;
      [|discriminate Hrun].
    injection Hrun as <- <-. exists O, []. rewrite app_nil_r.
    cbn [Z.of_nat]. repeat split; lia.
  - destruct Hlink as [->| ->]; cbn [pager_loop] in Hrun.
    + injection Hrun as <- <-. exists O, []. rewrite app_nil_r.
      cbn [Z.of_nat]. repeat split; lia.
    + apply bind_Ok_inv in Hrun as ([] & w1 & H1 & Hrun).
      apply bind_Ok_inv in Hrun as ([] & w2 & H2 & Hrun).
      apply bind_Ok_inv in Hrun as ([] & w3 & H3 & Hrun).
      apply bind_Ok_inv in Hrun as (next & w4 & H4 & Hrun).
      rewrite get_next_pager_link_value in H4. injection H4 as Hnext <-.
      assert (Hw1 : clock w1 = clock w
                    /\ trace w1 = trace w ++ [Click (Sim.pager_link (idx + 1))]).
      { unfold click, perform in H1.
        destruct (react br _ (bstate w)) as [[e|] b1];
          [discriminate H1|]. injection H1 as <-. auto. }
      assert (Hw2 : clock w2 = clock w1 + 1
                    /\ trace w2 = trace w1 ++ [Sleep 1]).
      { unfold sleep in H2. injection H2 as <-. auto. }
      destruct (download_all_linked_files_any w2)
        as (w3' & forms & audits & H3' & Hc3 & Ht3 & _).
      rewrite H3 in H3'. injection H3' as <-.
      destruct (IH next (idx + 1) w3 w' k Hrun) as (n & tr & Hk & Htr & Hpc & Hc & Hcl).
      { rewrite <- Hnext. unfold Sim.pager_link, Sim.pager.
        destruct (_ && _); auto. }
      exists (S n),
        (Click (Sim.pager_link (idx + 1)) :: Sleep 1
         :: Called "download_all_linked_files"
         :: (id_clicks forms ++ id_clicks audits) ++ tr).
      destruct Hw1 as [Hc1 Ht1]. destruct Hw2 as [Hc2 Ht2].
      split; [lia|]. split.
      { rewrite Htr, Ht3, Ht2, Ht1.
        repeat (rewrite <- app_assoc; cbn [app]). reflexivity. }
      split.
      { rewrite page_range_succ. cbn [map].
        unfold Sim.pager_link at 1. cbn [pager_clicks]. f_equal.
        rewrite !pager_clicks_app, !pager_clicks_id_clicks. exact Hpc. }
      split.
      { cbn [calls String.eqb Ascii.eqb Bool.eqb].
        rewrite !calls_app, !calls_id_clicks, Hc. reflexivity. }
      rewrite Hcl, Hc3, Hc2, Hc1. lia.
Qed.

(** X6. Step 10 of [download_files_from_fac] on any site.  Whenever it
    returns, with [current_page_index = k], it has clicked the pager
    links labelled 2, 3, ..., k, each once and in this order, and no other
    pager link; it has entered [download_all_linked_files] k times; and k
    - 1 seconds have passed, the one-second sleeps after the clicks. *)
Theorem pager_clicks_follow_page_index (fuel : nat) (w w' : world B)
    (k : Z) :
  download_all_pages br fuel w = (Ok k, w') ->
  1 <= k
  /\ exists tr,
       trace w' = trace w ++ tr
       /\ pager_clicks tr = map str (Sim.page_range 2 (Z.to_nat (k - 1)))
       /\ calls "download_all_linked_files" tr = Z.to_nat k
       /\ clock w' = clock w + (k - 1).
Proof.
  intros Hrun. unfold download_all_pages in Hrun.
  apply bind_Ok_inv in Hrun as ([] & w1 & H1 & Hrun).
  apply bind_Ok_inv in Hrun as (next & w2 & H2 & Hrun).
  rewrite get_next_pager_link_value in H2. injection H2 as Hnext <-.
  destruct (download_all_linked_files_any w)
    as (w1' & forms & audits & H1' & Hc1 & Ht1 & _).
  rewrite H1 in H1'. injection H1' as <-.
  destruct (pager_loop_any fuel next 1 w1 w' k Hrun)
    as (n & tr & Hk & Htr & Hpc & Hc & Hcl).
  { rewrite <- Hnext. unfold Sim.pager_link, Sim.pager.
    destruct (_ && _); auto. }
  split; [lia|].
  exists (Called "download_all_linked_files"
          :: (id_clicks forms ++ id_clicks audits) ++ tr).
  replace (Z.to_nat (k - 1)) with n by lia.
  split.
  { rewrite Htr, Ht1. repeat (rewrite <- app_assoc; cbn [app]).
    reflexivity. }
  split.
  { cbn [pager_clicks]. rewrite !pager_clicks_app, !pager_clicks_id_clicks.
    exact Hpc. }
  split.
  { cbn [calls String.eqb Ascii.eqb Bool.eqb].
    rewrite !calls_app, !calls_id_clicks, Hc. lia. }
  rewrite Hcl, Hc1. lia.
Qed.

(** A poll of the download manager leaves the clock alone. *)
Lemma list_completed_chrome_downloads_clock (w : world B) :
  let r := list_completed_chrome_downloads br w in
  fst r <> Diverge /\ clock (snd r) = clock w.
Proof.
  cbv zeta. unfold list_completed_chrome_downloads, bind, perform, ret.
  destruct (negb _).
  - destruct (react br _ (bstate w)) as [[e|] b']; cbn [fst snd clock];
      split; (discriminate || reflexivity).
  - cbn [fst snd]. split; (discriminate || reflexivity).
Qed.

Lemma until_loop_ends (fuel : nat) :
  forall (end_time : Z) (w : world B),
    clock w <= end_time -> end_time - clock w < Z.of_nat fuel ->
    let r := until_loop br fuel end_time 1
               (list_completed_chrome_downloads br) w in
    fst r <> Diverge /\ clock w <= clock (snd r) <= end_time + 1.
Proof.
  induction fuel as [|fuel IH]; intros end_time w Hle Hfuel; [lia|].
  cbv zeta. cbn [until_loop].
  destruct (list_completed_chrome_downloads_clock w) as [Hd Hc].
  assert (Hcont : forall w1, clock w1 = clock w ->
    let r := match sleep br 1 w1 with
             | (_, w2) =>
                 if end_time <? clock w2 then (Raise TimeoutException, w2)
                 else until_loop br fuel end_time 1
                        (list_completed_chrome_downloads br) w2
             end in
    fst r <> Diverge /\ clock w <= clock (snd r) <= end_time + 1).
  { intros w1 Hc1. cbv zeta. unfold sleep.
    cbn [clock]. destruct (Z.ltb_spec end_time (clock w1 + 1)).
    - cbn [fst snd clock]. split; [discriminate | lia].
    - destruct (IH end_time
                  (mkworld (snd (react br (Sleep 1) (bstate w1)))
                     (clock w1 + 1) (trace w1 ++ [Sleep 1])))
        as [Hd' Hc']; cbn [clock] in *; try lia.
      split; [exact Hd' | lia]. }
  destruct (list_completed_chrome_downloads br w) as [[[[|x xs]|]|e|] w1];
    cbn [fst snd] in *.
  - apply Hcont, Hc.
  - split; [discriminate | lia].
  - apply Hcont, Hc.
  - destruct e; try (cbn [fst snd]; split; [discriminate | lia]).
    apply Hcont, Hc.
  - congruence.
Qed.

Lemma wait_and_respond_ends (w : world B) :
  let r := wait_and_respond br w in
  fst r <> Diverge /\ clock w <= clock (snd r) <= clock w + 501.
Proof.
  cbv zeta. unfold wait_and_respond, until.
  change (S (S (Z.to_nat 500))) with 502%nat.
  destruct (until_loop_ends 502 (clock w + 500) w ltac:(lia) ltac:(lia))
    as [Hd Hc].
  unfold bind, quit, ret.
  destruct (until_loop br _ _ 1 (list_completed_chrome_downloads br) w)
    as [[paths|e|] w1]; cbn [fst snd] in *.
  - destruct paths; cbn [fst snd clock]; (split; [discriminate | lia]).
  - split; [discriminate | lia].
  - congruence.
Qed.

(** X7. The wait at the end of [download_files_from_fac] always ends,
    whatever the browser does: within the 501 polls that fit into its 500
    seconds it has returned or raised, and at most 501 seconds have
    passed. *)
Theorem wait_and_respond_always_ends (w : world B) :
  let r := wait_and_respond br w in
  fst r <> Diverge /\ clock w <= clock (snd r) <= clock w + 501.
Proof. exact (wait_and_respond_ends w). Qed.

End AnySite.

(** ** A site whose pager never ends *)

Section EndlessPortal.
Import Py Datetime Selenium Views Spec.

Lemma endless_pager_loop (fuel : nat) :
  forall (idx : Z) (w : world unit),
    exists w' tr,
      pager_loop Endless.portal fuel (Some (Sim.pager_link (idx + 1))) idx w
      = (Diverge, w')
      /\ trace w' = trace w ++ tr
      /\ pager_clicks tr = map str (Sim.page_range (idx + 1) fuel)
      /\ calls "download_all_linked_files" tr = fuel.
Proof.
  induction fuel as [|fuel IH]; intros idx w.
  - exists w, []. rewrite app_nil_r. repeat split.
  - cbn [pager_loop].
    set (w1 := mkworld tt (clock w)
                 (trace w ++ [Click (Sim.pager_link (idx + 1))])).
    rewrite (bind_Ok _ _ w w1 tt) by reflexivity.
    set (w2 := mkworld tt (clock w1 + 1) (trace w1 ++ [Sleep 1])).
    rewrite (bind_Ok _ _ w1 w2 tt) by reflexivity.
    destruct (download_all_linked_files_any Endless.portal w2)
      as (w3 & forms & audits & H3 & _ & Ht3 & _).
    rewrite (bind_Ok _ _ _ _ _ H3).
    assert (H4 : get_next_pager_link Endless.portal (idx + 1) w3
                 = (Ok (Some (Sim.pager_link (idx + 1 + 1))), w3))
      by (rewrite get_next_pager_link_value; reflexivity).
    rewrite (bind_Ok _ _ _ _ _ H4).
    destruct (IH (idx + 1) w3) as (w' & tr & Hrun & Htr & Hpc & Hc).
    exists w',
      (Click (Sim.pager_link (idx + 1)) :: Sleep 1
       :: Called "download_all_linked_files"
       :: (id_clicks forms ++ id_clicks audits) ++ tr).
    split; [exact Hrun|]. split.
    { rewrite Htr, Ht3. subst w2 w1. cbn [trace].
      repeat (rewrite <- app_assoc; cbn [app]). reflexivity. }
    split.
    { rewrite page_range_succ. cbn [map].
      unfold Sim.pager_link at 1. cbn [pager_clicks]. f_equal.
      rewrite !pager_clicks_app, !pager_clicks_id_clicks. exact Hpc. }
    cbn [calls String.eqb Ascii.eqb Bool.eqb].
    rewrite !calls_app, !calls_id_clicks, Hc. reflexivity.
Qed.

(** X8. The pager loop has no bound of its own.  On a site whose pager row
    offers a link to the next page on every page, step 10 of
    [download_files_from_fac] does not return: however many iterations
    are allowed, the loop has used them all, following the links labelled
    2, 3, ..., one per iteration and downloading after each, and asks for
    more. *)
Theorem pager_loop_never_ends_on_endless_pager (fuel : nat) :
  let r := download_all_pages Endless.portal fuel (init tt) in
  fst r = Diverge
  /\ pager_clicks (trace (snd r)) = map str (Sim.page_range 2 fuel)
  /\ calls "download_all_linked_files" (trace (snd r)) = S fuel.
Proof.
  cbv zeta. unfold download_all_pages.
  destruct (download_all_linked_files_any Endless.portal (init tt))
    as (w1 & forms & audits & H1 & _ & Ht1 & _).
  rewrite (bind_Ok _ _ _ _ _ H1).
  assert (H2 : get_next_pager_link Endless.portal 1 w1
               = (Ok (Some (Sim.pager_link (1 + 1))), w1))
    by (rewrite get_next_pager_link_value; reflexivity).
  rewrite (bind_Ok _ _ _ _ _ H2).
  destruct (endless_pager_loop fuel 1 w1) as (w' & tr & Hrun & Htr & Hpc & Hc).
  rewrite Hrun. cbn [fst snd]. split; [reflexivity|].
  rewrite Htr, Ht1. cbn [trace init app]. split.
  - cbn [pager_clicks].
    rewrite !pager_clicks_app, !pager_clicks_id_clicks. exact Hpc.
  - cbn [calls String.eqb Ascii.eqb Bool.eqb].
    rewrite !calls_app, !calls_id_clicks, Hc. reflexivity.
Qed.

End EndlessPortal.

Section PagerWitness.
Import Py Datetime Selenium Views Spec.

Lemma pager_clicks_follow_page_index_witness :
  let s := Sim.showing [Sim.page_with_slots [0; 1]; [];
                        Sim.page_with_slots [0]] in
  let w' := snd (download_all_pages Sim.portal 2 (init s)) in
  1 <= 3
  /\ exists tr,
       trace w' = trace (init s) ++ tr
       /\ pager_clicks tr = map str (Sim.page_range 2 (Z.to_nat (3 - 1)))
       /\ calls "download_all_linked_files" tr = Z.to_nat 3
       /\ clock w' = clock (init s) + (3 - 1).
Proof.
  apply (pager_clicks_follow_page_index Sim.portal 2
           (init (Sim.showing [Sim.page_with_slots [0; 1]; [];
                               Sim.page_with_slots [0]]))
           (snd (download_all_pages Sim.portal 2
                   (init (Sim.showing [Sim.page_with_slots [0; 1]; [];
                                       Sim.page_with_slots [0]]))))
           3).
  vm_compute. reflexivity.
Defined.

End PagerWitness.

(** ** The findings of an agency *)

Section Findings.
Import Py Datetime Views Spec.

Lemma length_filter_le {A : Type} (p : A -> bool) (l : list A) :
  (List.length (filter p l) <= List.length l)%nat.
Proof.
  induction l as [|x l IH]; [apply le_n|].
  cbn [filter]. destruct (p x); cbn [List.length]; lia.
Qed.

(** X9. [__get_number_of_findings] never raises, on a table whose
    column labels are distinct (as [read_csv] makes them).  Without a
    [CYFINDINGS] column the [KeyError] of [__get_findings] and then the
    [AttributeError] on [None.index] are swallowed and the result is
    [None]; with that column the result is the number of rows whose cell
    is the string ['Y'], which lies between 0 and the number of rows. *)
Theorem get_number_of_findings_never_raises (agency_df : DataFrame) :
  NoDup (columns agency_df) ->
  match column_index (columns agency_df) "CYFINDINGS" with
  | None =>
      __get_findings agency_df = Ok None
      /\ __get_number_of_findings agency_df = Ok None
  | Some fnd =>
      exists n,
        __get_number_of_findings agency_df = Ok (Some n)
        /\ n = Z.of_nat (List.length
                 (filter (fun r => eq_str "Y" (nth fnd r CNaN))
                    (rows agency_df)))
        /\ 0 <= n <= len_index agency_df
  end.
Proof.
  intros _.
  destruct (column_index (columns agency_df) "CYFINDINGS") as [fnd|] eqn:E.
  - eexists. split; [apply (number_of_findings _ fnd E)|].
    split; [reflexivity|]. unfold len_index.
    pose proof (length_filter_le (fun r => eq_str "Y" (nth fnd r CNaN))
                  (rows agency_df)). lia.
  - unfold __get_number_of_findings, __get_findings, getitem.
    rewrite E. split; reflexivity.
Qed.

Lemma get_number_of_findings_never_raises_witness :
  exists n,
    __get_number_of_findings ten_rows = Ok (Some n)
    /\ n = Z.of_nat (List.length
             (filter (fun r => eq_str "Y" (nth 2 r CNaN)) (rows ten_rows)))
    /\ 0 <= n <= len_index ten_rows.
Proof.
  apply (get_number_of_findings_never_raises ten_rows).
  repeat constructor; simpl; intuition discriminate.
Defined.

(** X10. [offer_download_of_agency_specific_csv] never answers with a CSV
    file: its first step is [filter_general_table_by_agency], whose read
    of the unbound global [files_directory] raises [NameError], and here
    nothing catches it. *)
Theorem offer_download_of_agency_specific_csv_raises_NameError
    (BASE_DIR : string) (read_csv : string -> res DataFrame)
    (to_csv : DataFrame -> string) (agency_prefix : string) :
  offer_download_of_agency_specific_csv BASE_DIR read_csv to_csv agency_prefix
  = Raise NameError.
Proof. reflexivity. Qed.

End Findings.

(** ** resolve_findings/models.py: the URL of a finding *)

Section FindingUrl.
Import Py Models.







End FindingUrl.

(** ** The whole workflow on the simulated portal *)

Section WholeWorkflow.
Import Py Datetime Selenium Views Spec.

Lemma keys_sent_app (id : string) (t1 t2 : list action) :
  keys_sent id (t1 ++ t2) = keys_sent id t1 ++ keys_sent id t2.
Proof.
  induction t1 as [|a t1 IH]; [reflexivity|].
  destruct a as [| | | |[i| |] keys| | | |]; cbn [app keys_sent];
    try exact IH.
  destruct (String.eqb i id); [cbn [app]; f_equal|]; exact IH.
Qed.

Lemma keys_sent_id_clicks (id : string) (ids : list string) :
  keys_sent id (id_clicks ids) = [].
Proof.
  unfold id_clicks. induction ids as [|i ids IH]; [reflexivity | exact IH].
Qed.

Lemma keys_sent_sleeps (id : string) (k : nat) :
  keys_sent id (repeat (Sleep 1) k) = [].
Proof. induction k as [|k IH]; [reflexivity | exact IH]. Qed.

Lemma pager_clicks_sleeps (k : nat) : pager_clicks (repeat (Sleep 1) k) = [].
Proof. induction k as [|k IH]; [reflexivity | exact IH]. Qed.

Lemma calls_sleeps (f : string) (k : nat) : calls f (repeat (Sleep 1) k) = O.
Proof. induction k as [|k IH]; [reflexivity | exact IH]. Qed.

(** One statement of the script that goes through. *)
Ltac run_step :=
  erewrite bind_Ok by reflexivity; cbn [bstate clock trace].

(** Steps 1 to 9 on the portal before the search. *)
Lemma fill_in_search_form_on_portal (import_today : date)
    (agency_prefix subagency_extension from_date : string) (Y : date)
    (s : Sim.t) (c : Z) (tr : list action) :
  Sim.page s = 0 ->
  Sim.mem agency_prefix (Sim.options s) = true ->
  _calculate_start_date import_today (Some 90) None = Ok from_date ->
  date_sub (Sim.day_today s) 1 = Ok Y ->
  fill_in_search_form import_today Sim.portal agency_prefix
    subagency_extension (mkworld s c tr)
  = (Ok tt,
     mkworld (Sim.mksim (Sim.pages s) 1 FAC_URL (Sim.time s + 6)
                (Sim.downloads s) (Sim.options s) (Sim.day_today s))
       (c + 6)
       (tr ++ search_form_actions from_date (_format_date_for_fac_fields Y)
                agency_prefix subagency_extension)).
Proof.
  destruct s as [pages page url time downloads options day].
  cbn [Sim.page Sim.options Sim.day_today Sim.pages Sim.time Sim.downloads].
  intros -> Hmem Hfrom Hy.
  unfold fill_in_search_form. rewrite Hfrom.
  do 9 run_step.
  erewrite bind_Ok
    by (unfold lift; cbn [today Sim.portal Sim.day_today Sim.set_url
          Sim.set_time Sim.set_page snd react Sim.react bstate];
        rewrite Hy; reflexivity).
  cbn [bstate clock trace].
  do 8 run_step.
  erewrite bind_Ok
    by (unfold select_by_value, perform;
        cbn [today Sim.portal Sim.options Sim.set_url
          Sim.set_time Sim.set_page snd react Sim.react bstate];
        rewrite Hmem; reflexivity).
  cbn [bstate clock trace].
  do 17 run_step.
  unfold sleep.
  cbn [bstate clock trace snd react Sim.portal Sim.react Sim.set_time
       Sim.set_page Sim.set_url Sim.pages Sim.page Sim.url Sim.time
       Sim.downloads Sim.options Sim.day_today].
  cbv [Sim.set_time Sim.set_page Sim.set_url Sim.pages Sim.page Sim.url
       Sim.time Sim.downloads Sim.options Sim.day_today].
  f_equal. f_equal; [f_equal; lia | lia |].
  unfold search_form_actions.
  repeat (rewrite <- app_assoc; cbn [app]). reflexivity.
Qed.

Lemma released_id_clicks (ids : list string) :
  released (id_clicks ids) = false.
Proof.
  unfold released, id_clicks.
  induction ids as [|i ids IH]; [reflexivity | exact IH].
Qed.

Lemma released_sleeps (k : nat) : released (repeat (Sleep 1) k) = false.
Proof. unfold released. induction k as [|k IH]; [reflexivity | exact IH]. Qed.

(** The pager loop from page [p] with [n] pages still ahead, with the
    state it leaves the portal in. *)
Lemma pager_loop_on_portal_state (n : nat) :
  forall (fuel : nat) (w : world Sim.t),
    1 <= Sim.page (bstate w) ->
    Sim.page (bstate w) + Z.of_nat n = Sim.K (bstate w) ->
    (n <= fuel)%nat ->
    exists tr,
      pager_loop Sim.portal fuel
        (if Sim.page (bstate w) <? Sim.K (bstate w)
         then Some (Sim.pager_link (Sim.page (bstate w) + 1)) else None)
        (Sim.page (bstate w)) w
      = (Ok (Sim.K (bstate w)),
         mkworld
           (Sim.mksim (Sim.pages (bstate w)) (Sim.K (bstate w))
              (Sim.url (bstate w)) (Sim.time (bstate w) + Z.of_nat n)
              (Sim.downloads (bstate w)) (Sim.options (bstate w))
              (Sim.day_today (bstate w)))
           (clock w + Z.of_nat n) (trace w ++ tr))
      /\ pager_clicks tr
         = map str (Sim.page_range (Sim.page (bstate w) + 1) n)
      /\ calls "download_all_linked_files" tr = n
      /\ (forall id, keys_sent id tr = [])
      /\ released tr = false.
Proof.
  induction n as [|n IH]; intros fuel w Hp HK Hfuel.
  - destruct (Z.ltb_spec (Sim.page (bstate w)) (Sim.K (bstate w))); [lia|].
    assert (E : Sim.page (bstate w) = Sim.K (bstate w)) by lia.
    exists []. split; [|repeat split].
    destruct fuel; cbn [pager_loop]; unfold ret; rewrite <- E;
      cbn [Z.of_nat]; rewrite !Z.add_0_r, app_nil_r;
      destruct w as [[] c tr]; reflexivity.
  - destruct (Z.ltb_spec (Sim.page (bstate w)) (Sim.K (bstate w))); [|lia].
    destruct fuel as [|fuel]; [lia|]. cbn [pager_loop].
    set (p := Sim.page (bstate w)) in *.
    set (w1 := mkworld (Sim.set_page (bstate w) (p + 1)) (clock w)
                 (trace w ++ [Click (Sim.pager_link (p + 1))])).
    assert (H1 : click Sim.portal (Sim.pager_link (p + 1)) w = (Ok tt, w1)).
    { unfold click, perform. cbn [react Sim.portal].
      rewrite sim_click_pager_link by lia. reflexivity. }
    rewrite (bind_Ok _ _ _ _ _ H1).
    set (w2 := mkworld (Sim.set_time (bstate w1) (Sim.time (bstate w1) + 1))
                 (clock w1 + 1) (trace w1 ++ [Sleep 1])).
    rewrite (bind_Ok _ _ w1 w2 tt) by reflexivity.
    destruct (download_all_linked_files_on_page w2) as (ids & H3).
    { subst w2 w1. cbn. lia. }
    rewrite (bind_Ok _ _ _ _ _ H3).
    set (w3 := mkworld (bstate w2) (clock w2)
                 (trace w2 ++ Called "download_all_linked_files"
                    :: id_clicks ids)) in *.
    assert (Hp3 : Sim.page (bstate w3) = p + 1) by reflexivity.
    assert (HK3 : Sim.K (bstate w3) = Sim.K (bstate w)) by reflexivity.
    pose proof (sim_get_next_pager_link w3) as H4.
    rewrite Hp3, HK3 in H4. specialize (H4 ltac:(lia)).
    rewrite (bind_Ok _ _ _ _ _ H4).
    destruct (IH fuel w3) as (tr & Hrun & Hpc & Hc & Hks & Hrel).
    { rewrite Hp3. lia. }
    { rewrite Hp3, HK3. lia. }
    { lia. }
    exists (Click (Sim.pager_link (p + 1)) :: Sleep 1
            :: Called "download_all_linked_files" :: id_clicks ids ++ tr).
    split; [|split; [|split; [|split]]].
    + etransitivity; [exact Hrun|]. f_equal.
      subst w3 w2 w1 p.
      cbv [bstate clock trace Sim.set_time Sim.set_page Sim.pages Sim.page
           Sim.url Sim.time Sim.downloads Sim.options Sim.day_today Sim.K].
      f_equal; [f_equal; lia | lia |].
      repeat (rewrite <- app_assoc; cbn [app]). reflexivity.
    + rewrite page_range_succ. cbn [map].
      unfold Sim.pager_link at 1. cbn [pager_clicks]. f_equal.
      rewrite pager_clicks_app, pager_clicks_id_clicks, Hpc, Hp3.
      reflexivity.
    + cbn [calls String.eqb Ascii.eqb Bool.eqb].
      rewrite calls_app, calls_id_clicks, Hc. reflexivity.
    + intros id. unfold Sim.pager_link. cbn [keys_sent].
      rewrite keys_sent_app, keys_sent_id_clicks. apply Hks.
    + unfold Sim.pager_link. unfold released in *. cbn [existsb is_quit orb].
      rewrite existsb_app. fold (released (id_clicks ids)).
      rewrite released_id_clicks. exact Hrel.
Qed.

(** X12. The workflow from end to end.  On a portal that shows the search
    form, offers the agency asked for and has K >= 1 result pages, with
    dates from which 90 days and one day can be subtracted, and with a
    download manager that at the n-th poll of the wait (n <= 500) holds
    items that are all COMPLETE, earlier polls having yielded nothing:
    [download_files_from_fac] returns its response; it has typed the two
    dates, each followed by RETURN, walked all K pages through the pager
    links 2..K, entered [download_all_linked_files] once per page, slept
    K + 5 seconds before the wait and n - 1 seconds in it, and its last
    action is to quit the driver. *)
Theorem download_files_from_fac_succeeds_on_portal (BASE_DIR : string)
    (import_today : date) (agency_prefix : pyval)
    (subagency_extension : option string) (fuel : nat) (s : Sim.t)
    (n : nat) :
  let prefix := match agency_prefix with
                | PyStr p => p
                | _ => DEPT_OF_TRANSPORTATION_PREFIX
                end in
  let wait_begins := Sim.time s + Sim.K s + 5 in
  Sim.page s = 0 -> 1 <= Sim.K s -> (Z.to_nat (Sim.K s) - 1 <= fuel)%nat ->
  Sim.mem prefix (Sim.options s) = true ->
  valid_date import_today = true -> 90 < toordinal import_today ->
  valid_date (Sim.day_today s) = true -> 1 < toordinal (Sim.day_today s) ->
  (1 <= n <= 500)%nat ->
  (forall j, (j < n - 1)%nat ->
     truthy (completed_script
               (Sim.downloads s (wait_begins + Z.of_nat j))) = false) ->
  Sim.downloads s (wait_begins + Z.of_nat (n - 1)) <> [] ->
  forallb (fun e => String.eqb (state e) "COMPLETE")
    (Sim.downloads s (wait_begins + Z.of_nat (n - 1))) = true ->
  let r := download_files_from_fac BASE_DIR import_today Sim.portal
             agency_prefix subagency_extension fuel (init s) in
  fst r = Ok (mkresponse "Your download has completed." "text/plain")
  /\ Sim.page (bstate (snd r)) = Sim.K s
  /\ calls "download_all_linked_files" (trace (snd r))
     = Z.to_nat (Sim.K s)
  /\ pager_clicks (trace (snd r))
     = map str (Sim.page_range 2 (Z.to_nat (Sim.K s) - 1))
  /\ clock (snd r) = Sim.K s + 5 + Z.of_nat (n - 1)
  /\ last (trace (snd r)) (Sleep 0) = Quit
  /\ exists S Y,
       valid_date S = true /\ toordinal S = toordinal import_today - 90
       /\ valid_date Y = true
       /\ toordinal Y = toordinal (Sim.day_today s) - 1
       /\ keys_sent "MainContent_UcSearchFilters_DateProcessedControl_FromDate"
            (trace (snd r))
          = [_format_date_for_fac_fields S; Keys_RETURN]
       /\ keys_sent "MainContent_UcSearchFilters_DateProcessedControl_ToDate"
            (trace (snd r))
          = [_format_date_for_fac_fields Y; Keys_RETURN].
Proof.
  intros prefix wait_begins Hpage HK Hfuel Hmem Hvi Hi Hvt Ht Hn
    Hbefore Hne Hall r.
  destruct (date_sub_days import_today 90 Hvi ltac:(lia) Hi)
    as (S & HS & HvS & HoS).
  destruct (date_sub_days (Sim.day_today s) 1 Hvt ltac:(lia) Ht)
    as (Y & HY & HvY & HoY).
  assert (Hfrom : _calculate_start_date import_today (Some 90) None
                  = Ok (_format_date_for_fac_fields S)).
  { unfold _calculate_start_date. cbn [timedelta Z.abs Z.leb Z.compare
      Pos.compare Pos.compare_cont bindr]. rewrite HS. reflexivity. }
  set (ext := match subagency_extension with
              | None => FTA_SUBAGENCY_CODE
              | Some e => e
              end).
  set (start := Start (CHROME_DRIVER_LOCATION BASE_DIR)).
  set (form := search_form_actions (_format_date_for_fac_fields S)
                 (_format_date_for_fac_fields Y) prefix ext).
  pose proof (fill_in_search_form_on_portal import_today prefix ext _ Y s 0
                [start] Hpage Hmem Hfrom HY) as Hfill.
  fold form in Hfill.
  set (w1 := mkworld (Sim.mksim (Sim.pages s) 1 FAC_URL (Sim.time s + 6)
                        (Sim.downloads s) (Sim.options s) (Sim.day_today s))
               (0 + 6) ([start] ++ form)) in Hfill.
  destruct (download_all_linked_files_on_page w1) as (ids & H2).
  { cbn. lia. }
  set (w2 := mkworld (bstate w1) (clock w1)
               (trace w1 ++ Called "download_all_linked_files"
                  :: id_clicks ids)) in H2.
  assert (Hp2 : Sim.page (bstate w2) = 1) by reflexivity.
  assert (HK2 : Sim.K (bstate w2) = Sim.K s) by reflexivity.
  pose proof (sim_get_next_pager_link w2) as H3.
  rewrite Hp2, HK2 in H3. specialize (H3 ltac:(lia)).
  destruct (pager_loop_on_portal_state (Z.to_nat (Sim.K s) - 1) fuel w2)
    as (tr & H4 & Hpc & Hc & Hks & Hrel).
  { rewrite Hp2. lia. }
  { rewrite Hp2, HK2. lia. }
  { exact Hfuel. }
  set (w3 := mkworld
               (Sim.mksim (Sim.pages (bstate w2)) (Sim.K (bstate w2))
                  (Sim.url (bstate w2))
                  (Sim.time (bstate w2) + Z.of_nat (Z.to_nat (Sim.K s) - 1))
                  (Sim.downloads (bstate w2)) (Sim.options (bstate w2))
                  (Sim.day_today (bstate w2)))
               (clock w2 + Z.of_nat (Z.to_nat (Sim.K s) - 1))
               (trace w2 ++ tr)) in H4.
  assert (Hsearch : search_and_download BASE_DIR import_today Sim.portal
                      agency_prefix subagency_extension fuel (init s)
                    = (Ok (Sim.K s), w3)).
  { unfold search_and_download, check_for_chromedriver.
    fold prefix. fold ext.
    rewrite (bind_Ok _ _ (init s) (init s) tt) by reflexivity.
    rewrite (bind_Ok _ _ (init s) (mkworld s 0 [start]) tt) by reflexivity.
    rewrite (bind_Ok _ _ _ _ _ Hfill). unfold download_all_pages.
    rewrite (bind_Ok _ _ _ _ _ H2), (bind_Ok _ _ _ _ _ H3).
    exact H4. }
  assert (Hitems : forall j,
            Sim.items_at w3 j
            = Sim.downloads s (wait_begins + Z.of_nat j)).
  { intros j. unfold Sim.items_at. subst w3 w2 w1 wait_begins.
    cbn [bstate Sim.downloads Sim.time]. f_equal. lia. }
  destruct (Sim.downloads s (wait_begins + Z.of_nat (n - 1)))
    as [|e es] eqn:Ei; [contradiction|].
  assert (Huntil :
    until Sim.portal 500 1 (list_completed_chrome_downloads Sim.portal) w3
    = (Ok (map (fun e => js_or (fileUrl e) (file_url e)) (e :: es)),
       Sim.after_polls (Sim.opened w3) (n - 1))).
  { cbn [map]. apply until_returns_at_poll; [lia | |].
    - intros j Hj. rewrite Hitems. now apply Hbefore.
    - rewrite Hitems, Ei. unfold completed_script. rewrite Hall.
      reflexivity. }
  set (w4 := Sim.after_polls (Sim.opened w3) (n - 1)) in Huntil.
  assert (Hr : r = (Ok (mkresponse "Your download has completed."
                          "text/plain"),
                    mkworld (bstate w4) (clock w4) (trace w4 ++ [Quit]))).
  { subst r.
    change (download_files_from_fac BASE_DIR import_today Sim.portal
              agency_prefix subagency_extension fuel)
      with (bind (search_and_download BASE_DIR import_today Sim.portal
                    agency_prefix subagency_extension fuel)
                 (fun _ => wait_and_respond Sim.portal)).
    rewrite (bind_Ok _ _ _ _ _ Hsearch). unfold wait_and_respond.
    rewrite (bind_Ok _ _ _ _ _ Huntil). reflexivity. }
  assert (Hopened : Sim.opened w3
                    = mkworld (Sim.set_url (bstate w3) "chrome://downloads/")
                        (clock w3)
                        (trace w3 ++ [Get "chrome://downloads/"]))
    by reflexivity.
  assert (Htrace : trace w4 ++ [Quit]
                   = ([start] ++ form)
                     ++ (Called "download_all_linked_files" :: id_clicks ids)
                     ++ tr ++ [Get "chrome://downloads/"]
                     ++ repeat (Sleep 1) (n - 1) ++ [Quit]).
  { subst w4. rewrite Hopened. subst w3 w2 w1.
    cbn [trace Sim.after_polls]. rewrite <- !app_assoc. reflexivity. }
  rewrite Hr. cbn [fst snd bstate clock trace]. rewrite Htrace.
  split; [reflexivity|]. split.
  { subst w4. rewrite Hopened. reflexivity. }
  split.
  { rewrite !calls_app. subst start.
    cbn [calls String.eqb Ascii.eqb Bool.eqb].
    rewrite calls_id_clicks, calls_sleeps, Hc.
    change (calls "download_all_linked_files" form) with O. lia. }
  split.
  { rewrite !pager_clicks_app. subst start. cbn [pager_clicks].
    rewrite pager_clicks_id_clicks, pager_clicks_sleeps, Hpc, Hp2.
    change (pager_clicks form) with (@nil string).
    cbn [app]. rewrite app_nil_r. reflexivity. }
  split.
  { subst w4. rewrite Hopened. subst w3 w2 w1.
    cbn [clock Sim.after_polls]. lia. }
  split.
  { rewrite !app_assoc. apply last_last. }
  exists S, Y. repeat (split; [assumption|]).
  split.
  - rewrite !keys_sent_app. subst start. cbn [keys_sent].
    rewrite keys_sent_id_clicks, keys_sent_sleeps, Hks. reflexivity.
  - rewrite !keys_sent_app. subst start. cbn [keys_sent].
    rewrite keys_sent_id_clicks, keys_sent_sleeps, Hks. reflexivity.
Qed.

Lemma download_files_from_fac_succeeds_on_portal_witness :
  let s := Sim.fresh [Sim.page_with_slots [0; 1]; Sim.page_with_slots [0]]
             (Sim.completes_after 9) in
  let r := download_files_from_fac "/srv" (mkdate 2019 7 1) Sim.portal
             PyNone None 1 (init s) in
  fst r = Ok (mkresponse "Your download has completed." "text/plain")
  /\ Sim.page (bstate (snd r)) = 2
  /\ calls "download_all_linked_files" (trace (snd r)) = 2%nat
  /\ pager_clicks (trace (snd r)) = ["2"%string]
  /\ clock (snd r) = 9
  /\ last (trace (snd r)) (Sleep 0) = Quit.
Proof.
  pose proof (download_files_from_fac_succeeds_on_portal "/srv"
                (mkdate 2019 7 1) PyNone None 1
                (Sim.fresh [Sim.page_with_slots [0; 1];
                            Sim.page_with_slots [0]]
                   (Sim.completes_after 9)) 3) as H.
  cbv zeta in H.
  destruct H as (H1 & H2 & H3 & H4 & H5 & H6 & _).
  - reflexivity.
  - vm_compute. discriminate.
  - vm_compute. lia.
  - reflexivity.
  - reflexivity.
  - vm_compute. reflexivity.
  - reflexivity.
  - vm_compute. reflexivity.
  - lia.
  - intros j Hj.
    assert (E : j = 0%nat \/ j = 1%nat) by lia.
    destruct E as [-> | ->]; vm_compute; reflexivity.
  - vm_compute. discriminate.
  - vm_compute. reflexivity.
  - repeat split; assumption.
Defined.

End WholeWorkflow.

(** ** The search form on any site *)

Section SearchForm.
Import Py Datetime Selenium Views Spec.
Context {B : Type} (br : browser B).

Lemma date_sub_returns_or_raises (d : date) (n : Z) : date_sub d n <> Diverge.
Proof.
  unfold date_sub, timedelta, date_add, fromordinal, date_new.
  destruct (Z.abs (- n) <=? 999999999); cbn [bindr]; [|discriminate].
  destruct (_ && _); [|discriminate].
  destruct (_ord2ymd _) as [[y m] dd]. destruct (valid_date _); discriminate.
Qed.

Lemma _calculate_start_date_returns_or_raises (import_today : date)
    (time_difference : option Z) (end_date : option date) :
  _calculate_start_date import_today time_difference end_date <> Diverge.
Proof.
  unfold _calculate_start_date, timedelta.
  destruct (Z.abs _ <=? 999999999); cbn [bindr]; [|discriminate].
  pose proof (date_sub_returns_or_raises
                match end_date with Some d => d | None => import_today end
                match time_difference with Some t => t | None => 90 end).
  destruct (date_sub _ _); cbn [bindr]; congruence.
Qed.

Lemma step_perform {A : Type} (P : res A * world B -> Prop) (a : action)
    (k : unit -> M B A) (w : world B) :
  (forall e b', P (Raise e, mkworld b' (clock w) (trace w ++ [a]))) ->
  (forall b', P (k tt (mkworld b' (clock w) (trace w ++ [a])))) ->
  P (bind (perform br a) k w).
Proof.
  intros Hraise Hgo. unfold bind, perform.
  destruct (react br a (bstate w)) as [[e|] b']; [apply Hraise | apply Hgo].
Qed.

Lemma step_find {A : Type} (P : res A * world B -> Prop) (l : locator)
    (k : element -> M B A) (w : world B) :
  P (Raise NoSuchElementException, w) -> P (k l w) ->
  P (bind (find br l) k w).
Proof.
  intros Hraise Hgo. unfold bind, find.
  destruct (present br (bstate w) l); [apply Hgo | apply Hraise].
Qed.

Lemma step_sleep {A : Type} (P : res A * world B -> Prop) (seconds : Z)
    (k : unit -> M B A) (w : world B) :
  (forall b', P (k tt (mkworld b' (clock w + seconds)
                         (trace w ++ [Sleep seconds])))) ->
  P (bind (sleep br seconds) k w).
Proof. intros Hgo. unfold bind, sleep. apply Hgo. Qed.

Lemma step_lift {A C : Type} (P : res A * world B -> Prop)
    (f : world B -> res C) (k : C -> M B A) (w : world B) :
  (forall e, f w = Raise e -> P (Raise e, w)) ->
  (f w = Diverge -> P (Diverge, w)) ->
  (forall c, f w = Ok c -> P (k c w)) ->
  P (bind (fun w0 => lift (f w0) w0) k w).
Proof.
  intros Hraise Hdiv Hgo. unfold bind, lift.
  destruct (f w) as [c|e|]; [now apply Hgo | now apply Hraise | now apply Hdiv].
Qed.

Lemma step_lift_value {A C : Type} (P : res A * world B -> Prop)
    (r : res C) (k : C -> M B A) (w : world B) :
  (forall e, r = Raise e -> P (Raise e, w)) ->
  (r = Diverge -> P (Diverge, w)) ->
  (forall c, r = Ok c -> P (k c w)) ->
  P (bind (lift r) k w).
Proof. apply (step_lift P (fun _ => r)). Qed.

(** A run that has stopped: what was done is an initial segment of the
    actions of the form. *)
Ltac stopped :=
  cbn [fst snd trace]; split; [discriminate|];
  eexists _, _, _, _; split;
  [ repeat (rewrite <- app_assoc; cbn [app]); reflexivity
  | split; [reflexivity | intros Hok; discriminate Hok] ].

Ltac form_step :=
  cbv beta; cbn [bstate clock trace];
  first
    [ apply step_find; [stopped|]
    | apply step_perform; [intros ? ?; stopped | intros ?]
    | apply step_sleep; intros ? ].

(** What steps 1 to 9 have done is an initial segment of the actions of
    the form. *)
Lemma fill_in_search_form_initial_segment (import_today : date)
    (agency_prefix subagency_extension : string) (w : world B) :
  let r := fill_in_search_form import_today br agency_prefix
             subagency_extension w in
  fst r <> Diverge
  /\ exists from_date to_date done rest,
       trace (snd r) = trace w ++ done
       /\ search_form_actions from_date to_date agency_prefix
            subagency_extension = done ++ rest
       /\ (fst r = Ok tt ->
           rest = []
           /\ _calculate_start_date import_today (Some 90) None
              = Ok from_date).
Proof.
  cbv zeta.
  set (P := fun r : res unit * world B =>
    fst r <> Diverge
    /\ exists from_date to_date done rest,
         trace (snd r) = trace w ++ done
         /\ search_form_actions from_date to_date agency_prefix
              subagency_extension = done ++ rest
         /\ (fst r = Ok tt ->
             rest = []
             /\ _calculate_start_date import_today (Some 90) None
                = Ok from_date)).
  change (P (fill_in_search_form import_today br agency_prefix
               subagency_extension w)).
  unfold fill_in_search_form, find_element_by_id, click, clear, send_keys,
    select_by_value.
  subst P.
  do 5 form_step.
  cbv beta; cbn [bstate clock trace].
  apply step_lift_value;
    [ intros e _; stopped
    | intros Hd; now apply _calculate_start_date_returns_or_raises in Hd
    | intros from_date Hfrom ].
  do 3 form_step.
  cbv beta; cbn [bstate clock trace].
  apply step_lift;
    [ intros e _; stopped
    | intros Hd; now apply date_sub_returns_or_raises in Hd
    | intros yesterday _ ].
  do 26 form_step.
  cbv beta; cbn [bstate clock trace]. unfold sleep. cbn [fst snd trace].
  split; [discriminate|].
  exists from_date, (_format_date_for_fac_fields yesterday).
  eexists _, _. split;
    [ repeat (rewrite <- app_assoc; cbn [app]); reflexivity
    | split; [reflexivity | intros _; split; [reflexivity | exact Hfrom]] ].
  Unshelve. all: exact EmptyString.
Qed.

(** X13. Steps 1 to 9 of [download_files_from_fac] on any site.  The run ends
    by itself; what it has done to the browser is an initial segment of
    the 22 actions of the form, in their order, so that nothing is
    retried, repeated or skipped and the first failure ends the run; and
    when it returns, all 22 have been done, the "from" date typed being
    the value of [_calculate_start_date(90)]. *)
Theorem fill_in_search_form_acts_in_order (import_today : date)
    (agency_prefix subagency_extension : string) (w : world B) :
  let r := fill_in_search_form import_today br agency_prefix
             subagency_extension w in
  fst r <> Diverge
  /\ exists from_date to_date done rest,
       trace (snd r) = trace w ++ done
       /\ search_form_actions from_date to_date agency_prefix
            subagency_extension = done ++ rest
       /\ (fst r = Ok tt ->
           rest = []
           /\ _calculate_start_date import_today (Some 90) None
              = Ok from_date).
Proof.
  exact (fill_in_search_form_initial_segment import_today agency_prefix
           subagency_extension w).
Qed.

End SearchForm.

(** ** Where the workflow can fail to end *)

Section Termination.
Import Py Datetime Selenium Views Spec.
Context {B : Type} (br : browser B).

Lemma bind_Diverge_inv {A C : Type} (m : M B A) (k : A -> M B C)
    (w w' : world B) :
  bind m k w = (Diverge, w') ->
  m w = (Diverge, w')
  \/ exists a w1, m w = (Ok a, w1) /\ k a w1 = (Diverge, w').
Proof.
  unfold bind. destruct (m w) as [[a|e|] w1]; intros H.
  - right. exists a, w1. auto.
  - discriminate H.
  - left. injection H as <-. reflexivity.
Qed.

Lemma perform_returns_or_raises (a : action) (w w' : world B) :
  perform br a w = (Diverge, w') -> False.
Proof.
  unfold perform. destruct (react br a (bstate w)) as [[e|] b'];
    discriminate.
Qed.

(** A pager loop that has not ended has used every iteration it was
    allowed. *)
Lemma pager_loop_diverges_any (fuel : nat) :
  forall (link : option element) (idx : Z) (w w' : world B),
    pager_loop br fuel link idx w = (Diverge, w') ->
    (link = None \/ link = Some (Sim.pager_link (idx + 1))) ->
    exists tr,
      trace w' = trace w ++ tr
      /\ pager_clicks tr = map str (Sim.page_range (idx + 1) fuel)
      /\ calls "download_all_linked_files" tr = fuel.
Proof.
  induction fuel as [|fuel IH]; intros link idx w w' Hrun Hlink.
  - destruct Hlink as [->| ->]; cbn [pager_loop] in Hrun;
      [discriminate Hrun|].
    injection Hrun as <-. exists []. rewrite app_nil_r. repeat split.
  - destruct Hlink as [->| ->]; cbn [pager_loop] in Hrun;
      [discriminate Hrun|].
    apply bind_Diverge_inv in Hrun
      as [Hd|([] & w1 & H1 & Hrun)];
      [now apply perform_returns_or_raises in Hd|].
    apply bind_Diverge_inv in Hrun
      as [Hd|([] & w2 & H2 & Hrun)]; [discriminate Hd|].
    destruct (download_all_linked_files_any br w2)
      as (w3 & forms & audits & H3 & _ & Ht3 & _).
    apply bind_Diverge_inv in Hrun
      as [Hd|([] & w3' & H3' & Hrun)]; [congruence|].
    rewrite H3 in H3'. injection H3' as <-.
    apply bind_Diverge_inv in Hrun
      as [Hd|(next & w4 & H4 & Hrun)];
      [rewrite get_next_pager_link_value in Hd; discriminate Hd|].
    rewrite get_next_pager_link_value in H4. injection H4 as Hnext <-.
    assert (Ht1 : trace w1 = trace w ++ [Click (Sim.pager_link (idx + 1))]).
    { unfold click, perform in H1.
      destruct (react br _ (bstate w)) as [[e|] b1];
        [discriminate H1|]. injection H1 as <-. reflexivity. }
    assert (Ht2 : trace w2 = trace w1 ++ [Sleep 1]).
    { unfold sleep in H2. injection H2 as <-. reflexivity. }
    destruct (IH next (idx + 1) w3 w' Hrun) as (tr & Htr & Hpc & Hc).
    { rewrite <- Hnext. unfold Sim.pager_link, Sim.pager.
      destruct (_ && _); auto. }
    exists (Click (Sim.pager_link (idx + 1)) :: Sleep 1
            :: Called "download_all_linked_files"
            :: (id_clicks forms ++ id_clicks audits) ++ tr).
    split.
    { rewrite Htr, Ht3, Ht2, Ht1.
      repeat (rewrite <- app_assoc; cbn [app]). reflexivity. }
    split.
    { rewrite page_range_succ. cbn [map].
      unfold Sim.pager_link at 1. cbn [pager_clicks]. f_equal.
      rewrite !pager_clicks_app, !pager_clicks_id_clicks. exact Hpc. }
    cbn [calls String.eqb Ascii.eqb Bool.eqb].
    rewrite !calls_app, !calls_id_clicks, Hc. reflexivity.
Qed.

(** X14. [download_files_from_fac] can fail to end in one place only,
    the pager loop.  On any site, a run that has not ended within the
    iterations allowed to that loop has used all of them: it has followed
    the pager links 2, 3, ..., one per iteration, and has entered
    [download_all_linked_files] once more than that.  The search form,
    the downloads of a page and the wait always end. *)
Theorem download_files_from_fac_ends_unless_pager_goes_on
    (BASE_DIR : string) (import_today : date) (agency_prefix : pyval)
    (subagency_extension : option string) (fuel : nat) (b : B) :
  let r := download_files_from_fac BASE_DIR import_today br agency_prefix
             subagency_extension fuel (init b) in
  fst r = Diverge ->
  pager_clicks (trace (snd r)) = map str (Sim.page_range 2 fuel)
  /\ calls "download_all_linked_files" (trace (snd r)) = S fuel.
Proof.
  cbv zeta.
  set (prefix := match agency_prefix with
                 | PyStr s => s
                 | _ => DEPT_OF_TRANSPORTATION_PREFIX
                 end).
  set (ext := match subagency_extension with
              | None => FTA_SUBAGENCY_CODE
              | Some s => s
              end).
  destruct (download_files_from_fac BASE_DIR import_today br agency_prefix
              subagency_extension fuel (init b)) as [res w'] eqn:Hrun.
  cbn [fst snd]. intros ->.
  unfold download_files_from_fac, check_for_chromedriver in Hrun.
  fold prefix in Hrun. fold ext in Hrun.
  apply bind_Diverge_inv in Hrun as [Hrun|(k & w5 & _ & Hwait)].
  2:{ pose proof (wait_and_respond_ends br w5) as [Hd _].
      rewrite Hwait in Hd. now contradiction Hd. }
  apply bind_Diverge_inv in Hrun as [Hd|([] & w0 & H0 & Hrun)];
    [discriminate Hd|].
  injection H0 as <-.
  apply bind_Diverge_inv in Hrun as [Hd|([] & w1 & H1 & Hrun)];
    [now apply perform_returns_or_raises in Hd|].
  assert (Ht1 : trace w1 = [Start (CHROME_DRIVER_LOCATION BASE_DIR)]).
  { unfold perform in H1.
    destruct (react br _ (bstate (init b))) as [[e|] b1];
      [discriminate H1|]. injection H1 as <-. reflexivity. }
  destruct (fill_in_search_form_initial_segment br import_today prefix ext w1)
    as (Hfd & from_date & to_date & done & rest & Htf & Hform & _).
  apply bind_Diverge_inv in Hrun as [Hd|([] & w2 & H2 & Hrun)];
    [rewrite Hd in Hfd; now contradiction Hfd|].
  rewrite H2 in Htf. cbn [snd] in Htf.
  unfold download_all_pages in Hrun.
  destruct (download_all_linked_files_any br w2)
    as (w3 & forms & audits & H3 & _ & Ht3 & _).
  apply bind_Diverge_inv in Hrun as [Hd|([] & w3' & H3' & Hrun)];
    [congruence|].
  rewrite H3 in H3'. injection H3' as <-.
  apply bind_Diverge_inv in Hrun as [Hd|(next & w4 & H4 & Hrun)];
    [rewrite get_next_pager_link_value in Hd; discriminate Hd|].
  rewrite get_next_pager_link_value in H4. injection H4 as Hnext <-.
  destruct (pager_loop_diverges_any fuel next 1 w3 w' Hrun)
    as (tr & Htr & Hpc & Hc).
  { rewrite <- Hnext. unfold Sim.pager_link, Sim.pager.
    destruct (_ && _); auto. }
  assert (Hdone : pager_clicks done = []
                  /\ calls "download_all_linked_files" done = O).
  { pose proof (f_equal pager_clicks Hform) as Ep.
    pose proof (f_equal (calls "download_all_linked_files") Hform) as Ec.
    rewrite pager_clicks_app in Ep. rewrite calls_app in Ec.
    change (pager_clicks (search_form_actions from_date to_date prefix ext))
      with (@nil string) in Ep.
    change (calls "download_all_linked_files"
              (search_form_actions from_date to_date prefix ext))
      with O in Ec.
    symmetry in Ep. apply app_eq_nil in Ep as [Ep _].
    split; [exact Ep | lia]. }
  destruct Hdone as (Dp & Dc).
  rewrite Htr, Ht3, Htf, Ht1.
  split.
  - rewrite !pager_clicks_app. cbn [pager_clicks].
    rewrite !pager_clicks_app, !pager_clicks_id_clicks, Dp, Hpc.
    reflexivity.
  - rewrite !calls_app. cbn [calls String.eqb Ascii.eqb Bool.eqb].
    rewrite !calls_app, !calls_id_clicks, Dc, Hc. reflexivity.
Qed.

End Termination.

Section TerminationWitness.
Import Py Datetime Selenium Views Spec.

Lemma download_files_from_fac_ends_unless_pager_goes_on_witness :
  let r := download_files_from_fac "/srv" (mkdate 2019 7 1) Endless.portal
             PyNone None 2 (init tt) in
  pager_clicks (trace (snd r)) = map str (Sim.page_range 2 2)
  /\ calls "download_all_linked_files" (trace (snd r)) = 3%nat.
Proof.
  apply (download_files_from_fac_ends_unless_pager_goes_on Endless.portal
           "/srv" (mkdate 2019 7 1) PyNone None 2 tt).
  vm_compute. reflexivity.
Defined.

End TerminationWitness.

(** ** An agency the selector does not offer *)

Section UnknownAgency.
Import Py Datetime Selenium Views Spec.

Ltac run_step :=
  erewrite bind_Ok by reflexivity; cbn [bstate clock trace].

(** Steps 1 to 9 on a portal whose selector does not offer the agency. *)
Lemma fill_in_search_form_unknown_agency (import_today : date)
    (agency_prefix subagency_extension from_date : string) (Y : date)
    (s : Sim.t) (c : Z) (tr : list action) :
  Sim.page s = 0 ->
  Sim.mem agency_prefix (Sim.options s) = false ->
  _calculate_start_date import_today (Some 90) None = Ok from_date ->
  date_sub (Sim.day_today s) 1 = Ok Y ->
  fill_in_search_form import_today Sim.portal agency_prefix
    subagency_extension (mkworld s c tr)
  = (Raise NoSuchElementException,
     mkworld (Sim.mksim (Sim.pages s) 0 FAC_URL (Sim.time s + 2)
                (Sim.downloads s) (Sim.options s) (Sim.day_today s))
       (c + 2)
       (tr ++ firstn 11
                (search_form_actions from_date (_format_date_for_fac_fields Y)
                   agency_prefix subagency_extension))).
Proof.
  destruct s as [pages page url time downloads options day].
  cbn [Sim.page Sim.options Sim.day_today Sim.pages Sim.time Sim.downloads].
  intros -> Hmem Hfrom Hy.
  unfold fill_in_search_form. rewrite Hfrom.
  do 9 run_step.
  erewrite bind_Ok
    by (unfold lift; cbn [today Sim.portal Sim.day_today Sim.set_url
          Sim.set_time Sim.set_page snd react Sim.react bstate];
        rewrite Hy; reflexivity).
  cbn [bstate clock trace].
  do 8 run_step.
  erewrite bind_Raise
    by (unfold select_by_value, perform;
        cbn [today Sim.portal Sim.options Sim.set_url
          Sim.set_time Sim.set_page snd react Sim.react bstate];
        rewrite Hmem; reflexivity).
  cbv [Sim.set_time Sim.set_page Sim.set_url Sim.pages Sim.page Sim.url
       Sim.time Sim.downloads Sim.options Sim.day_today bstate clock trace].
  f_equal. f_equal.
  unfold search_form_actions. cbn [firstn].
  repeat (rewrite <- app_assoc; cbn [app]). reflexivity.
Qed.

(** X15. An agency prefix that the portal's selector does not offer is
    found out only there.  On the simulated portal showing its search
    form, with dates from which 90 days and one day can be subtracted,
    [download_files_from_fac] starts the browser, requests the search
    page, sleeps, opens the first accordion, types the "from" date (the
    day of the import minus 90 days) and the "to" date (yesterday), each
    after clearing the field and each followed by RETURN, opens the
    second accordion and then fails in [select_by_value] with Selenium's
    [NoSuchElementException]: these twelve actions are all it does, so
    nothing is downloaded and the driver is not quit. *)
Theorem download_files_from_fac_fails_at_unknown_agency (BASE_DIR : string)
    (import_today : date) (agency_prefix : string)
    (subagency_extension : option string) (fuel : nat) (s : Sim.t) :
  Sim.page s = 0 ->
  Sim.mem agency_prefix (Sim.options s) = false ->
  valid_date import_today = true -> 90 < toordinal import_today ->
  valid_date (Sim.day_today s) = true -> 1 < toordinal (Sim.day_today s) ->
  let r := download_files_from_fac BASE_DIR import_today Sim.portal
             (PyStr agency_prefix) subagency_extension fuel (init s) in
  let from_field :=
    ById "MainContent_UcSearchFilters_DateProcessedControl_FromDate" in
  let to_field :=
    ById "MainContent_UcSearchFilters_DateProcessedControl_ToDate" in
  fst r = Raise NoSuchElementException
  /\ (exists S Y,
        valid_date S = true /\ toordinal S = toordinal import_today - 90
        /\ valid_date Y = true
        /\ toordinal Y = toordinal (Sim.day_today s) - 1
        /\ trace (snd r)
           = [ Start (CHROME_DRIVER_LOCATION BASE_DIR);
               Get FAC_URL; Sleep 2;
               Click (ById "ui-id-1");
               Clear from_field;
               SendKeys from_field (_format_date_for_fac_fields S);
               SendKeys from_field Keys_RETURN;
               Clear to_field;
               SendKeys to_field (_format_date_for_fac_fields Y);
               SendKeys to_field Keys_RETURN;
               Click (ById "ui-id-5");
               SelectByValue (ById "cfdaPrefix") agency_prefix ])
  /\ calls "download_all_linked_files" (trace (snd r)) = O
  /\ released (trace (snd r)) = false.
Proof.
  intros Hpage Hmem Hvi Hi Hvt Ht.
  destruct (date_sub_days import_today 90 Hvi ltac:(lia) Hi)
    as (S & HS & HvS & HoS).
  destruct (date_sub_days (Sim.day_today s) 1 Hvt ltac:(lia) Ht)
    as (Y & HY & HvY & HoY).
  assert (Hfrom : _calculate_start_date import_today (Some 90) None
                  = Ok (_format_date_for_fac_fields S)).
  { unfold _calculate_start_date. cbn [timedelta Z.abs Z.leb Z.compare
      Pos.compare Pos.compare_cont bindr]. rewrite HS. reflexivity. }
  set (ext := match subagency_extension with
              | None => FTA_SUBAGENCY_CODE
              | Some e => e
              end).
  pose proof (fill_in_search_form_unknown_agency import_today agency_prefix
                ext _ Y s 0 [Start (CHROME_DRIVER_LOCATION BASE_DIR)]
                Hpage Hmem Hfrom HY) as Hfill.
  cbv zeta. unfold download_files_from_fac, check_for_chromedriver.
  fold ext.
  erewrite (bind_Raise _ _ (init s)).
  2:{ rewrite (bind_Ok _ _ (init s) (init s) tt) by reflexivity.
      rewrite (bind_Ok _ _ (init s)
                 (mkworld s 0 [Start (CHROME_DRIVER_LOCATION BASE_DIR)]) tt)
        by reflexivity.
      apply bind_Raise. exact Hfill. }
  cbn [fst snd trace].
  split; [reflexivity|]. split; [|split; reflexivity].
  exists S, Y. repeat (split; [assumption|]). reflexivity.
Qed.

Lemma download_files_from_fac_fails_at_unknown_agency_witness :
  let r := download_files_from_fac "/srv" (mkdate 2019 7 1) Sim.portal
             (PyStr "abc") None 0
             (init (Sim.fresh [Sim.page_with_slots [0]]
                      (Sim.completes_after 0))) in
  fst r = Raise NoSuchElementException
  /\ trace (snd r)
     = [ Start "/srv/distiller/chromedriver";
         Get FAC_URL; Sleep 2;
         Click (ById "ui-id-1");
         Clear (ById "MainContent_UcSearchFilters_DateProcessedControl_FromDate");
         SendKeys
           (ById "MainContent_UcSearchFilters_DateProcessedControl_FromDate")
           "04/02/2019";
         SendKeys
           (ById "MainContent_UcSearchFilters_DateProcessedControl_FromDate")
           Keys_RETURN;
         Clear (ById "MainContent_UcSearchFilters_DateProcessedControl_ToDate");
         SendKeys
           (ById "MainContent_UcSearchFilters_DateProcessedControl_ToDate")
           "07/03/2019";
         SendKeys
           (ById "MainContent_UcSearchFilters_DateProcessedControl_ToDate")
           Keys_RETURN;
         Click (ById "ui-id-5");
         SelectByValue (ById "cfdaPrefix") "abc" ]
  /\ released (trace (snd r)) = false.
Proof.
  pose proof (download_files_from_fac_fails_at_unknown_agency "/srv"
                (mkdate 2019 7 1) "abc" None 0
                (Sim.fresh [Sim.page_with_slots [0]] (Sim.completes_after 0)))
    as H.
  cbv zeta in H.
  destruct H as (H1 & _ & _ & H4);
    try solve [reflexivity | vm_compute; reflexivity].
  split; [exact H1|]. split; [vm_compute; reflexivity | exact H4].
Defined.

End UnknownAgency.

